(** * Restaurant name / menu generator and conversational memory

    A shallow embedding of the two LangChain example programs
    [simple_langchain/main.py] (manual and sequential chaining) and
    [simple_agent_with_memory/main.py] (conversation with a window memory),
    with the properties of their specification.

    The programs are glue code around an imported library.  The parts of
    that library they call ([PromptTemplate], the [|] operator, [LLMChain],
    [SequentialChain], [ConversationChain], [ConversationBufferWindowMemory])
    are not in the repository; they are modelled in the module [LangChain]
    below, and the built-ins of Python the programs use in [Py].  The
    functions of the repository itself are in [SimpleLangchain] and
    [AgentWithMemory] and follow the Python text line by line; [Runs] says
    what a run does as plain functions, and the properties come last.

    Three more pieces of the repository follow the same pattern: the web
    page of [simple_langchain/webApp.py] in [WebApp], the loop of
    [simple_agent_with_memory/main.py] in [Conversation], and the chat loop
    of [langchain_prompts/chatbot.py] in [Chatbot]. *)

From Stdlib Require Import Ascii String DecimalString NArith Lia.
From Stdlib Require Import DecimalPos DecimalN.
From stdpp Require Import base option list strings gmap.

Local Open Scope string_scope.

(** ** Python values and effects *)
Module Py.

(** Exception classes the programs can meet. [CapabilityError] stands for
    whatever the remote completion provider raises (authentication, network,
    rate limit, time-out). *)
Inductive exn_class :=
  | TypeError | KeyError | ValueError | ValidationError
  | OSError | EOFError | CapabilityError.

(** An exception: its class and the text [str(e)] gives. *)
Record exn := Exn { exn_cls : exn_class; exn_str : string }.

#[export] Instance exn_class_eq_dec : EqDecision exn_class.
Proof. solve_decision. Defined.
#[export] Instance exn_eq_dec : EqDecision exn.
Proof. solve_decision. Defined.

(** A [dict] with [str] keys and [str] values; insertion-ordered, as in
    Python, since [repr] shows the order. *)
Definition dict := list (string * string).

Fixpoint dict_get (d : dict) (k : string) : option string :=
  match d with
  | [] => None
  | (k', v) :: d' => if String.eqb k' k then Some v else dict_get d' k
  end.

(** [d[k] = v]: overwrite in place, or append a new key at the end. *)
Fixpoint dict_set (d : dict) (k v : string) : dict :=
  match d with
  | [] => [(k, v)]
  | (k', v') :: d' =>
      if String.eqb k' k then (k', v) :: d' else (k', v') :: dict_set d' k v
  end.

(** [d.update(e)] and [{**d, **e}]. *)
Definition dict_update (d e : dict) : dict :=
  fold_left (fun acc kv => dict_set acc kv.1 kv.2) e d.

(** [sep.join(l)]. *)
Fixpoint join (sep : string) (l : list string) : string :=
  match l with
  | [] => ""
  | [s] => s
  | s :: l' => s +:+ sep +:+ join sep l'
  end.

(** [s * n]. *)
Fixpoint str_mul (s : string) (n : nat) : string :=
  match n with
  | O => ""
  | S n' => s +:+ str_mul s n'
  end.

(** [s.split("\n")]. *)
Fixpoint split_lines_go (cur : string) (s : string) : list string :=
  match s with
  | EmptyString => [String.rev cur]
  | String c s' =>
      if Ascii.eqb c "010"%char then String.rev cur :: split_lines_go "" s'
      else split_lines_go (String c cur) s'
  end.

Definition split_lines (s : string) : list string := split_lines_go "" s.

(** [repr] of a [dict] of strings, given [repr] on [str]. *)
Definition dict_repr (repr_str : string -> string) (d : dict) : string :=
  "{" +:+
  join ", " (map (fun kv => repr_str kv.1 +:+ ": " +:+ repr_str kv.2) d)
  +:+ "}".

(** *** Wall-clock time *)

Record datetime := DateTime {
  year : N; month : N; day : N;
  hour : N; minute : N; second : N
}.

(** Calendar ranges of a [datetime] object (the day is not checked against
    the month's length); years before 1000 are left out, where the C library
    behind [strftime] may not pad [%Y]. *)
Definition valid_datetime (d : datetime) : Prop :=
  (1000 <= year d <= 9999 /\ 1 <= month d <= 12 /\ 1 <= day d <= 31 /\
   hour d < 24 /\ minute d < 60 /\ second d < 60)%N.

Definition dec (n : N) : string := NilZero.string_of_uint (N.to_uint n).

(** Decimal, left-padded with zeros to [width] characters. *)
Definition zfill (width : nat) (n : N) : string :=
  str_mul "0" (width - String.length (dec n)) +:+ dec n.

(** [d.strftime(fmt)] for the directives the programs use; any other
    character is copied. *)
Fixpoint strftime (fmt : string) (d : datetime) : string :=
  match fmt with
  | EmptyString => ""
  | String "%" (String c rest) =>
      (if Ascii.eqb c "Y" then zfill 4 (year d)
       else if Ascii.eqb c "m" then zfill 2 (month d)
       else if Ascii.eqb c "d" then zfill 2 (day d)
       else if Ascii.eqb c "H" then zfill 2 (hour d)
       else if Ascii.eqb c "M" then zfill 2 (minute d)
       else if Ascii.eqb c "S" then zfill 2 (second d)
       else String "%" (String c "")) +:+ strftime rest d
  | String c rest => String c (strftime rest d)
  end.

(** *** The world a run acts on *)

(** Everything outside the interpreter that the programs read or change.
    [console] holds the text of each [print] call (and each [input] prompt),
    oldest first, without the newline [print] adds; logging done by the
    library itself under [verbose=True] is not recorded.  [clock k] is what
    the [k]-th call of [datetime.now()] returns; [disk_fault k] is the
    message of the [OSError] the [k]-th file operation (an [open], a [write]
    or the closing of a file) raises, if it fails.  [llm_log] holds the
    prompts sent to the completion capability, oldest first. *)
Record World := mkWorld {
  console : list string;
  stdin : list string;
  files : gmap string string;
  clock : nat -> datetime;
  clock_reads : nat;
  disk_fault : nat -> option string;
  disk_ops : nat;
  llm_log : list string
}.

Inductive outcome (A : Type) :=
  | Return (a : A)
  | Raise (e : exn).
Arguments Return {A} a.
Arguments Raise {A} e.

(** A computation: runs in a world, returns or raises, leaves a world. *)
Definition M (A : Type) : Type := World -> outcome A * World.

Definition ret {A} (a : A) : M A := fun w => (Return a, w).

Definition raise {A} (e : exn) : M A := fun w => (Raise e, w).

Definition bind {A B} (c : M A) (k : A -> M B) : M B :=
  fun w =>
    match c w with
    | (Return a, w') => k a w'
    | (Raise e, w') => (Raise e, w')
    end.

(** [try: c  except Exception as e: h(e)]. *)
Definition try_except {A} (c : M A) (h : exn -> M A) : M A :=
  fun w =>
    match c w with
    | (Return a, w') => (Return a, w')
    | (Raise e, w') => h e w'
    end.

Declare Scope py_scope.
Delimit Scope py_scope with py.
Notation "x <- c ;; k" := (bind c (fun x => k))
  (at level 100, c at next level, right associativity) : py_scope.
Notation "c ;;; k" := (bind c (fun _ => k))
  (at level 100, right associativity) : py_scope.
Local Open Scope py_scope.

(** [print(s)]. *)
Definition print (s : string) : M unit :=
  fun w =>
    (Return tt,
     mkWorld (console w ++ [s]) (stdin w) (files w) (clock w) (clock_reads w)
             (disk_fault w) (disk_ops w) (llm_log w)).

(** [input(prompt)]: shows the prompt, reads one line; [EOFError] at the end
    of the input. *)
Definition input (prompt : string) : M string :=
  fun w =>
    match stdin w with
    | [] =>
        (Raise (Exn EOFError "EOF when reading a line"),
         mkWorld (console w ++ [prompt]) [] (files w) (clock w) (clock_reads w)
                 (disk_fault w) (disk_ops w) (llm_log w))
    | l :: rest =>
        (Return l,
         mkWorld (console w ++ [prompt]) rest (files w) (clock w)
                 (clock_reads w) (disk_fault w) (disk_ops w) (llm_log w))
    end.

(** [datetime.now()]. *)
Definition datetime_now : M datetime :=
  fun w =>
    (Return (clock w (clock_reads w)),
     mkWorld (console w) (stdin w) (files w) (clock w) (S (clock_reads w))
             (disk_fault w) (disk_ops w) (llm_log w)).

(** One file operation: fails as [disk_fault] says, otherwise changes the
    files by [f]. *)
Definition disk_op (f : gmap string string -> gmap string string) : M unit :=
  fun w =>
    let w' fs :=
      mkWorld (console w) (stdin w) fs (clock w) (clock_reads w)
              (disk_fault w) (S (disk_ops w)) (llm_log w) in
    match disk_fault w (disk_ops w) with
    | Some msg => (Raise (Exn OSError msg), w' (files w))
    | None => (Return tt, w' (f (files w)))
    end.

(** [open(name, 'w', encoding='utf-8')]: creates or empties the file. *)
Definition open_w (name : string) : M string :=
  disk_op (fun fs => <[name := ""]> fs) ;;; ret name.

(** [file.write(s)]. *)
Definition write (file : string) (s : string) : M unit :=
  disk_op (fun fs => <[file := default "" (fs !! file) +:+ s]> fs).

Definition close (file : string) : M unit := disk_op (fun fs => fs).

(** [with open(name, 'w', encoding='utf-8') as file: body(file)]: the file
    is closed on every way out of the body; an error of the closing itself
    is raised in place of the body's outcome. *)
Definition with_open_w {A} (name : string) (body : string -> M A) : M A :=
  file <- open_w name ;;
  fun w =>
    match body file w with
    | (r, w') =>
        match close file w' with
        | (Return _, w'') => (r, w'')
        | (Raise e, w'') => (Raise e, w'')
        end
    end.

End Py.

(** ** The parts of the LangChain library the programs call

    The library is imported by the programs, not defined by them.  Each
    part is modelled from the specification's contract for it (the Template
    Store of 4.1, the Completion Capability of 4.2, the executor of 4.3 and
    4.4, the bounded-window memory), in the shape of the call the programs
    make. *)
Module LangChain.
Import Py.
Local Open Scope py_scope.

(** [PromptTemplate(input_variables=..., template=...)]. *)
Record PromptTemplate := mkPromptTemplate {
  input_variables : list string;
  template : string
}.

(** A format string is literal characters and replacement fields. *)
Inductive piece :=
  | Lit (c : ascii)
  | Field (name : string).

(** Parsing of a format string as [str.format] does it: [{{] and [}}] are
    literal braces, [{name}] is a replacement field.  The text between the
    braces is taken whole as the field's name: conversions, format
    specifications, attribute or index access and positional fields, none
    of which the programs' templates use, are not told apart.  [field] is
    the name read so far (reversed) while inside a field. *)
Fixpoint parse_go (field : option string) (s : string) : exn + list piece :=
  match field, s with
  | None, EmptyString => inr []
  | None, String "{" (String "{" rest) =>
      sum_map id (cons (Lit "{")) (parse_go None rest)
  | None, String "{" rest => parse_go (Some "") rest
  | None, String "}" (String "}" rest) =>
      sum_map id (cons (Lit "}")) (parse_go None rest)
  | None, String "}" _ =>
      inl (Exn ValueError "Single '}' encountered in format string")
  | None, String c rest => sum_map id (cons (Lit c)) (parse_go None rest)
  | Some name, EmptyString =>
      inl (Exn ValueError "expected '}' before end of string")
  | Some name, String "{" _ =>
      inl (Exn ValueError "unexpected '{' in field name")
  | Some name, String "}" rest =>
      sum_map id (cons (Field (String.rev name))) (parse_go None rest)
  | Some name, String c rest => parse_go (Some (String c name)) rest
  end.

Definition parse (s : string) : exn + list piece := parse_go None s.

(** The names of the replacement fields of a format string, in order. *)
Definition placeholders (s : string) : list string :=
  match parse s with
  | inl _ => []
  | inr ps =>
      omap (fun p => match p with Field n => Some n | Lit _ => None end) ps
  end.

(** Each field replaced by its binding; [KeyError] for a name without one. *)
Fixpoint substitute (ps : list piece) (kwargs : dict) : exn + string :=
  match ps with
  | [] => inr ""
  | Lit c :: ps' => sum_map id (String c) (substitute ps' kwargs)
  | Field n :: ps' =>
      match dict_get kwargs n with
      | None => inl (Exn KeyError ("'" +:+ n +:+ "'"))
      | Some v => sum_map id (String.append v) (substitute ps' kwargs)
      end
  end.

(** Modelled from the spec: [render(template, bindings)] of the Template
    Store, which the library does with [template.format] on the keyword
    arguments [kwargs]: a binding is needed for every placeholder, other
    bindings are ignored. *)
Definition str_format (template : string) (kwargs : dict) : exn + string :=
  match parse template with
  | inl e => inl e
  | inr ps => substitute ps kwargs
  end.

Definition lift {A} (r : exn + A) : M A :=
  match r with
  | inl e => raise e
  | inr a => ret a
  end.

Definition has_key (d : dict) (k : string) : bool :=
  bool_decide (is_Some (dict_get d k)).

(** Modelled from the spec: [prompt.invoke(inputs)], the library's entry
    to [render]: every declared variable must be bound (the spec's
    [MissingBindingError]); extra bindings are ignored; the result is the
    rendered prompt text. *)
Definition prompt_invoke (p : PromptTemplate) (inputs : dict) : M string :=
  if forallb (has_key inputs) (input_variables p)
  then lift (str_format (template p) inputs)
  else raise (Exn KeyError "Input to PromptTemplate is missing variables").

(** Modelled from the spec: the Completion Capability, opaque: the text
    (or the error) it gives for a prompt, which may change from one call to
    the next; the first argument is the number of calls made before this
    one. *)
Definition LLM : Type := nat -> string -> exn + string.


(** [llm.invoke(prompt)]: one call of the capability, logged. *)
Definition llm_invoke (llm : LLM) (prompt : string) : M string :=
  fun w =>
    let w' :=
      mkWorld (console w) (stdin w) (files w) (clock w) (clock_reads w)
              (disk_fault w) (disk_ops w) (llm_log w ++ [prompt]) in
    match llm (length (llm_log w)) prompt with
    | inl e => (Raise e, w')
    | inr text => (Return text, w')
    end.

(** Modelled from the spec: [prompt | llm], one step of the pipeline: a
    runnable sequence of the two.  Python's [None] as an operand is a
    [TypeError]. *)
Definition Runnable : Type := PromptTemplate * LLM.

Definition pipe (prompt : option PromptTemplate) (llm : option LLM)
  : M Runnable :=
  match prompt, llm with
  | Some p, Some l => ret (p, l)
  | None, None =>
      raise (Exn TypeError
        "unsupported operand type(s) for |: 'NoneType' and 'NoneType'")
  | _, _ =>
      raise (Exn TypeError
        "Expected a Runnable, callable or dict.Instead got an unsupported type: <class 'NoneType'>")
  end.

(** Modelled from the spec: [(prompt | llm).invoke(inputs)]: render, then
    invoke the capability. *)
Definition invoke (chain : Runnable) (inputs : dict) : M string :=
  prompt <- prompt_invoke chain.1 inputs ;;
  llm_invoke chain.2 prompt.

(** Modelled from the spec: a ChainStep,
    [LLMChain(llm=..., prompt=..., output_key=...)]: a template, the
    capability and an output key. *)
Record LLMChain := mkLLMChain {
  chain_llm : LLM;
  chain_prompt : PromptTemplate;
  output_key : string
}.

Definition new_LLMChain (llm : option LLM) (prompt : option PromptTemplate)
    (output_key : string) : M LLMChain :=
  match llm, prompt with
  | Some l, Some p => ret (mkLLMChain l p output_key)
  | _, _ => raise (Exn ValidationError "validation error for LLMChain")
  end.

(** Modelled from the spec: one step of the executor,
    [chain(inputs, return_only_outputs=True)] for an [LLMChain]: the
    prompt's variables are picked from the inputs, the prompt is rendered,
    the capability is called, and the text comes back under the chain's
    output key. *)
Definition llmchain_call (c : LLMChain) (inputs : dict) : M dict :=
  let vars := input_variables (chain_prompt c) in
  if forallb (has_key inputs) vars then
    let selected := omap (fun k => pair k <$> dict_get inputs k) vars in
    prompt <- lift (str_format (template (chain_prompt c)) selected) ;;
    text <- llm_invoke (chain_llm c) prompt ;;
    ret [(output_key c, text)]
  else raise (Exn ValueError "Missing some input keys").

Record SequentialChain := mkSequentialChain {
  chains : list LLMChain;
  seq_input_variables : list string;
  output_variables : list string
}.

Definition mem (l : list string) (k : string) : bool :=
  bool_decide (k ∈ l).

(** Modelled from the spec: the validation of the dependency graph before
    any step runs, made when a [SequentialChain] is built: each chain's
    inputs are initial inputs or outputs of earlier chains, and no output
    key is produced twice. *)
Fixpoint validate_chains (known : list string) (cs : list LLMChain)
  : exn + list string :=
  match cs with
  | [] => inr known
  | c :: cs' =>
      if negb (forallb (mem known) (input_variables (chain_prompt c)))
      then inl (Exn ValueError "Missing required input keys")
      else if mem known (output_key c)
      then inl (Exn ValueError "Chain returned keys that already exist")
      else validate_chains (known ++ [output_key c]) cs'
  end.

Definition new_SequentialChain (chains : list LLMChain)
    (input_variables output_variables : list string) : M SequentialChain :=
  known <- lift (validate_chains input_variables chains) ;;
  if forallb (mem known) output_variables
  then ret (mkSequentialChain chains input_variables output_variables)
  else raise (Exn ValueError "Expected output variables that were not found").

(** Modelled from the spec: the generic executor (the loop of
    [SequentialChain._call]): each chain runs on the values known so far,
    resolved by name, and adds its output to them. *)
Fixpoint run_chains (cs : list LLMChain) (known_values : dict) : M dict :=
  match cs with
  | [] => ret known_values
  | c :: cs' =>
      outputs <- llmchain_call c known_values ;;
      run_chains cs' (dict_update known_values outputs)
  end.

(** Modelled from the spec: [sequential_chain.invoke(inputs)]: the inputs
    together with the declared output variables. *)
Definition seq_invoke (sc : SequentialChain) (inputs : dict) : M dict :=
  if forallb (has_key inputs) (seq_input_variables sc) then
    known_values <- run_chains (chains sc) inputs ;;
    let outputs :=
      omap (fun k => pair k <$> dict_get known_values k)
           (output_variables sc) in
    ret (dict_update inputs outputs)
  else raise (Exn ValueError "Missing some input keys").

(** *** Conversation memory *)

Inductive role := Human | AI.

(** A chat message: who said it and what. *)
Definition message : Type := role * string.

(** Modelled from the spec: the class [ConversationBufferWindowMemory] is
    imported from the library, not defined by the repository.  It is the
    spec's bounded-window conversational memory: [chat_memory] keeps every
    message, and only the last [k] exchanges (a human message and the AI's
    answer) are handed to the prompt. *)
Record ConversationBufferWindowMemory := mkMemory {
  k : nat;
  chat_memory : list message
}.

(** [l[-n:]] for [n > 0]: the last [n] elements, all of them when there are
    fewer. *)
Definition lastn {A} (n : nat) (l : list A) : list A :=
  drop (length l - n) l.

Definition role_prefix (r : role) : string :=
  match r with
  | Human => "Human"
  | AI => "AI"
  end.

(** The messages as text, one [Human: ...] or [AI: ...] line each. *)
Definition get_buffer_string (ms : list message) : string :=
  join (String "010" "") (map (fun m => role_prefix m.1 +:+ ": " +:+ m.2) ms).

(** Modelled from the spec: the window; what the memory hands out under
    its key [history]. *)
Definition buffer_as_str (m : ConversationBufferWindowMemory) : string :=
  get_buffer_string
    (if decide (0 < k m) then lastn (k m * 2) (chat_memory m) else []).

Definition load_memory_variables (m : ConversationBufferWindowMemory) : dict :=
  [("history", buffer_as_str m)].

(** Modelled from the spec: [memory.save_context]: one more exchange. *)
Definition save_context (m : ConversationBufferWindowMemory)
    (input output : string) : ConversationBufferWindowMemory :=
  mkMemory (k m) (chat_memory m ++ [(Human, input); (AI, output)]).

Record ConversationChain := mkConversationChain {
  conv_llm : LLM;
  conv_memory : ConversationBufferWindowMemory;
  conv_prompt : PromptTemplate
}.

(** Modelled from the spec: [ConversationChain(llm=..., memory=...,
    prompt=...)]: the prompt's variables must be the memory's key and the
    input key. *)
Definition new_ConversationChain (llm : LLM)
    (memory : ConversationBufferWindowMemory) (prompt : PromptTemplate)
  : M ConversationChain :=
  if bool_decide (list_to_set (input_variables prompt)
                  = ({[ "history"; "input" ]} : gset string))
  then ret (mkConversationChain llm memory prompt)
  else raise (Exn ValidationError
                "Got unexpected prompt input variables").

(** Modelled from the spec: [conversation.predict(input=...)], one turn of
    the conversation: the memory's variables are added to
    the input, the prompt is rendered and completed, and the exchange is
    saved in the memory, which happens only when the completion returns.
    The conversation is returned with its memory as it is after the call. *)
Definition predict (conv : ConversationChain) (input : string)
  : M (string * ConversationChain) :=
  let inputs :=
    dict_update [("input", input)] (load_memory_variables (conv_memory conv)) in
  outputs <-
    llmchain_call (mkLLMChain (conv_llm conv) (conv_prompt conv) "response")
                  inputs ;;
  match dict_get outputs "response" with
  | None => raise (Exn KeyError "'response'")
  | Some response =>
      ret (response,
           mkConversationChain (conv_llm conv)
             (save_context (conv_memory conv) input response)
             (conv_prompt conv))
  end.

End LangChain.

(** ** [simple_langchain/main.py] *)
Module SimpleLangchain.
Import Py LangChain.
Local Open Scope py_scope.

(** The newline character. *)
Definition nl : string := String "010" "".

(** What a function of the program hands back to its caller: [None] when it
    ends without a [return], or the [dict] it returns. *)
Inductive value :=
  | PyNone
  | PyDict (d : dict).

(** [d[k]]. *)
Definition getitem (d : dict) (k : string) : M string :=
  match dict_get d k with
  | Some v => ret v
  | None => raise (Exn KeyError ("'" +:+ k +:+ "'"))
  end.

Section Program.

(** [repr] on [str], a built-in of Python. *)
Variable repr_str : string -> string.

(** The capability [OpenAI(temperature=0.7)] gives access to. *)
Variable OpenAI : LLM.

Definition create_llm : M LLM :=
  let llm := OpenAI in
  ret llm.

Definition create_restaurant_name_prompt_template : PromptTemplate :=
  let prompt_template :=
    mkPromptTemplate
      ["cuisine"]
      "I want to open a restaurant for {cuisine} food. Suggest a fancy name for this. Only single name" in
  prompt_template.

Definition create_restaurant_menu_prompt_template : PromptTemplate :=
  let prompt_template :=
    mkPromptTemplate
      ["restaurant_name"]
      "Suggest some veg menu items for {restaurant_name}. Return it as comma separated list." in
  prompt_template.

Definition main_with_sequential_chain (cuisine : string)
    (llm : option LLM)
    (restaurant_name_prompt restaurant_menu_prompt : option PromptTemplate)
  : M value :=
  print "Sequential Chain Implementation Called" ;;;
  name_chain <- new_LLMChain llm restaurant_name_prompt "restaurant_name" ;;
  menu_chain <- new_LLMChain llm restaurant_menu_prompt "menu_items" ;;
  sequential_chain <-
    new_SequentialChain [name_chain; menu_chain]
      ["cuisine"] ["restaurant_name"; "menu_items"] ;;
  result <- seq_invoke sequential_chain [("cuisine", cuisine)] ;;
  print (nl +:+ "Sequential Chain Final Output: " +:+ dict_repr repr_str result) ;;;
  restaurant <- getitem result "restaurant_name" ;;
  print ("Restaurant: " +:+ restaurant) ;;;
  menu <- getitem result "menu_items" ;;
  print ("Menu: " +:+ menu) ;;;
  now <- datetime_now ;;
  let timestamp := strftime "%Y%m%d_%H%M%S" now in
  let filename := "restaurant_output_" +:+ timestamp +:+ ".txt" in
  try_except
    (with_open_w filename (fun file =>
       write file ("=== LangChain Restaurant Generator Output ===" +:+ nl) ;;;
       now <- datetime_now ;;
       write file ("Generated on: " +:+ strftime "%Y-%m-%d %H:%M:%S" now +:+ nl) ;;;
       write file ("Cuisine Type: " +:+ cuisine +:+ nl) ;;;
       write file (str_mul "-" 50 +:+ nl +:+ nl) ;;;
       write file ("Sequential Chain Final Output: "
                   +:+ dict_repr repr_str result +:+ nl +:+ nl) ;;;
       restaurant <- getitem result "restaurant_name" ;;
       write file ("Restaurant Name: " +:+ restaurant +:+ nl +:+ nl) ;;;
       menu <- getitem result "menu_items" ;;
       write file ("Menu Items: " +:+ menu +:+ nl) ;;;
       write file (nl +:+ str_mul "=" 50)) ;;;
     print (nl +:+ "✅ Results saved to: " +:+ filename))
    (fun e => print (nl +:+ "❌ Error saving to file: " +:+ exn_str e)) ;;;
  ret (PyDict result).

Definition main (cuisine : string)
    (llm : option LLM)
    (restaurant_name_prompt restaurant_menu_prompt : option PromptTemplate)
  : M value :=
  print "Main Called" ;;;
  name_chain <- pipe restaurant_name_prompt llm ;;
  menu_chain <- pipe restaurant_menu_prompt llm ;;
  restaurant_name_output <- invoke name_chain [("cuisine", cuisine)] ;;
  menu_output <-
    invoke menu_chain [("restaurant_name", restaurant_name_output)] ;;
  print (nl +:+ "Final Output:") ;;;
  print ("Restaurant: " +:+ restaurant_name_output) ;;;
  print ("Menu: " +:+ menu_output) ;;;
  now <- datetime_now ;;
  let timestamp := strftime "%Y%m%d_%H%M%S" now in
  let filename := "restaurant_output_" +:+ timestamp +:+ ".txt" in
  try_except
    (with_open_w filename (fun file =>
       write file ("=== LangChain Restaurant Generator Output ===" +:+ nl) ;;;
       now <- datetime_now ;;
       write file ("Generated on: " +:+ strftime "%Y-%m-%d %H:%M:%S" now +:+ nl) ;;;
       write file ("Method: Manual Chain Management" +:+ nl) ;;;
       write file ("Cuisine Type: " +:+ cuisine +:+ nl) ;;;
       write file (str_mul "-" 50 +:+ nl +:+ nl) ;;;
       write file ("Restaurant Name: " +:+ restaurant_name_output +:+ nl +:+ nl) ;;;
       write file ("Menu Items: " +:+ menu_output +:+ nl) ;;;
       write file (nl +:+ str_mul "=" 50)) ;;;
     print (nl +:+ "✅ Results saved to: " +:+ filename))
    (fun e => print (nl +:+ "❌ Error saving to file: " +:+ exn_str e)) ;;;
  ret PyNone.

(** A call of [main] in which any argument may be left out ([None] here):
    [cuisine] has no default value, so a call without it raises before the
    body runs; the other parameters default to Python's [None]. *)
Definition call_main (cuisine : option string)
    (llm : option LLM)
    (restaurant_name_prompt restaurant_menu_prompt : option PromptTemplate)
  : M value :=
  match cuisine with
  | None =>
      raise (Exn TypeError
        "main() missing 1 required positional argument: 'cuisine'")
  | Some cuisine =>
      main cuisine llm restaurant_name_prompt restaurant_menu_prompt
  end.

Definition initializeApp : M (LLM * PromptTemplate * PromptTemplate) :=
  llm <- create_llm ;;
  let restaurant_name_prompt_template :=
    create_restaurant_name_prompt_template in
  let restaurant_menu_prompt_template :=
    create_restaurant_menu_prompt_template in
  ret (llm, restaurant_name_prompt_template, restaurant_menu_prompt_template).

(** The [if __name__ == '__main__':] block. *)
Definition script : M value :=
  print "Choose implementation:" ;;;
  print "1. Individual Chains (current implementation)" ;;;
  print "2. Sequential Chain" ;;;
  choice <- input "Enter your choice (1 or 2): " ;;
  configuration <- initializeApp ;;
  let llm := configuration.1.1 in
  let restaurant_name_prompt_template := configuration.1.2 in
  let restaurant_menu_prompt_template := configuration.2 in
  cuisine <-
    input "Enter the cuisine type (e.g., Italian, Mexican, Chinese): " ;;
  if String.eqb choice "1" then
    call_main (Some cuisine) (Some llm)
      (Some restaurant_name_prompt_template)
      (Some restaurant_menu_prompt_template)
  else if String.eqb choice "2" then
    main_with_sequential_chain cuisine (Some llm)
      (Some restaurant_name_prompt_template)
      (Some restaurant_menu_prompt_template)
  else
    print "Invalid choice. Running default implementation." ;;;
    call_main None None None None.

End Program.

(** *** A stub capability and a start world for concrete runs *)

Definition stub_llm : LLM := fun _ prompt =>
  if String.eqb prompt
       "I want to open a restaurant for Italian food. Suggest a fancy name for this. Only single name"
  then inr "Bella Notte"
  else if String.eqb prompt
       "Suggest some veg menu items for Bella Notte. Return it as comma separated list."
  then inr "Margherita Pizza, Caprese Salad, Bruschetta"
  else inl (Exn CapabilityError "no canned answer").

Definition stub_repr (s : string) : string := "'" +:+ s +:+ "'".

Definition world0 : World :=
  mkWorld [] [] ∅ (fun _ => DateTime 2024 3 7 9 5 0) 0 (fun _ => None) 0 [].

End SimpleLangchain.

(** ** [simple_agent_with_memory/main.py] *)
Module AgentWithMemory.
Import Py LangChain.
Local Open Scope py_scope.

Section Program.

(** The capability [OpenAI(temperature=0.7, max_tokens=200)] gives access
    to. *)
Variable OpenAI : LLM.

Definition create_llm : M LLM :=
  let llm := OpenAI in
  ret llm.

Definition create_memory : ConversationBufferWindowMemory :=
  let memory := mkMemory 5 [] in
  memory.

Definition create_conversation_prompt : PromptTemplate :=
  let template := "You are a helpful and friendly AI assistant. You remember our previous conversation.

    Current conversation:
    {history}
    Human: {input}
    AI:" in
  let prompt := mkPromptTemplate ["history"; "input"] template in
  prompt.

Definition create_conversation_chain : M ConversationChain :=
  llm <- create_llm ;;
  let memory := create_memory in
  let prompt := create_conversation_prompt in
  conversation <- new_ConversationChain llm memory prompt ;;
  ret conversation.

(** The conversations the loop of [main] can be in: the one
    [create_conversation_chain] returns, and the one a call of [predict]
    that returns leaves behind ([main] calls [predict] once for each line
    typed that is neither empty nor a farewell).  The index lists the
    exchanges (what the human said, what the AI answered) so far, oldest
    first.  A call of [predict] that raises leaves the conversation as it
    was: [main] reports the error and goes on with the same object. *)
Inductive conversation_after : list (string * string) -> ConversationChain -> Prop :=
  | conv_created w conv w' :
      create_conversation_chain w = (Return conv, w') ->
      conversation_after [] conv
  | conv_predicted xs conv input w response conv' w' :
      conversation_after xs conv ->
      predict conv input w = (Return (response, conv'), w') ->
      conversation_after (xs ++ [(input, response)]) conv'.

(** The text of a list of exchanges. *)
Definition history_of (xs : list (string * string)) : string :=
  get_buffer_string (flat_map (fun x => [(Human, x.1); (AI, x.2)]) xs).

End Program.

End AgentWithMemory.

(** ** What a run does, as functions *)
Module Runs.
Import Py LangChain SimpleLangchain AgentWithMemory.

(** The writes of a [with] block on an open file: each string is appended
    to the content [acc] until a write fails.  Gives the error, if any, the
    content, and the index of the next file operation. *)
Fixpoint session_writes (fault : nat -> option string) (op : nat)
    (acc : string) (ss : list string) : option string * string * nat :=
  match ss with
  | [] => (None, acc, op)
  | s :: ss' =>
      match fault op with
      | Some msg => (Some msg, acc, S op)
      | None => session_writes fault (S op) (acc +:+ s) ss'
      end
  end.

(** A whole file session: the opening, the writes, the closing, which
    happens whenever the opening succeeded.  Gives the message of the error
    that comes out of the block, if any, the content of the file if it was
    opened, and the index of the next file operation. *)
Definition file_session (fault : nat -> option string) (op : nat)
    (ss : list string) : option string * option string * nat :=
  match fault op with
  | Some msg => (Some msg, None, S op)
  | None =>
      let '(err, content, op') := session_writes fault (S op) "" ss in
      match fault op' with
      | Some msg => (Some msg, Some content, S op')
      | None => (err, Some content, S op')
      end
  end.

(** The last line a runner prints. *)
Definition status_line (err : option string) (filename : string) : string :=
  match err with
  | None => nl +:+ "✅ Results saved to: " +:+ filename
  | Some msg => nl +:+ "❌ Error saving to file: " +:+ msg
  end.

Definition files_after (fs : gmap string string) (filename : string)
    (content : option string) : gmap string string :=
  match content with
  | None => fs
  | Some c => <[filename := c]> fs
  end.

Definition report_name (stamp : datetime) : string :=
  "restaurant_output_" +:+ strftime "%Y%m%d_%H%M%S" stamp +:+ ".txt".

(** The strings [main] writes to its report, in order. *)
Definition manual_report (cuisine name menu : string) (generated : datetime)
  : list string :=
  [ "=== LangChain Restaurant Generator Output ===" +:+ nl;
    "Generated on: " +:+ strftime "%Y-%m-%d %H:%M:%S" generated +:+ nl;
    "Method: Manual Chain Management" +:+ nl;
    "Cuisine Type: " +:+ cuisine +:+ nl;
    str_mul "-" 50 +:+ nl +:+ nl;
    "Restaurant Name: " +:+ name +:+ nl +:+ nl;
    "Menu Items: " +:+ menu +:+ nl;
    nl +:+ str_mul "=" 50 ].

(** The [dict] [main_with_sequential_chain] returns. *)
Definition result_dict (cuisine name menu : string) : dict :=
  [("cuisine", cuisine); ("restaurant_name", name); ("menu_items", menu)].

(** The strings [main_with_sequential_chain] writes to its report. *)
Definition sequential_report (repr_str : string -> string)
    (cuisine name menu : string) (generated : datetime) : list string :=
  [ "=== LangChain Restaurant Generator Output ===" +:+ nl;
    "Generated on: " +:+ strftime "%Y-%m-%d %H:%M:%S" generated +:+ nl;
    "Cuisine Type: " +:+ cuisine +:+ nl;
    str_mul "-" 50 +:+ nl +:+ nl;
    "Sequential Chain Final Output: "
      +:+ dict_repr repr_str (result_dict cuisine name menu) +:+ nl +:+ nl;
    "Restaurant Name: " +:+ name +:+ nl +:+ nl;
    "Menu Items: " +:+ menu +:+ nl;
    nl +:+ str_mul "=" 50 ].

(** [''.join(ss)]. *)
Definition concat_str (ss : list string) : string :=
  foldr String.append "" ss.

(** The two-step pipeline as a function: render the first template with the
    cuisine, complete, render the second with the answer, complete.  Gives
    the prompts sent and the two texts, or the error that stopped it.  [i]
    is the number of completion calls made before. *)
Definition pipeline (llm : LLM) (p1 p2 : PromptTemplate) (cuisine : string)
    (i : nat) : list string * (exn + string * string) :=
  match str_format (template p1) [("cuisine", cuisine)] with
  | inl e => ([], inl e)
  | inr q1 =>
      match llm i q1 with
      | inl e => ([q1], inl e)
      | inr name =>
          match str_format (template p2) [("restaurant_name", name)] with
          | inl e => ([q1], inl e)
          | inr q2 =>
              match llm (S i) q2 with
              | inl e => ([q1; q2], inl e)
              | inr menu => ([q1; q2], inr (name, menu))
              end
          end
      end
  end.

(** Both completion calls return: the first, on the rendered name prompt
    [q1], gives [name]; the second, on the rendered menu prompt [q2], gives
    [menu].  [i] is the number of completion calls made before the run. *)
Definition completions_return (llm : LLM) (p1 p2 : PromptTemplate)
    (cuisine : string) (i : nat) (q1 name q2 menu : string) : Prop :=
  str_format (template p1) [("cuisine", cuisine)] = inr q1 /\
  llm i q1 = inr name /\
  str_format (template p2) [("restaurant_name", name)] = inr q2 /\
  llm (S i) q2 = inr menu.

(** The completion call of step [k] (1 or 2) raises [e], the call before
    it, if any, having returned. *)
Definition completion_raises (llm : LLM) (p1 p2 : PromptTemplate)
    (cuisine : string) (i : nat) (k : nat) (e : exn) : Prop :=
  exists q1,
    str_format (template p1) [("cuisine", cuisine)] = inr q1 /\
    match k with
    | 1 => llm i q1 = inl e
    | 2 =>
        exists name q2,
          llm i q1 = inr name /\
          str_format (template p2) [("restaurant_name", name)] = inr q2 /\
          llm (S i) q2 = inl e
    | _ => False
    end.

(** The report as the specification lays it out, line by line: a header
    with the title, the time of generation, the cuisine, 50 dashes, the
    restaurant name, the menu items, 50 equals signs, and no other line. *)
Definition spec_layout (title generated cuisine name menu : string)
  : list string :=
  [ "=== " +:+ title +:+ " ===";
    "Generated on: " +:+ generated;
    "Cuisine Type: " +:+ cuisine;
    str_mul "-" 50;
    "Restaurant Name: " +:+ name;
    "Menu Items: " +:+ menu;
    str_mul "=" 50 ].

(** The prompt of one conversation turn: the conversation template with
    the history and the input in place. *)
Definition turn_prompt (history input : string) : string :=
  "You are a helpful and friendly AI assistant. You remember our previous conversation.

    Current conversation:
    " +:+ history +:+ "
    Human: " +:+ input +:+ "
    AI:".

(** The messages of a list of exchanges. *)
Definition messages_of (xs : list (string * string)) : list message :=
  flat_map (fun x => [(Human, x.1); (AI, x.2)]) xs.

(** *** Capabilities and worlds for concrete runs *)

(** A capability of few words. *)
Definition terse_llm : LLM := fun _ _ => inr "ok".

(** Six exchanges with it, and the conversation they leave. *)
Definition six_exchanges : list (string * string) :=
  [("one", "ok"); ("two", "ok"); ("three", "ok"); ("four", "ok");
   ("five", "ok"); ("six", "ok")].

Definition conversation_after_six : ConversationChain :=
  mkConversationChain terse_llm (mkMemory 5 (messages_of six_exchanges))
    create_conversation_prompt.

(** A capability that is down. *)
Definition dead_llm : LLM := fun _ _ =>
  inl (Exn CapabilityError "Connection error.").

(** A capability that answers the first call and is down afterwards. *)
Definition dying_llm : LLM := fun i prompt =>
  match i with
  | 0 => inr "Bella Notte"
  | _ => inl (Exn CapabilityError "Rate limit reached.")
  end.

(** A capability that answers every prompt. *)
Definition echo_llm : LLM := fun _ prompt => inr ("Re: " +:+ prompt).


(** A world whose disk is full from its fourth file operation on. *)
Definition world_disk_full : World :=
  mkWorld [] [] ∅ (fun _ => DateTime 2024 3 7 9 5 0) 0
    (fun k => if Nat.leb 3 k then Some "[Errno 28] No space left on device"
              else None)
    0 [].

(** The start world with the clock an hour later. *)
Definition world_later : World :=
  mkWorld [] [] ∅ (fun _ => DateTime 2024 3 7 10 5 0) 0 (fun _ => None) 0 [].

(** A world in which the user types a choice and a cuisine. *)
Definition world_typing (choice cuisine : string) : World :=
  mkWorld [] [choice; cuisine] ∅ (fun _ => DateTime 2024 3 7 9 5 0) 0
    (fun _ => None) 0 [].

End Runs.


(** ** Worlds in which lines are typed *)
Module Worlds.
Import Py.

(** A world whose user types the given lines and then ends the input. *)
Definition world_saying (lines : list string) : World :=
  mkWorld [] lines ∅ (fun _ => DateTime 2024 3 7 9 5 0) 0 (fun _ => None) 0 [].

End Worlds.

(** ** More of Python's [str] *)
Module PyStr.

(** A [str] is kept as the bytes of its UTF-8 text.  The methods below are
    those of Python on ASCII text ([s.isascii()]); the properties of lines
    typed by a user are stated for such text. *)
Definition isascii_char (c : ascii) : bool := Nat.ltb (nat_of_ascii c) 128.

Fixpoint isascii (s : string) : bool :=
  match s with
  | EmptyString => true
  | String c s' => isascii_char c && isascii s'
  end.

(** [c.isspace()] on an ASCII character: tab, line feed, vertical tab, form
    feed, carriage return, the four separators 28 to 31, and the space. *)
Definition isspace (c : ascii) : bool :=
  let n := nat_of_ascii c in
  (Nat.leb 9 n && Nat.leb n 13) || (Nat.leb 28 n && Nat.leb n 32).

(** [s.lstrip()], [s.rstrip()] and [s.strip()]. *)
Fixpoint lstrip (s : string) : string :=
  match s with
  | EmptyString => ""
  | String c s' => if isspace c then lstrip s' else s
  end.

Fixpoint rstrip (s : string) : string :=
  match s with
  | EmptyString => ""
  | String c s' =>
      match rstrip s' with
      | EmptyString => if isspace c then "" else String c ""
      | r => String c r
      end
  end.

Definition strip (s : string) : string := rstrip (lstrip s).

(** [s.lower()]. *)
Definition lower_char (c : ascii) : ascii :=
  let n := nat_of_ascii c in
  if Nat.leb 65 n && Nat.leb n 90 then ascii_of_nat (n + 32) else c.

Fixpoint lower (s : string) : string :=
  match s with
  | EmptyString => ""
  | String c s' => String (lower_char c) (lower s')
  end.

(** [s.split(sep)] for a separator of one character: the pieces between
    the separators, empty ones included; never an empty list. *)
Fixpoint split (sep : ascii) (s : string) : list string :=
  match s with
  | EmptyString => [""]
  | String c s' =>
      if Ascii.eqb c sep then "" :: split sep s'
      else
        match split sep s' with
        | [] => [String c ""]
        | piece :: pieces => String c piece :: pieces
        end
  end.

(** [s.count(c)] for one character. *)
Fixpoint count (c : ascii) (s : string) : nat :=
  match s with
  | EmptyString => 0
  | String c' s' => (if Ascii.eqb c' c then 1 else 0) + count c s'
  end.

End PyStr.

(** ** Runs that keep a log of their own

    A computation that, besides acting on the world, adds to a log: the
    elements a script puts on a page, the calls it makes to a chat model.
    The log is kept when the computation raises. *)
Module Session.
Import Py.
Local Open Scope list_scope.

Definition SM (L A : Type) : Type :=
  list L -> World -> outcome A * list L * World.

Definition sret {L A} (a : A) : SM L A := fun log w => (Return a, log, w).

Definition sbind {L A B} (c : SM L A) (k : A -> SM L B) : SM L B :=
  fun log w =>
    match c log w with
    | (Return a, log', w') => k a log' w'
    | (Raise e, log', w') => (Raise e, log', w')
    end.

(** A computation on the world alone. *)
Definition run {L A} (c : M A) : SM L A :=
  fun log w =>
    match c w with
    | (r, w') => (r, log, w')
    end.

(** One more entry in the log. *)
Definition record {L} (x : L) : SM L unit :=
  fun log w => (Return tt, log ++ [x], w).

Declare Scope session_scope.
Delimit Scope session_scope with session.
Notation "x <- c ;; k" := (sbind c (fun x => k))
  (at level 100, c at next level, right associativity) : session_scope.
Notation "c ;;; k" := (sbind c (fun _ => k))
  (at level 100, right associativity) : session_scope.

(** [for x in l: body(x)]. *)
Fixpoint for_each {L A} (l : list A) (body : A -> SM L unit) : SM L unit :=
  match l with
  | [] => sret tt
  | x :: l' => sbind (body x) (fun _ => for_each l' body)
  end.

End Session.

(** ** [simple_langchain/webApp.py] *)
Module WebApp.
Import Py LangChain SimpleLangchain PyStr Session.
Local Open Scope list_scope.
Local Open Scope session_scope.

(** What a Streamlit call puts on the page: [st.title], [st.header] and
    [st.write] show their text, [st.sidebar.selectbox] a list to pick from. *)
Inductive element :=
  | st_title (body : string)
  | st_sidebar_selectbox (label : string) (options : list string)
  | st_header (body : string)
  | st_write (body : string).

(** The script is run from top to bottom for each visit of the page and
    after each pick; the page starts empty and holds the elements shown so
    far, in order. *)
Definition Page (A : Type) : Type := SM element A.

(** [st.sidebar.selectbox(label, options)]: shows the list and returns the
    option picked, the one at position [picked] (the first one until the
    visitor picks another); Python's [None] when there is no such option. *)
Definition selectbox (label : string) (options : list string) (picked : nat)
  : Page (option string) :=
  record (st_sidebar_selectbox label options) ;;;
  sret (options !! picked).

(** [result[k]] on what a runner returned. *)
Definition subscript (result : value) (k : string) : M string :=
  match result with
  | PyDict d => getitem d k
  | PyNone => raise (Exn TypeError "'NoneType' object is not subscriptable")
  end.

Section Program.

Variable repr_str : string -> string.
Variable OpenAI : LLM.

(** The whole script, for a visitor whose pick is at position [picked]. *)
Definition webApp (picked : nat) : Page unit :=
  record (st_title "Restaurant Name and Menu generator") ;;;
  cuisine <-
    selectbox "Pick a cuisine"
      ["Indian"; "Chinese"; "Mexican"; "Arabic"; "Italian"] picked ;;
  match cuisine with
  | Some cuisine =>
      if negb (String.eqb cuisine "") then
        configuration <- run (initializeApp OpenAI) ;;
        let llm := configuration.1.1 in
        let restaurant_name_prompt_template := configuration.1.2 in
        let restaurant_menu_prompt_template := configuration.2 in
        result <-
          run (main_with_sequential_chain repr_str cuisine (Some llm)
                 (Some restaurant_name_prompt_template)
                 (Some restaurant_menu_prompt_template)) ;;
        name <- run (subscript result "restaurant_name") ;;
        record (st_header name) ;;;
        menu <- run (subscript result "menu_items") ;;
        let menu_items := split "," menu in
        for_each menu_items (fun item => record (st_write ("- " +:+ item)))
      else sret tt
  | None => sret tt
  end.

End Program.

(** The options of the list, and the bullets of a menu. *)
Definition cuisines : list string :=
  ["Indian"; "Chinese"; "Mexican"; "Arabic"; "Italian"].

Definition bullets (menu : string) : list element :=
  map (fun item => st_write ("- " +:+ item)) (split "," menu).

End WebApp.

(** ** The loop of [simple_agent_with_memory/main.py] *)
Module Conversation.
Import Py LangChain SimpleLangchain PyStr AgentWithMemory Runs Worlds.
Local Open Scope list_scope.
Local Open Scope py_scope.

Section Program.

Variable OpenAI : LLM.

(** The [while True:] loop.  Every turn reads a line, so the loop ends, by
    [break] or by the [EOFError] of [input], within as many turns as there
    are lines left plus one; [fuel] bounds the number of turns, and [None]
    is the answer when it runs out. *)
Fixpoint conversation_loop (fuel : nat) (conversation : ConversationChain)
  : M (option unit) :=
  match fuel with
  | O => ret None
  | S fuel =>
      line <- input (nl +:+ "You: ") ;;
      let user_input := strip line in
      if existsb (String.eqb (lower user_input)) ["quit"; "exit"; "bye"] then
        print (nl +:+ "AI: Goodbye! Have a great day!") ;;;
        ret (Some tt)
      else if String.eqb user_input "" then
        conversation_loop fuel conversation
      else
        conversation <-
          try_except
            (answer <- predict conversation user_input ;;
             print (nl +:+ "AI: " +:+ answer.1) ;;;
             ret answer.2)
            (fun e =>
               print (nl +:+ "Error: " +:+ exn_str e) ;;;
               print "Please try again." ;;;
               ret conversation) ;;
        conversation_loop fuel conversation
  end.

Definition main (fuel : nat) : M (option unit) :=
  print "=== Simple Conversational AI with Memory ===" ;;;
  print "Type 'quit' or 'exit' to end the conversation" ;;;
  print (str_mul "-" 50) ;;;
  conversation <- create_conversation_chain OpenAI ;;
  conversation_loop fuel conversation.

End Program.

(** *** What the loop does, as a function of the lines typed *)

(** What a line is to the loop. *)
Inductive typed :=
  | Farewell
  | Nothing
  | Said (user_input : string).

Definition read_line (line : string) : typed :=
  let user_input := strip line in
  if existsb (String.eqb (lower user_input)) ["quit"; "exit"; "bye"]
  then Farewell
  else if String.eqb user_input "" then Nothing
  else Said user_input.

(** The account of a conversation: the lines shown on the console, the
    prompts sent to the capability, the exchanges remembered at the end,
    whether the loop ended by [break] (otherwise at the end of the input),
    and the lines left unread. *)
Record account := mkAccount {
  shown : list string;
  sent : list string;
  remembered : list (string * string);
  ended : bool;
  unread : list string
}.

Definition you : string := nl +:+ "You: ".

Definition and_then (lines prompts : list string) (a : account) : account :=
  mkAccount (lines ++ shown a) (prompts ++ sent a) (remembered a) (ended a)
    (unread a).

(** [i] is the number of completion calls made before, [xs] the exchanges
    remembered so far. *)
Fixpoint talk (llm : LLM) (i : nat) (xs : list (string * string))
    (lines : list string) : account :=
  match lines with
  | [] => mkAccount [you] [] xs false []
  | line :: rest =>
      match read_line line with
      | Farewell =>
          mkAccount [you; nl +:+ "AI: Goodbye! Have a great day!"] [] xs true
            rest
      | Nothing => and_then [you] [] (talk llm i xs rest)
      | Said user_input =>
          let prompt := turn_prompt (history_of (lastn 5 xs)) user_input in
          match llm i prompt with
          | inr response =>
              and_then [you; nl +:+ "AI: " +:+ response] [prompt]
                (talk llm (S i) (xs ++ [(user_input, response)]) rest)
          | inl e =>
              and_then
                [you; nl +:+ "Error: " +:+ exn_str e; "Please try again."]
                [prompt]
                (talk llm (S i) xs rest)
          end
      end
  end.

(** How the loop ends. *)
Definition ending (ended : bool) : outcome (option unit) :=
  if ended then Return (Some tt)
  else Raise (Exn EOFError "EOF when reading a line").

(** The three lines [main] prints first. *)
Definition banner : list string :=
  ["=== Simple Conversational AI with Memory ===";
   "Type 'quit' or 'exit' to end the conversation";
   str_mul "-" 50].

(** The lines said before the first farewell, as the capability gets
    them. *)
Fixpoint said_before_farewell (lines : list string) : list string :=
  match lines with
  | [] => []
  | line :: rest =>
      match read_line line with
      | Farewell => []
      | Nothing => said_before_farewell rest
      | Said user_input => user_input :: said_before_farewell rest
      end
  end.

Definition is_farewell (line : string) : bool :=
  match read_line line with
  | Farewell => true
  | _ => false
  end.

Definition is_nothing (line : string) : bool :=
  match read_line line with
  | Nothing => true
  | _ => false
  end.

(** *** Worlds and capabilities for concrete runs *)

(** A capability that fails on its second call only. *)
Definition hiccup_llm : LLM := fun i _ =>
  match i with
  | 1 => inl (Exn CapabilityError "Rate limit reached.")
  | _ => inr "ok"
  end.

End Conversation.

(** ** [langchain_prompts/chatbot.py] and [langchain_prompts/models.py] *)
Module Chatbot.
Import Py Session Worlds.
Local Open Scope list_scope.
Local Open Scope session_scope.

(** The messages of [langchain_core.messages], by their content. *)
Inductive chat_message :=
  | SystemMessage (content : string)
  | HumanMessage (content : string)
  | AIMessage (content : string).

(** A chat model: the content of its answer to a list of messages, or the
    error it raises; the first argument is the number of calls made
    before. *)
Definition ChatModel : Type := nat -> list chat_message -> exn + string.

(** The log of a session: the message lists sent to the model. *)
Definition Chat (A : Type) : Type := SM (list chat_message) A.

(** [model.invoke(messages).content]: one call, logged. *)
Definition model_invoke (model : ChatModel) (messages : list chat_message)
  : Chat string :=
  fun calls w =>
    match model (length calls) messages with
    | inl e => (Raise e, calls ++ [messages], w)
    | inr content => (Return content, calls ++ [messages], w)
    end.

Section Program.

(** The model [AzureChatOpenAI(deployment_name="gpt-4o-mini",
    temperature=0, ...)] gives access to. *)
Variable AzureChatOpenAI : ChatModel.

(** [repr] on a list of messages, as [print(messages)] shows it. *)
Variable repr_messages : list chat_message -> string.

Definition getAzureModel : M ChatModel :=
  let model := AzureChatOpenAI in
  ret model.

(** The [while(True):] loop of [static_chat_message]; [fuel] bounds the
    number of turns as in the conversation loop. *)
Fixpoint static_chat_loop (model : ChatModel) (fuel : nat)
    (messages : list chat_message) : Chat (option unit) :=
  match fuel with
  | O => sret None
  | S fuel =>
      user_input <- run (input "You: ") ;;
      let messages := messages ++ [HumanMessage user_input] in
      if String.eqb user_input "exit" then
        let messages : list chat_message := [] in
        sret (Some tt)
      else
        response <- model_invoke model messages ;;
        let messages := messages ++ [AIMessage response] in
        run (print (repr_messages messages)) ;;;
        static_chat_loop model fuel messages
  end.

Definition static_chat_message (fuel : nat) : Chat (option unit) :=
  model <- run getAzureModel ;;
  let messages := [SystemMessage "You are a helpful assistemt"] in
  static_chat_loop model fuel messages.

End Program.

(** *** What the loop does, as a function of the lines typed *)

(** The message lists sent for the lines typed, from the messages so far:
    one for each line before the first ['exit'], up to the first call that
    fails. *)
Fixpoint chat_calls (model : ChatModel) (i : nat)
    (messages : list chat_message) (lines : list string)
  : list (list chat_message) :=
  match lines with
  | [] => []
  | line :: rest =>
      if String.eqb line "exit" then []
      else
        let asked := messages ++ [HumanMessage line] in
        match model i asked with
        | inl _ => [asked]
        | inr response =>
            asked :: chat_calls model (S i) (asked ++ [AIMessage response]) rest
        end
  end.

(** How the loop ends for the lines typed: by [break], with the error of
    a call, or at the end of the input. *)
Fixpoint chat_ending (model : ChatModel) (i : nat)
    (messages : list chat_message) (lines : list string)
  : outcome (option unit) :=
  match lines with
  | [] => Raise (Exn EOFError "EOF when reading a line")
  | line :: rest =>
      if String.eqb line "exit" then Return (Some tt)
      else
        let asked := messages ++ [HumanMessage line] in
        match model i asked with
        | inl e => Raise e
        | inr response =>
            chat_ending model (S i) (asked ++ [AIMessage response]) rest
        end
  end.

(** A model that repeats what was said last. *)
Definition parrot : ChatModel := fun _ messages =>
  inr match last messages with
      | Some (HumanMessage content) => content
      | _ => ""
      end.

(** A model that is down. *)
Definition silent : ChatModel := fun _ _ =>
  inl (Exn CapabilityError "Connection error.").

Definition plain_repr (messages : list chat_message) : string :=
  "[" +:+ join ", " (map (fun m =>
    match m with
    | SystemMessage c => "SystemMessage(" +:+ c +:+ ")"
    | HumanMessage c => "HumanMessage(" +:+ c +:+ ")"
    | AIMessage c => "AIMessage(" +:+ c +:+ ")"
    end) messages) +:+ "]".

End Chatbot.

(** * Properties *)

Import Py LangChain SimpleLangchain AgentWithMemory Runs.
Local Open Scope list_scope.
Local Open Scope py_scope.

Arguments strftime : simpl never.
Arguments str_mul : simpl never.
Arguments str_format : simpl never.
Arguments dict_repr : simpl never.

(** ** One step of a run *)

Section Steps.
Context {A : Type}.

Lemma bind_unfold {B} (c : M B) (k : B -> M A) w :
  bind c k w = match c w with
               | (Return a, w') => k a w'
               | (Raise e, w') => (Raise e, w')
               end.
Proof. reflexivity. Qed.

Lemma ret_step {B} (b : B) (k : B -> M A) w : bind (ret b) k w = k b w.
Proof. reflexivity. Qed.

Lemma print_step s (k : unit -> M A) con sin fs clk cr df dops log :
  bind (print s) k (mkWorld con sin fs clk cr df dops log)
  = k tt (mkWorld (con ++ [s]) sin fs clk cr df dops log).
Proof. reflexivity. Qed.

Lemma now_step (k : datetime -> M A) con sin fs clk cr df dops log :
  bind datetime_now k (mkWorld con sin fs clk cr df dops log)
  = k (clk cr) (mkWorld con sin fs clk (S cr) df dops log).
Proof. reflexivity. Qed.

Lemma getitem_name c n m (k : string -> M A) w :
  bind (getitem (result_dict c n m) "restaurant_name") k w = k n w.
Proof. reflexivity. Qed.

Lemma getitem_menu c n m (k : string -> M A) w :
  bind (getitem (result_dict c n m) "menu_items") k w = k m w.
Proof. reflexivity. Qed.

Lemma write_step file s (k : unit -> M A) con sin fs acc clk cr df dops log :
  bind (write file s) k
    (mkWorld con sin (<[file := acc]> fs) clk cr df dops log)
  = match df dops with
    | Some msg =>
        (Raise (Exn OSError msg),
         mkWorld con sin (<[file := acc]> fs) clk cr df (S dops) log)
    | None =>
        k tt (mkWorld con sin (<[file := acc +:+ s]> fs) clk cr df (S dops) log)
    end.
Proof.
  unfold bind, write, disk_op; cbn.
  destruct (df dops); [reflexivity|].
  by rewrite lookup_insert_eq, insert_insert_eq.
Qed.

Lemma open_step name (k : string -> M A) con sin fs clk cr df dops log :
  bind (open_w name) k (mkWorld con sin fs clk cr df dops log)
  = match df dops with
    | Some msg =>
        (Raise (Exn OSError msg), mkWorld con sin fs clk cr df (S dops) log)
    | None =>
        k name (mkWorld con sin (<[name := ""]> fs) clk cr df (S dops) log)
    end.
Proof.
  unfold bind, open_w, disk_op, bind, ret; cbn.
  by destruct (df dops).
Qed.

End Steps.

Lemma write_last file s con sin fs acc clk cr df dops log :
  write file s (mkWorld con sin (<[file := acc]> fs) clk cr df dops log)
  = match df dops with
    | Some msg =>
        (Raise (Exn OSError msg),
         mkWorld con sin (<[file := acc]> fs) clk cr df (S dops) log)
    | None =>
        (Return tt,
         mkWorld con sin (<[file := acc +:+ s]> fs) clk cr df (S dops) log)
    end.
Proof.
  unfold write, disk_op; cbn.
  destruct (df dops); [reflexivity|].
  by rewrite lookup_insert_eq, insert_insert_eq.
Qed.

Lemma close_run file con sin fs clk cr df dops log :
  close file (mkWorld con sin fs clk cr df dops log)
  = match df dops with
    | Some msg =>
        (Raise (Exn OSError msg), mkWorld con sin fs clk cr df (S dops) log)
    | None => (Return tt, mkWorld con sin fs clk cr df (S dops) log)
    end.
Proof. unfold close, disk_op; cbn. by destruct (df dops). Qed.

Ltac step_in H :=
  first [ rewrite print_step in H | rewrite now_step in H
        | rewrite write_step in H | rewrite open_step in H
        | rewrite write_last in H | rewrite close_run in H
        | rewrite ret_step in H
        | rewrite getitem_name in H | rewrite getitem_menu in H ];
  cbv beta iota in H.

Ltac fault_in H :=
  match type of H with
  | context [match ?df ?i with Some _ => _ | None => _ end] =>
      lazymatch type of df with
      | nat -> option string =>
          let E := fresh "E" in destruct (df i) eqn:E; cbv beta iota in H
      end
  end.

Ltac finish r :=
  subst r; eexists; cbn; rewrite <- ?app_assoc; reflexivity.

(** A failed write: the file is closed, the error is handled. *)
Ltac failed_write H r :=
  step_in H; fault_in H; finish r.

(** Runs the [try] block of a runner, kept in [H : r = ...], through every
    place where a file operation can fail. *)
Ltac run_sink H r :=
  rewrite (bind_unfold (try_except _ _)) in H;
  unfold try_except in H;
  rewrite (bind_unfold (with_open_w _ _)) in H;
  unfold with_open_w in H;
  unfold file_session, manual_report, sequential_report;
  cbn [session_writes];
  change (String.append EmptyString ?x) with x;
  step_in H;
  fault_in H; [ finish r | ];
  repeat (step_in H; try (fault_in H; [ failed_write H r | ]));
  try fault_in H; finish r.

Lemma invoke_run p llm inputs con sin fs clk cr df dops log :
  forallb (has_key inputs) (input_variables p) = true ->
  invoke (p, llm) inputs (mkWorld con sin fs clk cr df dops log)
  = match str_format (template p) inputs with
    | inl e => (Raise e, mkWorld con sin fs clk cr df dops log)
    | inr q =>
        match llm (length log) q with
        | inl e => (Raise e, mkWorld con sin fs clk cr df dops (log ++ [q]))
        | inr t => (Return t, mkWorld con sin fs clk cr df dops (log ++ [q]))
        end
    end.
Proof.
  intros Hk. unfold invoke, prompt_invoke, bind, lift, llm_invoke; cbn.
  rewrite Hk. destruct (str_format _ _); [reflexivity|]; cbn.
  destruct (llm _ _); reflexivity.
Qed.

(** ** The manual runner, whole *)

Lemma main_chain cuisine llm p1 p2 w :
  input_variables p1 = ["cuisine"] ->
  input_variables p2 = ["restaurant_name"] ->
  let filename := report_name (clock w (clock_reads w)) in
  match pipeline llm p1 p2 cuisine (length (llm_log w)) with
  | (calls, inl e) =>
      main cuisine (Some llm) (Some p1) (Some p2) w
      = (Raise e,
         mkWorld (console w ++ ["Main Called"]) (stdin w) (files w) (clock w)
           (clock_reads w) (disk_fault w) (disk_ops w) (llm_log w ++ calls))
  | (calls, inr (name, menu)) =>
      let s :=
        file_session (disk_fault w) (disk_ops w)
          (manual_report cuisine name menu (clock w (S (clock_reads w)))) in
      exists cr',
        main cuisine (Some llm) (Some p1) (Some p2) w
        = (Return PyNone,
           mkWorld
             (console w ++
                ["Main Called"; nl +:+ "Final Output:";
                 "Restaurant: " +:+ name; "Menu: " +:+ menu;
                 status_line s.1.1 filename])
             (stdin w) (files_after (files w) filename s.1.2) (clock w) cr'
             (disk_fault w) s.2 (llm_log w ++ calls))
  end.
Proof.
  intros H1 H2. destruct w as [con sin fs clk cr df dops log].
  cbn [console stdin files clock clock_reads disk_fault disk_ops llm_log].
  cbv zeta. set (filename := report_name (clk cr)). unfold pipeline, main.
  rewrite print_step. cbv beta.
  change (pipe (Some ?p) (Some ?l)) with (ret (p, l)).
  rewrite !ret_step.
  rewrite (bind_unfold (invoke _ _)).
  rewrite invoke_run by (rewrite H1; reflexivity).
  destruct (str_format (template p1) _) as [e|q1]; [by rewrite app_nil_r|].
  destruct (llm (length log) q1) as [e|name]; [reflexivity|].
  rewrite (bind_unfold (invoke _ _)).
  rewrite invoke_run by (rewrite H2; reflexivity).
  destruct (str_format (template p2) _) as [e|q2]; [reflexivity|].
  rewrite length_app, Nat.add_1_r.
  destruct (llm (S (length log)) q2) as [e|menu];
    [by rewrite <- app_assoc|].
  match goal with |- exists cr', ?X = _ => remember X as r eqn:Hr end.
  do 3 step_in Hr. rewrite <- !app_assoc in Hr. cbn [app] in Hr.
  step_in Hr. cbv zeta in Hr. fold (report_name (clk cr)) in Hr.
  fold filename in Hr.
  run_sink Hr r.
Qed.

(** ** The sequential runner, whole *)

Lemma new_SequentialChain_run llm p1 p2 w :
  input_variables p1 = ["cuisine"] ->
  input_variables p2 = ["restaurant_name"] ->
  new_SequentialChain
    [mkLLMChain llm p1 "restaurant_name"; mkLLMChain llm p2 "menu_items"]
    ["cuisine"] ["restaurant_name"; "menu_items"] w
  = (Return
       (mkSequentialChain
          [mkLLMChain llm p1 "restaurant_name"; mkLLMChain llm p2 "menu_items"]
          ["cuisine"] ["restaurant_name"; "menu_items"]), w).
Proof.
  intros H1 H2. unfold new_SequentialChain, validate_chains.
  cbn [chain_prompt output_key]. rewrite H1, H2. reflexivity.
Qed.

Lemma llmchain_call_run llm p key inputs selected
    con sin fs clk cr df dops log :
  forallb (has_key inputs) (input_variables p) = true ->
  omap (fun k => pair k <$> dict_get inputs k) (input_variables p) = selected ->
  llmchain_call (mkLLMChain llm p key) inputs
    (mkWorld con sin fs clk cr df dops log)
  = match str_format (template p) selected with
    | inl e => (Raise e, mkWorld con sin fs clk cr df dops log)
    | inr q =>
        match llm (length log) q with
        | inl e => (Raise e, mkWorld con sin fs clk cr df dops (log ++ [q]))
        | inr t =>
            (Return [(key, t)], mkWorld con sin fs clk cr df dops (log ++ [q]))
        end
    end.
Proof.
  intros Hk Hs. unfold llmchain_call, bind, lift, llm_invoke.
  cbn [chain_prompt chain_llm output_key]. rewrite Hk, Hs.
  destruct (str_format _ _); [reflexivity|]; cbn.
  destruct (llm _ _); reflexivity.
Qed.

Lemma seq_invoke_run llm p1 p2 cuisine con sin fs clk cr df dops log :
  input_variables p1 = ["cuisine"] ->
  input_variables p2 = ["restaurant_name"] ->
  seq_invoke
    (mkSequentialChain
       [mkLLMChain llm p1 "restaurant_name"; mkLLMChain llm p2 "menu_items"]
       ["cuisine"] ["restaurant_name"; "menu_items"])
    [("cuisine", cuisine)] (mkWorld con sin fs clk cr df dops log)
  = match pipeline llm p1 p2 cuisine (length log) with
    | (calls, inl e) =>
        (Raise e, mkWorld con sin fs clk cr df dops (log ++ calls))
    | (calls, inr (name, menu)) =>
        (Return (result_dict cuisine name menu),
         mkWorld con sin fs clk cr df dops (log ++ calls))
    end.
Proof.
  intros H1 H2. unfold seq_invoke, pipeline.
  cbn [seq_input_variables chains output_variables run_chains].
  change (forallb (has_key [("cuisine", cuisine)]) ["cuisine"]) with true.
  cbv iota.
  rewrite (bind_unfold (bind _ _)), (bind_unfold (llmchain_call _ _)).
  rewrite (llmchain_call_run _ _ _ _ [("cuisine", cuisine)])
    by (rewrite H1; reflexivity).
  destruct (str_format (template p1) _) as [e|q1]; [by rewrite app_nil_r|].
  destruct (llm (length log) q1) as [e|name]; [reflexivity|].
  cbv beta iota.
  rewrite (bind_unfold (llmchain_call _ _)).
  rewrite (llmchain_call_run _ _ _ _ [("restaurant_name", name)])
    by (rewrite H2; reflexivity).
  destruct (str_format (template p2) _) as [e|q2]; [reflexivity|].
  rewrite length_app, Nat.add_1_r.
  destruct (llm (S (length log)) q2) as [e|menu];
    [by rewrite <- app_assoc|].
  rewrite <- app_assoc. reflexivity.
Qed.

Lemma seq_chain repr_str cuisine llm p1 p2 w :
  input_variables p1 = ["cuisine"] ->
  input_variables p2 = ["restaurant_name"] ->
  let filename := report_name (clock w (clock_reads w)) in
  match pipeline llm p1 p2 cuisine (length (llm_log w)) with
  | (calls, inl e) =>
      main_with_sequential_chain repr_str cuisine (Some llm) (Some p1) (Some p2) w
      = (Raise e,
         mkWorld (console w ++ ["Sequential Chain Implementation Called"])
           (stdin w) (files w) (clock w) (clock_reads w) (disk_fault w)
           (disk_ops w) (llm_log w ++ calls))
  | (calls, inr (name, menu)) =>
      let s :=
        file_session (disk_fault w) (disk_ops w)
          (sequential_report repr_str cuisine name menu
             (clock w (S (clock_reads w)))) in
      exists cr',
        main_with_sequential_chain repr_str cuisine
          (Some llm) (Some p1) (Some p2) w
        = (Return (PyDict (result_dict cuisine name menu)),
           mkWorld
             (console w ++
                ["Sequential Chain Implementation Called";
                 nl +:+ "Sequential Chain Final Output: "
                   +:+ dict_repr repr_str (result_dict cuisine name menu);
                 "Restaurant: " +:+ name; "Menu: " +:+ menu;
                 status_line s.1.1 filename])
             (stdin w) (files_after (files w) filename s.1.2) (clock w) cr'
             (disk_fault w) s.2 (llm_log w ++ calls))
  end.
Proof.
  intros H1 H2. destruct w as [con sin fs clk cr df dops log].
  cbn [console stdin files clock clock_reads disk_fault disk_ops llm_log].
  cbv zeta. set (filename := report_name (clk cr)).
  unfold main_with_sequential_chain.
  rewrite print_step. cbv beta.
  change (new_LLMChain (Some ?l) (Some ?p) ?k) with (ret (mkLLMChain l p k)).
  rewrite !ret_step.
  rewrite (bind_unfold (new_SequentialChain _ _ _)).
  rewrite new_SequentialChain_run by assumption. cbv beta iota.
  rewrite (bind_unfold (seq_invoke _ _)).
  rewrite seq_invoke_run by assumption.
  destruct (pipeline llm p1 p2 cuisine (length log)) as [calls [e|[name menu]]];
    [reflexivity|].
  match goal with |- exists cr', ?X = _ => remember X as r eqn:Hr end.
  do 5 step_in Hr. rewrite <- !app_assoc in Hr. cbn [app] in Hr.
  step_in Hr. cbv zeta in Hr. fold (report_name (clk cr)) in Hr.
  fold filename in Hr.
  run_sink Hr r.
Qed.

(** ** Strings and file sessions *)

Lemma str_app_assoc (a b c : string) : (a +:+ b) +:+ c = a +:+ (b +:+ c).
Proof.
  induction a as [|x a IH]; [reflexivity|].
  change (String x ((a +:+ b) +:+ c) = String x (a +:+ (b +:+ c))).
  by rewrite IH.
Qed.

Lemma str_app_nil_r (a : string) : a +:+ "" = a.
Proof.
  induction a as [|x a IH]; [reflexivity|].
  change (String x (a +:+ "") = String x a). by rewrite IH.
Qed.

Lemma session_writes_ok fault ss : forall op acc,
  (forall i, i < length ss -> fault (op + i) = None) ->
  session_writes fault op acc ss = (None, acc +:+ concat_str ss, op + length ss).
Proof.
  induction ss as [|s ss IH]; intros op acc Hf; cbn [session_writes].
  - unfold concat_str; cbn. by rewrite str_app_nil_r, Nat.add_0_r.
  - rewrite <- (Nat.add_0_r op) at 1. rewrite (Hf 0) by (cbn; lia).
    rewrite IH.
    + unfold concat_str; cbn [foldr length].
      by rewrite str_app_assoc, Nat.add_succ_r.
    + intros i Hi. rewrite <- (Hf (S i)) by (cbn; lia). f_equal; lia.
Qed.

Lemma session_writes_err fault ss : forall op acc,
  match session_writes fault op acc ss with
  | (None, _, op') =>
      op' = op + length ss /\ forall i, i < length ss -> fault (op + i) = None
  | (Some _, _, _) => True
  end.
Proof.
  induction ss as [|s ss IH]; intros op acc; cbn [session_writes].
  - split; [by rewrite Nat.add_0_r|]. cbn; lia.
  - destruct (fault op) eqn:E; [done|].
    specialize (IH (S op) (acc +:+ s)).
    destruct (session_writes fault (S op) (acc +:+ s) ss) as [[[m|] c] op'];
      [done|].
    destruct IH as [-> IH]. split; [cbn; lia|].
    intros [|i] Hi; [by rewrite Nat.add_0_r|].
    rewrite Nat.add_succ_r. apply IH. cbn in Hi; lia.
Qed.

Lemma file_session_ok fault op ss :
  (forall i, i < length ss + 2 -> fault (op + i) = None) ->
  file_session fault op ss = (None, Some (concat_str ss), op + length ss + 2).
Proof.
  intros Hf. unfold file_session.
  rewrite <- (Nat.add_0_r op) at 1. rewrite (Hf 0) by lia.
  rewrite session_writes_ok.
  - replace (S op + length ss) with (op + S (length ss)) by lia.
    rewrite (Hf (S (length ss))) by lia.
    do 2 f_equal; lia.
  - intros i Hi. rewrite <- (Hf (S i)) by lia. f_equal; lia.
Qed.

Lemma file_session_fault fault op ss k msg :
  k < length ss + 2 -> fault (op + k) = Some msg ->
  exists msg', (file_session fault op ss).1.1 = Some msg'.
Proof.
  intros Hk Hf. unfold file_session.
  destruct (fault op) eqn:E0; [by eexists|].
  pose proof (session_writes_err fault ss (S op) "") as Hs.
  destruct (session_writes fault (S op) "" ss) as [[[m|] c] op'].
  { destruct (fault op'); by eexists. }
  destruct Hs as [-> Hs].
  destruct (fault (S op + length ss)) eqn:E1; [by eexists|]. exfalso.
  destruct k as [|k]; [rewrite Nat.add_0_r in Hf; congruence|].
  destruct (decide (k < length ss)) as [Hlt|Hge].
  - specialize (Hs k Hlt). replace (op + S k) with (S op + k) in Hf by lia.
    congruence.
  - replace (op + S k) with (S op + length ss) in Hf by lia. congruence.
Qed.

(** ** The pipeline *)

Lemma pipeline_return llm p1 p2 cuisine i q1 name q2 menu :
  completions_return llm p1 p2 cuisine i q1 name q2 menu ->
  pipeline llm p1 p2 cuisine i = ([q1; q2], inr (name, menu)).
Proof. intros (F1 & L1 & F2 & L2). unfold pipeline. by rewrite F1, L1, F2, L2. Qed.

Lemma pipeline_raises llm p1 p2 cuisine i k e :
  completion_raises llm p1 p2 cuisine i k e ->
  exists calls, pipeline llm p1 p2 cuisine i = (calls, inl e) /\ length calls = k.
Proof.
  intros (q1 & F1 & Hk). unfold pipeline. rewrite F1.
  destruct k as [|[|[|k]]]; [done| | |done].
  - rewrite Hk. by eexists.
  - destruct Hk as (name & q2 & L1 & F2 & L2). rewrite L1, F2, L2. by eexists.
Qed.


(** The two runners on a run whose completions return. *)
Lemma main_returns cuisine llm p1 p2 w q1 name q2 menu :
  input_variables p1 = ["cuisine"] ->
  input_variables p2 = ["restaurant_name"] ->
  completions_return llm p1 p2 cuisine (length (llm_log w)) q1 name q2 menu ->
  let filename := report_name (clock w (clock_reads w)) in
  let s :=
    file_session (disk_fault w) (disk_ops w)
      (manual_report cuisine name menu (clock w (S (clock_reads w)))) in
  exists cr',
    main cuisine (Some llm) (Some p1) (Some p2) w
    = (Return PyNone,
       mkWorld
         (console w ++
            ["Main Called"; nl +:+ "Final Output:";
             "Restaurant: " +:+ name; "Menu: " +:+ menu;
             status_line s.1.1 filename])
         (stdin w) (files_after (files w) filename s.1.2) (clock w) cr'
         (disk_fault w) s.2 (llm_log w ++ [q1; q2])).
Proof.
  intros H1 H2 Hc. pose proof (main_chain cuisine llm p1 p2 w H1 H2) as Hm.
  cbv zeta in Hm. by rewrite (pipeline_return _ _ _ _ _ _ _ _ _ Hc) in Hm.
Qed.

Lemma sequential_returns repr_str cuisine llm p1 p2 w q1 name q2 menu :
  input_variables p1 = ["cuisine"] ->
  input_variables p2 = ["restaurant_name"] ->
  completions_return llm p1 p2 cuisine (length (llm_log w)) q1 name q2 menu ->
  let filename := report_name (clock w (clock_reads w)) in
  let s :=
    file_session (disk_fault w) (disk_ops w)
      (sequential_report repr_str cuisine name menu
         (clock w (S (clock_reads w)))) in
  exists cr',
    main_with_sequential_chain repr_str cuisine (Some llm) (Some p1) (Some p2) w
    = (Return (PyDict (result_dict cuisine name menu)),
       mkWorld
         (console w ++
            ["Sequential Chain Implementation Called";
             nl +:+ "Sequential Chain Final Output: "
               +:+ dict_repr repr_str (result_dict cuisine name menu);
             "Restaurant: " +:+ name; "Menu: " +:+ menu;
             status_line s.1.1 filename])
         (stdin w) (files_after (files w) filename s.1.2) (clock w) cr'
         (disk_fault w) s.2 (llm_log w ++ [q1; q2])).
Proof.
  intros H1 H2 Hc.
  pose proof (seq_chain repr_str cuisine llm p1 p2 w H1 H2) as Hm.
  cbv zeta in Hm. by rewrite (pipeline_return _ _ _ _ _ _ _ _ _ Hc) in Hm.
Qed.



Lemma stub_completions :
  completions_return stub_llm create_restaurant_name_prompt_template
    create_restaurant_menu_prompt_template "Italian" 0
    "I want to open a restaurant for Italian food. Suggest a fancy name for this. Only single name"
    "Bella Notte"
    "Suggest some veg menu items for Bella Notte. Return it as comma separated list."
    "Margherita Pizza, Caprese Salad, Bruschetta".
Proof. repeat split. Qed.

Lemma last_snoc_list {A} (l : list A) (xs : list A) (x : A) :
  last (l ++ xs ++ [x]) = Some x.
Proof. by rewrite app_assoc, last_snoc. Qed.

(** ** The claims on the two runners *)




(** C2, as amended: on every cuisine on which both completion calls
    succeed, [main] returns [None], not a mapping; the two generated texts
    are what it prints after ['Restaurant: '] and ['Menu: ']. *)
Theorem main_returns_none cuisine llm p1 p2 w q1 name q2 menu :
  input_variables p1 = ["cuisine"] ->
  input_variables p2 = ["restaurant_name"] ->
  completions_return llm p1 p2 cuisine (length (llm_log w)) q1 name q2 menu ->
  let manual := main cuisine (Some llm) (Some p1) (Some p2) w in
  manual.1 = Return PyNone /\
  exists saved,
    console manual.2 =
      console w ++ ["Main Called"; nl +:+ "Final Output:";
                    "Restaurant: " +:+ name; "Menu: " +:+ menu; saved].
Proof.
  intros H1 H2 Hc manual. subst manual.
  destruct (main_returns cuisine llm p1 p2 w q1 name q2 menu H1 H2 Hc)
    as [cr' ->].
  split; [reflexivity|]. by eexists.
Qed.

Lemma main_returns_none_witness :
  let manual :=
    main "Italian" (Some stub_llm)
      (Some create_restaurant_name_prompt_template)
      (Some create_restaurant_menu_prompt_template) world0 in
  manual.1 = Return PyNone /\
  exists saved,
    console manual.2 =
      console world0 ++
        ["Main Called"; nl +:+ "Final Output:";
         "Restaurant: " +:+ "Bella Notte";
         "Menu: " +:+ "Margherita Pizza, Caprese Salad, Bruschetta"; saved].
Proof.
  apply (main_returns_none "Italian" stub_llm
           create_restaurant_name_prompt_template
           create_restaurant_menu_prompt_template world0
           "I want to open a restaurant for Italian food. Suggest a fancy name for this. Only single name"
           "Bella Notte"
           "Suggest some veg menu items for Bella Notte. Return it as comma separated list."
           "Margherita Pizza, Caprese Salad, Bruschetta").
  - reflexivity.
  - reflexivity.
  - repeat split.
Defined.

(** C2 as stated fails: on the cuisine "Italian", with both completion
    calls succeeding, [main] returns [None] and no mapping. *)
Lemma main_returns_no_mapping :
  completions_return stub_llm create_restaurant_name_prompt_template
    create_restaurant_menu_prompt_template "Italian" 0
    "I want to open a restaurant for Italian food. Suggest a fancy name for this. Only single name"
    "Bella Notte"
    "Suggest some veg menu items for Bella Notte. Return it as comma separated list."
    "Margherita Pizza, Caprese Salad, Bruschetta" /\
  ~ exists d,
      (main "Italian" (Some stub_llm)
         (Some create_restaurant_name_prompt_template)
         (Some create_restaurant_menu_prompt_template) world0).1
      = Return (PyDict d) /\
      dict_get d "restaurant_name" = Some "Bella Notte" /\
      dict_get d "menu_items"
      = Some "Margherita Pizza, Caprese Salad, Bruschetta".
Proof.
  split; [apply stub_completions|].
  intros (d & Hd & _).
  destruct (main_returns "Italian" stub_llm
              create_restaurant_name_prompt_template
              create_restaurant_menu_prompt_template world0 _ _ _ _
              eq_refl eq_refl stub_completions) as [cr' Hn].
  rewrite Hn in Hd. discriminate Hd.
Qed.

(** C3: when the completion call of step [k] raises, either runner makes
    no further call (the log grows by exactly the [k] calls made, the
    failing one last and once), raises the same error to its caller,
    returning nothing, and never reaches the sink: no file operation is
    attempted, the files are as before, the clock is not read, and nothing
    but the runner's first line is printed. *)
Theorem capability_error_aborts repr_str cuisine llm p1 p2 w k e :
  input_variables p1 = ["cuisine"] ->
  input_variables p2 = ["restaurant_name"] ->
  completion_raises llm p1 p2 cuisine (length (llm_log w)) k e ->
  let manual := main cuisine (Some llm) (Some p1) (Some p2) w in
  let automatic :=
    main_with_sequential_chain repr_str cuisine (Some llm) (Some p1) (Some p2)
      w in
  exists calls,
    length calls = k /\
    manual.1 = Raise e /\ automatic.1 = Raise e /\
    llm_log manual.2 = llm_log w ++ calls /\
    llm_log automatic.2 = llm_log w ++ calls /\
    files manual.2 = files w /\ files automatic.2 = files w /\
    disk_ops manual.2 = disk_ops w /\ disk_ops automatic.2 = disk_ops w /\
    clock_reads manual.2 = clock_reads w /\
    clock_reads automatic.2 = clock_reads w /\
    console manual.2 = console w ++ ["Main Called"] /\
    console automatic.2 =
      console w ++ ["Sequential Chain Implementation Called"].
Proof.
  intros H1 H2 Hr manual automatic. subst manual automatic.
  destruct (pipeline_raises _ _ _ _ _ _ _ Hr) as (calls & Hp & Hk).
  pose proof (main_chain cuisine llm p1 p2 w H1 H2) as Hm.
  pose proof (seq_chain repr_str cuisine llm p1 p2 w H1 H2) as Hs.
  cbv zeta in Hm, Hs. rewrite Hp in Hm, Hs. rewrite Hm, Hs.
  exists calls. by repeat split.
Qed.

Lemma capability_error_aborts_witness :
  let manual :=
    main "Italian" (Some dying_llm)
      (Some create_restaurant_name_prompt_template)
      (Some create_restaurant_menu_prompt_template) world0 in
  let automatic :=
    main_with_sequential_chain stub_repr "Italian" (Some dying_llm)
      (Some create_restaurant_name_prompt_template)
      (Some create_restaurant_menu_prompt_template) world0 in
  exists calls,
    length calls = 2 /\
    manual.1 = Raise (Exn CapabilityError "Rate limit reached.") /\
    automatic.1 = Raise (Exn CapabilityError "Rate limit reached.") /\
    llm_log manual.2 = llm_log world0 ++ calls /\
    llm_log automatic.2 = llm_log world0 ++ calls /\
    files manual.2 = files world0 /\ files automatic.2 = files world0 /\
    disk_ops manual.2 = disk_ops world0 /\
    disk_ops automatic.2 = disk_ops world0 /\
    clock_reads manual.2 = clock_reads world0 /\
    clock_reads automatic.2 = clock_reads world0 /\
    console manual.2 = console world0 ++ ["Main Called"] /\
    console automatic.2 =
      console world0 ++ ["Sequential Chain Implementation Called"].
Proof.
  apply (capability_error_aborts stub_repr "Italian" dying_llm
           create_restaurant_name_prompt_template
           create_restaurant_menu_prompt_template world0 2
           (Exn CapabilityError "Rate limit reached.")).
  - reflexivity.
  - reflexivity.
  - eexists. split; [reflexivity|]. eexists _, _. repeat split.
Defined.

(** C4: when both completion calls succeed and one of the ten file
    operations of the report (the opening, the eight writes, the closing)
    fails, the error is printed as the runner's last line and goes no
    further: [main] ends normally and [main_with_sequential_chain] still
    returns the whole result. *)
Theorem write_failure_is_reported
    repr_str cuisine llm p1 p2 w q1 name q2 menu k msg :
  input_variables p1 = ["cuisine"] ->
  input_variables p2 = ["restaurant_name"] ->
  completions_return llm p1 p2 cuisine (length (llm_log w)) q1 name q2 menu ->
  k < 10 ->
  disk_fault w (disk_ops w + k) = Some msg ->
  let manual := main cuisine (Some llm) (Some p1) (Some p2) w in
  let automatic :=
    main_with_sequential_chain repr_str cuisine (Some llm) (Some p1) (Some p2)
      w in
  manual.1 = Return PyNone /\
  automatic.1 =
    Return (PyDict [("cuisine", cuisine); ("restaurant_name", name);
                    ("menu_items", menu)]) /\
  (exists reported,
     last (console manual.2)
     = Some (nl +:+ "❌ Error saving to file: " +:+ reported)) /\
  (exists reported,
     last (console automatic.2)
     = Some (nl +:+ "❌ Error saving to file: " +:+ reported)).
Proof.
  intros H1 H2 Hc Hk Hf manual automatic. subst manual automatic.
  destruct (main_returns cuisine llm p1 p2 w q1 name q2 menu H1 H2 Hc)
    as [cr1 ->].
  destruct (sequential_returns repr_str cuisine llm p1 p2 w q1 name q2 menu
              H1 H2 Hc) as [cr2 ->].
  cbn [fst snd console].
  split; [reflexivity|]. split; [reflexivity|]. split.
  - destruct (file_session_fault (disk_fault w) (disk_ops w)
                (manual_report cuisine name menu (clock w (S (clock_reads w))))
                k msg Hk Hf) as [reported ->].
    exists reported. apply (last_snoc_list _ [_; _; _; _]).
  - destruct (file_session_fault (disk_fault w) (disk_ops w)
                (sequential_report repr_str cuisine name menu
                   (clock w (S (clock_reads w))))
                k msg Hk Hf) as [reported ->].
    exists reported. apply (last_snoc_list _ [_; _; _; _]).
Qed.

Lemma write_failure_is_reported_witness :
  let manual :=
    main "Italian" (Some stub_llm)
      (Some create_restaurant_name_prompt_template)
      (Some create_restaurant_menu_prompt_template) world_disk_full in
  let automatic :=
    main_with_sequential_chain stub_repr "Italian" (Some stub_llm)
      (Some create_restaurant_name_prompt_template)
      (Some create_restaurant_menu_prompt_template) world_disk_full in
  manual.1 = Return PyNone /\
  automatic.1 =
    Return (PyDict [("cuisine", "Italian"); ("restaurant_name", "Bella Notte");
                    ("menu_items",
                     "Margherita Pizza, Caprese Salad, Bruschetta")]) /\
  (exists reported,
     last (console manual.2)
     = Some (nl +:+ "❌ Error saving to file: " +:+ reported)) /\
  (exists reported,
     last (console automatic.2)
     = Some (nl +:+ "❌ Error saving to file: " +:+ reported)).
Proof.
  apply (write_failure_is_reported stub_repr "Italian" stub_llm
           create_restaurant_name_prompt_template
           create_restaurant_menu_prompt_template world_disk_full
           "I want to open a restaurant for Italian food. Suggest a fancy name for this. Only single name"
           "Bella Notte"
           "Suggest some veg menu items for Bella Notte. Return it as comma separated list."
           "Margherita Pizza, Caprese Salad, Bruschetta"
           5 "[Errno 28] No space left on device").
  - reflexivity.
  - reflexivity.
  - repeat split.
  - lia.
  - reflexivity.
Defined.

(** ** The report file *)

Lemma str_length_app (a b : string) :
  String.length (a +:+ b) = String.length a + String.length b.
Proof.
  induction a as [|x a IH]; [reflexivity|].
  change (S (String.length (a +:+ b)) = S (String.length a + String.length b)).
  by rewrite IH.
Qed.

Lemma zfill_2_length n : (n < 100)%N -> String.length (zfill 2 n) = 2.
Proof.
  intros Hn.
  assert (forallb (fun k => Nat.eqb (String.length (zfill 2 (N.of_nat k))) 2)
            (seq 0 100) = true) as Hall by (vm_compute; reflexivity).
  rewrite forallb_forall in Hall. specialize (Hall (N.to_nat n)).
  rewrite N2Nat.id in Hall. apply Nat.eqb_eq, Hall, in_seq. lia.
Qed.

Lemma zfill_4_length n : (1000 <= n <= 9999)%N -> String.length (zfill 4 n) = 4.
Proof.
  intros Hn.
  assert (forallb (fun k => Nat.eqb (String.length (zfill 4 (N.of_nat k))) 4)
            (seq (N.to_nat 1000) (N.to_nat 9000)) = true) as Hall by (vm_compute; reflexivity).
  rewrite forallb_forall in Hall. specialize (Hall (N.to_nat n)).
  rewrite N2Nat.id in Hall. apply Nat.eqb_eq, Hall, in_seq. lia.
Qed.

Lemma stamp_length d :
  valid_datetime d -> String.length (strftime "%Y%m%d_%H%M%S" d) = 15.
Proof.
  intros (Hy & Hm & Hd & HH & HM & HS).
  change (strftime "%Y%m%d_%H%M%S" d)
    with (zfill 4 (year d) +:+ zfill 2 (month d) +:+ zfill 2 (day d) +:+
          String "_" (zfill 2 (hour d) +:+ zfill 2 (minute d) +:+
                      zfill 2 (second d) +:+ "")).
  rewrite !str_length_app. cbn [String.length]. rewrite !str_length_app.
  rewrite zfill_4_length by done.
  rewrite !zfill_2_length by lia. reflexivity.
Qed.

(** C5, as amended: on every successful run (both completion calls return
    and no file operation fails) the report is the file
    [restaurant_output_<YYYYMMDD_HHMMSS>.txt], stamped with the first clock
    reading (15 characters for a date of four-digit year), and holds
    exactly: the header line, ['Generated on: '] with the second clock
    reading, for [main] the line ['Method: Manual Chain Management'],
    ['Cuisine Type: '] with the input, 50 dashes, an empty line, for
    [main_with_sequential_chain] the line
    ['Sequential Chain Final Output: '] with the result and an empty line,
    ['Restaurant Name: '] with the first text, an empty line,
    ['Menu Items: '] with the second text, an empty line, and 50 equals
    signs with no newline after them. *)
Theorem report_file_layout repr_str cuisine llm p1 p2 w q1 name q2 menu :
  input_variables p1 = ["cuisine"] ->
  input_variables p2 = ["restaurant_name"] ->
  completions_return llm p1 p2 cuisine (length (llm_log w)) q1 name q2 menu ->
  (forall k, k < 10 -> disk_fault w (disk_ops w + k) = None) ->
  valid_datetime (clock w (clock_reads w)) ->
  let manual := main cuisine (Some llm) (Some p1) (Some p2) w in
  let automatic :=
    main_with_sequential_chain repr_str cuisine (Some llm) (Some p1) (Some p2)
      w in
  let stamp := strftime "%Y%m%d_%H%M%S" (clock w (clock_reads w)) in
  let generated := strftime "%Y-%m-%d %H:%M:%S" (clock w (S (clock_reads w))) in
  let filename := "restaurant_output_" +:+ stamp +:+ ".txt" in
  String.length stamp = 15 /\
  files manual.2 =
    <[filename :=
        "=== LangChain Restaurant Generator Output ===" +:+ nl +:+
        "Generated on: " +:+ generated +:+ nl +:+
        "Method: Manual Chain Management" +:+ nl +:+
        "Cuisine Type: " +:+ cuisine +:+ nl +:+
        str_mul "-" 50 +:+ nl +:+
        nl +:+
        "Restaurant Name: " +:+ name +:+ nl +:+
        nl +:+
        "Menu Items: " +:+ menu +:+ nl +:+
        nl +:+
        str_mul "=" 50]> (files w) /\
  files automatic.2 =
    <[filename :=
        "=== LangChain Restaurant Generator Output ===" +:+ nl +:+
        "Generated on: " +:+ generated +:+ nl +:+
        "Cuisine Type: " +:+ cuisine +:+ nl +:+
        str_mul "-" 50 +:+ nl +:+
        nl +:+
        "Sequential Chain Final Output: " +:+
        dict_repr repr_str
          [("cuisine", cuisine); ("restaurant_name", name);
           ("menu_items", menu)] +:+ nl +:+
        nl +:+
        "Restaurant Name: " +:+ name +:+ nl +:+
        nl +:+
        "Menu Items: " +:+ menu +:+ nl +:+
        nl +:+
        str_mul "=" 50]> (files w) /\
  last (console manual.2) = Some (nl +:+ "✅ Results saved to: " +:+ filename) /\
  last (console automatic.2)
  = Some (nl +:+ "✅ Results saved to: " +:+ filename).
Proof.
  intros H1 H2 Hc Hf Hv manual automatic stamp generated filename.
  subst manual automatic.
  destruct (main_returns cuisine llm p1 p2 w q1 name q2 menu H1 H2 Hc)
    as [cr1 ->].
  destruct (sequential_returns repr_str cuisine llm p1 p2 w q1 name q2 menu
              H1 H2 Hc) as [cr2 ->].
  cbn [fst snd console files].
  rewrite !file_session_ok by exact Hf.
  cbn [fst snd files_after status_line].
  split; [by apply stamp_length|].
  unfold concat_str, manual_report, sequential_report, result_dict.
  cbn [foldr]. rewrite !str_app_assoc, !str_app_nil_r.
  repeat split.
  - apply (last_snoc_list _ [_; _; _; _]).
  - apply (last_snoc_list _ [_; _; _; _]).
Qed.

Lemma report_file_layout_witness :
  let manual :=
    main "Italian" (Some stub_llm)
      (Some create_restaurant_name_prompt_template)
      (Some create_restaurant_menu_prompt_template) world0 in
  let automatic :=
    main_with_sequential_chain stub_repr "Italian" (Some stub_llm)
      (Some create_restaurant_name_prompt_template)
      (Some create_restaurant_menu_prompt_template) world0 in
  let stamp := strftime "%Y%m%d_%H%M%S" (clock world0 (clock_reads world0)) in
  let generated :=
    strftime "%Y-%m-%d %H:%M:%S" (clock world0 (S (clock_reads world0))) in
  let filename := "restaurant_output_" +:+ stamp +:+ ".txt" in
  String.length stamp = 15 /\
  files manual.2 =
    <[filename :=
        "=== LangChain Restaurant Generator Output ===" +:+ nl +:+
        "Generated on: " +:+ generated +:+ nl +:+
        "Method: Manual Chain Management" +:+ nl +:+
        "Cuisine Type: " +:+ "Italian" +:+ nl +:+
        str_mul "-" 50 +:+ nl +:+
        nl +:+
        "Restaurant Name: " +:+ "Bella Notte" +:+ nl +:+
        nl +:+
        "Menu Items: " +:+ "Margherita Pizza, Caprese Salad, Bruschetta"
          +:+ nl +:+
        nl +:+
        str_mul "=" 50]> (files world0) /\
  files automatic.2 =
    <[filename :=
        "=== LangChain Restaurant Generator Output ===" +:+ nl +:+
        "Generated on: " +:+ generated +:+ nl +:+
        "Cuisine Type: " +:+ "Italian" +:+ nl +:+
        str_mul "-" 50 +:+ nl +:+
        nl +:+
        "Sequential Chain Final Output: " +:+
        dict_repr stub_repr
          [("cuisine", "Italian"); ("restaurant_name", "Bella Notte");
           ("menu_items", "Margherita Pizza, Caprese Salad, Bruschetta")]
          +:+ nl +:+
        nl +:+
        "Restaurant Name: " +:+ "Bella Notte" +:+ nl +:+
        nl +:+
        "Menu Items: " +:+ "Margherita Pizza, Caprese Salad, Bruschetta"
          +:+ nl +:+
        nl +:+
        str_mul "=" 50]> (files world0) /\
  last (console manual.2) = Some (nl +:+ "✅ Results saved to: " +:+ filename) /\
  last (console automatic.2)
  = Some (nl +:+ "✅ Results saved to: " +:+ filename).
Proof.
  apply (report_file_layout stub_repr "Italian" stub_llm
           create_restaurant_name_prompt_template
           create_restaurant_menu_prompt_template world0
           "I want to open a restaurant for Italian food. Suggest a fancy name for this. Only single name"
           "Bella Notte"
           "Suggest some veg menu items for Bella Notte. Return it as comma separated list."
           "Margherita Pizza, Caprese Salad, Bruschetta").
  - reflexivity.
  - reflexivity.
  - repeat split.
  - intros k _. reflexivity.
  - unfold valid_datetime. simpl. lia.
Defined.

(** C5 as stated fails: on the cuisine "Italian", with the stub capability
    and a disk that works, the report of [main] has eleven lines, one of
    them ['Method: Manual Chain Management'] and three of them empty, so it
    is not the seven-line layout, whatever the title and the time. *)
Lemma report_has_other_lines :
  files
    (main "Italian" (Some stub_llm)
       (Some create_restaurant_name_prompt_template)
       (Some create_restaurant_menu_prompt_template) world0).2
  !! "restaurant_output_20240307_090500.txt"
  = Some "=== LangChain Restaurant Generator Output ===
Generated on: 2024-03-07 09:05:00
Method: Manual Chain Management
Cuisine Type: Italian
--------------------------------------------------

Restaurant Name: Bella Notte

Menu Items: Margherita Pizza, Caprese Salad, Bruschetta

==================================================" /\
  ~ exists title generated,
      split_lines "=== LangChain Restaurant Generator Output ===
Generated on: 2024-03-07 09:05:00
Method: Manual Chain Management
Cuisine Type: Italian
--------------------------------------------------

Restaurant Name: Bella Notte

Menu Items: Margherita Pizza, Caprese Salad, Bruschetta

=================================================="
      = spec_layout title generated "Italian" "Bella Notte"
          "Margherita Pizza, Caprese Salad, Bruschetta".
Proof.
  split; [vm_compute; reflexivity|].
  intros (title & generated & H).
  apply (f_equal length) in H. vm_compute in H. discriminate H.
Qed.

(** ** The flow of data *)

(** C6, as amended: in every run of either runner in which the completion
    calls return, exactly two calls are made, in order; the first prompt
    [q1] is the name template rendered with the cuisine alone, the second
    [q2] the menu template rendered with the first call's answer alone,
    bound to ['restaurant_name']; and the sink writes what is determined by
    the cuisine, the two answers and the clock (and, where a file operation
    fails, by the place of the failure). *)
Theorem data_flows_one_way repr_str cuisine llm p1 p2 w q1 name q2 menu :
  input_variables p1 = ["cuisine"] ->
  input_variables p2 = ["restaurant_name"] ->
  completions_return llm p1 p2 cuisine (length (llm_log w)) q1 name q2 menu ->
  let manual := main cuisine (Some llm) (Some p1) (Some p2) w in
  let automatic :=
    main_with_sequential_chain repr_str cuisine (Some llm) (Some p1) (Some p2)
      w in
  let filename := report_name (clock w (clock_reads w)) in
  let generated := clock w (S (clock_reads w)) in
  str_format (template p1) [("cuisine", cuisine)] = inr q1 /\
  str_format (template p2) [("restaurant_name", name)] = inr q2 /\
  llm_log manual.2 = llm_log w ++ [q1; q2] /\
  llm_log automatic.2 = llm_log w ++ [q1; q2] /\
  files manual.2 =
    files_after (files w) filename
      (file_session (disk_fault w) (disk_ops w)
         (manual_report cuisine name menu generated)).1.2 /\
  files automatic.2 =
    files_after (files w) filename
      (file_session (disk_fault w) (disk_ops w)
         (sequential_report repr_str cuisine name menu generated)).1.2.
Proof.
  intros H1 H2 Hc manual automatic filename generated.
  subst manual automatic.
  destruct (main_returns cuisine llm p1 p2 w q1 name q2 menu H1 H2 Hc)
    as [cr1 ->].
  destruct (sequential_returns repr_str cuisine llm p1 p2 w q1 name q2 menu
              H1 H2 Hc) as [cr2 ->].
  destruct Hc as (F1 & _ & F2 & _). by repeat split.
Qed.

Lemma data_flows_one_way_witness :
  let manual :=
    main "Italian" (Some stub_llm)
      (Some create_restaurant_name_prompt_template)
      (Some create_restaurant_menu_prompt_template) world0 in
  let automatic :=
    main_with_sequential_chain stub_repr "Italian" (Some stub_llm)
      (Some create_restaurant_name_prompt_template)
      (Some create_restaurant_menu_prompt_template) world0 in
  let q1 :=
    "I want to open a restaurant for Italian food. Suggest a fancy name for this. Only single name" in
  let q2 :=
    "Suggest some veg menu items for Bella Notte. Return it as comma separated list." in
  let filename := report_name (clock world0 (clock_reads world0)) in
  let generated := clock world0 (S (clock_reads world0)) in
  str_format (template create_restaurant_name_prompt_template)
    [("cuisine", "Italian")] = inr q1 /\
  str_format (template create_restaurant_menu_prompt_template)
    [("restaurant_name", "Bella Notte")] = inr q2 /\
  llm_log manual.2 = llm_log world0 ++ [q1; q2] /\
  llm_log automatic.2 = llm_log world0 ++ [q1; q2] /\
  files manual.2 =
    files_after (files world0) filename
      (file_session (disk_fault world0) (disk_ops world0)
         (manual_report "Italian" "Bella Notte"
            "Margherita Pizza, Caprese Salad, Bruschetta" generated)).1.2 /\
  files automatic.2 =
    files_after (files world0) filename
      (file_session (disk_fault world0) (disk_ops world0)
         (sequential_report stub_repr "Italian" "Bella Notte"
            "Margherita Pizza, Caprese Salad, Bruschetta" generated)).1.2.
Proof.
  apply (data_flows_one_way stub_repr "Italian" stub_llm
           create_restaurant_name_prompt_template
           create_restaurant_menu_prompt_template world0
           "I want to open a restaurant for Italian food. Suggest a fancy name for this. Only single name"
           "Bella Notte"
           "Suggest some veg menu items for Bella Notte. Return it as comma separated list."
           "Margherita Pizza, Caprese Salad, Bruschetta").
  - reflexivity.
  - reflexivity.
  - repeat split.
Defined.

(** C6 as stated fails: with the capability down, a run of either runner
    on the cuisine "Italian" makes one completion call, not two; and the
    same cuisine and answers with the clock an hour later give a different
    report, so the sink does not consume the cuisine and the two answers
    only. *)
Lemma one_call_when_capability_is_down :
  llm_log
    (main "Italian" (Some dead_llm)
       (Some create_restaurant_name_prompt_template)
       (Some create_restaurant_menu_prompt_template) world0).2
  = ["I want to open a restaurant for Italian food. Suggest a fancy name for this. Only single name"] /\
  llm_log
    (main_with_sequential_chain stub_repr "Italian" (Some dead_llm)
       (Some create_restaurant_name_prompt_template)
       (Some create_restaurant_menu_prompt_template) world0).2
  = ["I want to open a restaurant for Italian food. Suggest a fancy name for this. Only single name"] /\
  files
    (main "Italian" (Some stub_llm)
       (Some create_restaurant_name_prompt_template)
       (Some create_restaurant_menu_prompt_template) world0).2
  <> files
       (main "Italian" (Some stub_llm)
          (Some create_restaurant_name_prompt_template)
          (Some create_restaurant_menu_prompt_template) world_later).2.
Proof.
  split; [vm_compute; reflexivity|]. split; [vm_compute; reflexivity|].
  intros H.
  apply (f_equal (fun fs => fs !! "restaurant_output_20240307_090500.txt"))
    in H.
  vm_compute in H. discriminate H.
Qed.

(** ** The empty cuisine *)



(** ** The script *)

Lemma script_run repr_str OpenAI w choice cuisine rest :
  stdin w = choice :: cuisine :: rest ->
  let shown :=
    console w ++
      ["Choose implementation:";
       "1. Individual Chains (current implementation)";
       "2. Sequential Chain";
       "Enter your choice (1 or 2): ";
       "Enter the cuisine type (e.g., Italian, Mexican, Chinese): "] in
  let started :=
    mkWorld shown rest (files w) (clock w) (clock_reads w) (disk_fault w)
      (disk_ops w) (llm_log w) in
  script repr_str OpenAI w =
    if String.eqb choice "1" then
      main cuisine (Some OpenAI)
        (Some create_restaurant_name_prompt_template)
        (Some create_restaurant_menu_prompt_template) started
    else if String.eqb choice "2" then
      main_with_sequential_chain repr_str cuisine (Some OpenAI)
        (Some create_restaurant_name_prompt_template)
        (Some create_restaurant_menu_prompt_template) started
    else
      (Raise (Exn TypeError
                "main() missing 1 required positional argument: 'cuisine'"),
       mkWorld (shown ++ ["Invalid choice. Running default implementation."])
         rest (files w) (clock w) (clock_reads w) (disk_fault w)
         (disk_ops w) (llm_log w)).
Proof.
  destruct w as [con sin fs clk cr df dops log]. cbn [stdin]. intros ->.
  cbv zeta. cbn [console files clock clock_reads disk_fault disk_ops llm_log].
  unfold script. rewrite !print_step. cbv beta.
  rewrite (bind_unfold (input _)). unfold input at 1. cbn [stdin].
  cbv beta iota.
  rewrite (bind_unfold (initializeApp _)).
  change (initializeApp OpenAI ?w)
    with (Return (OpenAI, create_restaurant_name_prompt_template,
                  create_restaurant_menu_prompt_template), w).
  cbv beta iota. rewrite (bind_unfold (input _)). unfold input at 1.
  cbn [stdin fst snd console files clock clock_reads disk_fault disk_ops
       llm_log].
  cbv beta iota. rewrite <- !app_assoc. cbn [app].
  destruct (String.eqb choice "1"); [reflexivity|].
  destruct (String.eqb choice "2"); [reflexivity|].
  rewrite print_step. cbv beta. rewrite <- !app_assoc. reflexivity.
Qed.

(** ** The conversation *)

Lemma create_conversation_chain_run OpenAI w :
  create_conversation_chain OpenAI w
  = (Return (mkConversationChain OpenAI create_memory
               create_conversation_prompt), w).
Proof. reflexivity. Qed.

Lemma conversation_prompt_format history input :
  str_format (template create_conversation_prompt)
    [("history", history); ("input", input)]
  = inr (turn_prompt history input).
Proof. reflexivity. Qed.

Lemma predict_run llm memory input con sin fs clk cr df dops log :
  let prompt := turn_prompt (buffer_as_str memory) input in
  let w' := mkWorld con sin fs clk cr df dops (log ++ [prompt]) in
  predict (mkConversationChain llm memory create_conversation_prompt) input
    (mkWorld con sin fs clk cr df dops log)
  = match llm (length log) prompt with
    | inl e => (Raise e, w')
    | inr response =>
        (Return (response,
                 mkConversationChain llm (save_context memory input response)
                   create_conversation_prompt), w')
    end.
Proof.
  cbv zeta. unfold predict. cbn [conv_llm conv_memory conv_prompt].
  rewrite (bind_unfold (llmchain_call _ _)).
  rewrite (llmchain_call_run _ _ _ _
             [("history", buffer_as_str memory); ("input", input)])
    by reflexivity.
  rewrite conversation_prompt_format.
  destruct (llm (length log) _); reflexivity.
Qed.

Lemma conversation_shape OpenAI xs conv :
  conversation_after OpenAI xs conv ->
  conv = mkConversationChain OpenAI (mkMemory 5 (messages_of xs))
           create_conversation_prompt.
Proof.
  induction 1 as [w conv w' Hc|xs conv input w response conv' w' _ IH Hp].
  - rewrite create_conversation_chain_run in Hc. by injection Hc as <- _.
  - subst conv. destruct w as [con sin fs clk cr df dops log].
    rewrite predict_run in Hp.
    destruct (OpenAI (length log) _) as [e|r]; [discriminate Hp|].
    injection Hp as <- <- _. unfold save_context, messages_of.
    cbn [k chat_memory]. by rewrite flat_map_app.
Qed.

Lemma messages_of_length xs : length (messages_of xs) = 2 * length xs.
Proof.
  unfold messages_of. induction xs as [|x xs IH]; [reflexivity|].
  cbn [flat_map length app]. rewrite IH. lia.
Qed.

Lemma drop_messages_of n xs :
  drop (2 * n) (messages_of xs) = messages_of (drop n xs).
Proof.
  revert xs. induction n as [|n IH]; intros xs; [reflexivity|].
  destruct xs as [|x xs]; [reflexivity|].
  replace (2 * S n) with (S (S (2 * n))) by lia. apply IH.
Qed.

Lemma lastn_messages_of n xs :
  lastn (n * 2) (messages_of xs) = messages_of (lastn n xs).
Proof.
  unfold lastn. rewrite messages_of_length, <- drop_messages_of.
  f_equal. lia.
Qed.

Lemma lastn_length {A} n (l : list A) : length (lastn n l) <= n.
Proof. unfold lastn. rewrite length_drop. lia. Qed.

Lemma lastn_suffix {A} n (l : list A) : exists older, l = older ++ lastn n l.
Proof. exists (take (length l - n) l). unfold lastn. by rewrite take_drop. Qed.

Lemma lastn_of_suffix {A} n (older recent : list A) :
  length recent = n -> lastn n (older ++ recent) = recent.
Proof.
  intros <-. unfold lastn. rewrite length_app.
  replace (length older + length recent - length recent) with (length older)
    by lia.
  by rewrite drop_app_length.
Qed.

Lemma terse_conversation xs :
  Forall (fun x => x.2 = "ok") xs ->
  conversation_after terse_llm xs
    (mkConversationChain terse_llm (mkMemory 5 (messages_of xs))
       create_conversation_prompt).
Proof.
  induction xs as [|[input response] xs IH] using rev_ind; intros Hok.
  - by eapply (conv_created terse_llm world0).
  - apply Forall_app in Hok as [Hxs Hx].
    rewrite Forall_singleton in Hx. simpl in Hx. rewrite Hx.
    eapply (conv_predicted terse_llm _ _ input world0); [by apply IH|].
    unfold world0. rewrite predict_run. cbv zeta.
    unfold terse_llm at 1, save_context, messages_of.
    cbn [k chat_memory]. by rewrite flat_map_app.
Qed.

Lemma six_exchanges_conversation :
  conversation_after terse_llm six_exchanges conversation_after_six.
Proof. apply terse_conversation. by repeat constructor. Qed.

(** C8: in each of the three prompt templates the program builds, the
    placeholders of the format string are exactly the declared input
    variables; and the templates stay as built: a conversation, after any
    number of turns, still holds the conversation template, and every
    prompt the script sends is rendered from the two restaurant templates
    as constructed. *)
Theorem templates_are_well_formed repr_str OpenAI :
  (list_to_set
     (placeholders (template create_restaurant_name_prompt_template))
   : gset string)
  = list_to_set (input_variables create_restaurant_name_prompt_template) /\
  (list_to_set
     (placeholders (template create_restaurant_menu_prompt_template))
   : gset string)
  = list_to_set (input_variables create_restaurant_menu_prompt_template) /\
  (list_to_set (placeholders (template create_conversation_prompt))
   : gset string)
  = list_to_set (input_variables create_conversation_prompt) /\
  (forall xs conv,
     conversation_after OpenAI xs conv ->
     conv_prompt conv = create_conversation_prompt) /\
  (forall w choice cuisine rest,
     stdin w = choice :: cuisine :: rest ->
     choice = "1" \/ choice = "2" ->
     llm_log (script repr_str OpenAI w).2
     = llm_log w ++
       (pipeline OpenAI create_restaurant_name_prompt_template
          create_restaurant_menu_prompt_template cuisine
          (length (llm_log w))).1).
Proof.
  split; [reflexivity|]. split; [reflexivity|].
  split; [reflexivity|]. split.
  - intros xs conv Hc. by rewrite (conversation_shape _ _ _ Hc).
  - intros w choice cuisine rest Hin Hch.
    rewrite (script_run _ _ _ _ _ _ Hin). cbv zeta.
    destruct Hch as [-> | ->]; cbn [String.eqb Ascii.eqb Bool.eqb].
    + match goal with
      | |- llm_log (main ?c ?l ?a ?b ?w0).2 = _ =>
          pose proof (main_chain c OpenAI
                        create_restaurant_name_prompt_template
                        create_restaurant_menu_prompt_template
                        w0 eq_refl eq_refl) as Hm
      end.
      cbv zeta in Hm. cbn [llm_log] in Hm.
      destruct (pipeline _ _ _ _ _) as [calls [e|[name menu]]].
      * by rewrite Hm.
      * destruct Hm as [cr' ->]. reflexivity.
    + match goal with
      | |- llm_log (main_with_sequential_chain _ ?c ?l ?a ?b ?w0).2 = _ =>
          pose proof (seq_chain repr_str c OpenAI
                        create_restaurant_name_prompt_template
                        create_restaurant_menu_prompt_template
                        w0 eq_refl eq_refl) as Hm
      end.
      cbv zeta in Hm. cbn [llm_log] in Hm.
      destruct (pipeline _ _ _ _ _) as [calls [e|[name menu]]].
      * by rewrite Hm.
      * destruct Hm as [cr' ->]. reflexivity.
Qed.

Lemma templates_are_well_formed_witness :
  conv_prompt conversation_after_six = create_conversation_prompt /\
  llm_log (script stub_repr stub_llm (world_typing "2" "Italian")).2
  = llm_log (world_typing "2" "Italian") ++
    (pipeline stub_llm create_restaurant_name_prompt_template
       create_restaurant_menu_prompt_template "Italian"
       (length (llm_log (world_typing "2" "Italian")))).1.
Proof.
  destruct (templates_are_well_formed stub_repr stub_llm)
    as (_ & _ & _ & _ & Hscript).
  destruct (templates_are_well_formed stub_repr terse_llm)
    as (_ & _ & _ & Hconv & _).
  split.
  - apply (Hconv six_exchanges). apply six_exchanges_conversation.
  - apply (Hscript (world_typing "2" "Italian") "2" "Italian" []).
    + reflexivity.
    + right. reflexivity.
Defined.

(** C9: the memory of the conversation is a window of five exchanges:
    after any sequence of turns, the binding of [history] handed to the
    prompt, and so the prompt of the next turn, is the text of the last
    five exchanges at most, the most recent ones, and of nothing older:
    whatever came before the last five leaves no trace in it. *)
Theorem memory_window OpenAI xs conv :
  conversation_after OpenAI xs conv ->
  let recent := lastn 5 xs in
  length recent <= 5 /\
  (exists older, xs = older ++ recent) /\
  load_memory_variables (conv_memory conv) = [("history", history_of recent)] /\
  (forall input w,
     llm_log (predict conv input w).2
     = llm_log w ++ [turn_prompt (history_of recent) input]) /\
  (forall older last_five,
     xs = older ++ last_five -> length last_five = 5 ->
     load_memory_variables (conv_memory conv)
     = [("history", history_of last_five)]).
Proof.
  intros Hc recent. rewrite (conversation_shape _ _ _ Hc).
  assert (load_memory_variables (mkMemory 5 (messages_of xs))
          = [("history", history_of recent)]) as Hload.
  { unfold load_memory_variables, buffer_as_str. cbn [k chat_memory].
    destruct (decide (0 < 5)); [|lia].
    by rewrite (lastn_messages_of 5). }
  split; [apply lastn_length|]. split; [apply lastn_suffix|].
  cbn [conv_memory]. split; [exact Hload|]. split.
  - intros input [con sin fs clk cr df dops log]. rewrite predict_run.
    cbv zeta. injection Hload as ->.
    by destruct (OpenAI (length log) _).
  - intros older last_five -> Hlen. rewrite Hload. subst recent.
    by rewrite lastn_of_suffix.
Qed.

Lemma memory_window_witness :
  let recent := lastn 5 six_exchanges in
  length recent <= 5 /\
  (exists older, six_exchanges = older ++ recent) /\
  load_memory_variables (conv_memory conversation_after_six)
  = [("history", history_of recent)] /\
  (forall input w,
     llm_log (predict conversation_after_six input w).2
     = llm_log w ++ [turn_prompt (history_of recent) input]) /\
  (forall older last_five,
     six_exchanges = older ++ last_five -> length last_five = 5 ->
     load_memory_variables (conv_memory conversation_after_six)
     = [("history", history_of last_five)]).
Proof.
  apply (memory_window terse_llm six_exchanges conversation_after_six).
  apply six_exchanges_conversation.
Defined.

(** C10, as amended: for every choice other than ['1'] and ['2'] the
    script prints that it runs the default implementation and calls
    [main()] with no arguments; [cuisine] having no default value, the call
    itself raises a [TypeError], before the body of [main] runs: nothing
    of [main] is printed, no completion call is made, no file operation is
    attempted, and the script ends with that error, without a result. *)
Theorem fallback_raises_before_main_runs
    repr_str OpenAI w choice cuisine rest :
  stdin w = choice :: cuisine :: rest ->
  choice <> "1" -> choice <> "2" ->
  let fallback := script repr_str OpenAI w in
  fallback.1 =
    Raise (Exn TypeError
             "main() missing 1 required positional argument: 'cuisine'") /\
  console fallback.2 =
    console w ++
      ["Choose implementation:";
       "1. Individual Chains (current implementation)";
       "2. Sequential Chain";
       "Enter your choice (1 or 2): ";
       "Enter the cuisine type (e.g., Italian, Mexican, Chinese): ";
       "Invalid choice. Running default implementation."] /\
  llm_log fallback.2 = llm_log w /\
  files fallback.2 = files w /\
  disk_ops fallback.2 = disk_ops w /\
  clock_reads fallback.2 = clock_reads w.
Proof.
  intros Hin H1 H2 fallback. subst fallback.
  rewrite (script_run _ _ _ _ _ _ Hin). cbv zeta.
  apply String.eqb_neq in H1, H2. rewrite H1, H2. cbn [fst snd].
  cbn [console llm_log files disk_ops clock_reads].
  rewrite <- app_assoc. by repeat split.
Qed.

Lemma fallback_raises_before_main_runs_witness :
  let fallback := script stub_repr stub_llm (world_typing "3" "Italian") in
  fallback.1 =
    Raise (Exn TypeError
             "main() missing 1 required positional argument: 'cuisine'") /\
  console fallback.2 =
    console (world_typing "3" "Italian") ++
      ["Choose implementation:";
       "1. Individual Chains (current implementation)";
       "2. Sequential Chain";
       "Enter your choice (1 or 2): ";
       "Enter the cuisine type (e.g., Italian, Mexican, Chinese): ";
       "Invalid choice. Running default implementation."] /\
  llm_log fallback.2 = llm_log (world_typing "3" "Italian") /\
  files fallback.2 = files (world_typing "3" "Italian") /\
  disk_ops fallback.2 = disk_ops (world_typing "3" "Italian") /\
  clock_reads fallback.2 = clock_reads (world_typing "3" "Italian").
Proof.
  apply (fallback_raises_before_main_runs stub_repr stub_llm
           (world_typing "3" "Italian") "3" "Italian" []).
  - reflexivity.
  - discriminate.
  - discriminate.
Defined.

(** C10 as stated fails: on the choice "3" the fallback does not fail where
    a [None] template is composed with a [None] model.  That is the error
    of a call of [main] that has its cuisine, which prints ['Main Called']
    first; the fallback raises another error, for the missing argument, and
    never prints that line. *)
Lemma fallback_fails_before_composition :
  (main "Italian" None None None (world_typing "3" "Italian")).1
  = Raise (Exn TypeError
             "unsupported operand type(s) for |: 'NoneType' and 'NoneType'") /\
  "Main Called"
    ∈ console (main "Italian" None None None (world_typing "3" "Italian")).2 /\
  (script stub_repr stub_llm (world_typing "3" "Italian")).1
  <> Raise (Exn TypeError
              "unsupported operand type(s) for |: 'NoneType' and 'NoneType'") /\
  "Main Called"
    ∉ console (script stub_repr stub_llm (world_typing "3" "Italian")).2.
Proof.
  assert (console (main "Italian" None None None
                     (world_typing "3" "Italian")).2 = ["Main Called"])
    as -> by reflexivity.
  assert (console (script stub_repr stub_llm (world_typing "3" "Italian")).2
          = ["Choose implementation:";
             "1. Individual Chains (current implementation)";
             "2. Sequential Chain";
             "Enter your choice (1 or 2): ";
             "Enter the cuisine type (e.g., Italian, Mexican, Chinese): ";
             "Invalid choice. Running default implementation."])
    as -> by reflexivity.
  split; [reflexivity|]. split; [apply list_elem_of_here|].
  split; [intros H; vm_compute in H; discriminate H|].
  rewrite !not_elem_of_cons. repeat split; try discriminate.
  apply not_elem_of_nil.
Qed.

(** * Further properties of the code *)

Import Worlds PyStr Session.

(** ** The runners of [simple_langchain/main.py] *)

(** X1: the parameters [llm], [restaurant_name_prompt] and
    [restaurant_menu_prompt] of the two runners default to [None], and a
    call that leaves any of them out fails right after the runner's first
    line: [main] with a [TypeError] where it composes a chain with [|],
    [main_with_sequential_chain] with a validation error where it builds an
    [LLMChain]; no completion call is made, the clock is not read and no
    file operation is attempted. *)
Theorem runners_need_all_their_arguments repr_str cuisine llm p1 p2 w :
  llm = None \/ p1 = None \/ p2 = None ->
  let manual := main cuisine llm p1 p2 w in
  let automatic := main_with_sequential_chain repr_str cuisine llm p1 p2 w in
  (exists msg, manual.1 = Raise (Exn TypeError msg)) /\
  (exists msg, automatic.1 = Raise (Exn ValidationError msg)) /\
  manual.2 =
    mkWorld (console w ++ ["Main Called"]) (stdin w) (files w) (clock w)
      (clock_reads w) (disk_fault w) (disk_ops w) (llm_log w) /\
  automatic.2 =
    mkWorld (console w ++ ["Sequential Chain Implementation Called"])
      (stdin w) (files w) (clock w) (clock_reads w) (disk_fault w)
      (disk_ops w) (llm_log w).
Proof.
  intros H manual automatic. subst manual automatic.
  destruct w as [con sin fs clk cr df dops log].
  destruct llm as [llm|], p1 as [p1|], p2 as [p2|];
    try (exfalso; destruct H as [H|[H|H]]; discriminate H);
    (split; [by eexists|]); (split; [by eexists|]); split; reflexivity.
Qed.

Lemma runners_need_all_their_arguments_witness :
  let manual :=
    main "Italian" (Some stub_llm)
      (Some create_restaurant_name_prompt_template) None world0 in
  let automatic :=
    main_with_sequential_chain stub_repr "Italian" (Some stub_llm)
      (Some create_restaurant_name_prompt_template) None world0 in
  (exists msg, manual.1 = Raise (Exn TypeError msg)) /\
  (exists msg, automatic.1 = Raise (Exn ValidationError msg)) /\
  manual.2 =
    mkWorld (console world0 ++ ["Main Called"]) (stdin world0) (files world0)
      (clock world0) (clock_reads world0) (disk_fault world0)
      (disk_ops world0) (llm_log world0) /\
  automatic.2 =
    mkWorld (console world0 ++ ["Sequential Chain Implementation Called"])
      (stdin world0) (files world0) (clock world0) (clock_reads world0)
      (disk_fault world0) (disk_ops world0) (llm_log world0).
Proof.
  apply (runners_need_all_their_arguments stub_repr "Italian" (Some stub_llm)
           (Some create_restaurant_name_prompt_template) None world0).
  right. right. reflexivity.
Defined.

(** X2: a run of either runner, however it ends, reads nothing from the
    standard input, and the only file it can create or change is the report
    named after the first clock reading: every other file is as before. *)
Theorem runners_touch_only_their_report
    repr_str cuisine llm p1 p2 w other :
  input_variables p1 = ["cuisine"] ->
  input_variables p2 = ["restaurant_name"] ->
  other <> report_name (clock w (clock_reads w)) ->
  let manual := main cuisine (Some llm) (Some p1) (Some p2) w in
  let automatic :=
    main_with_sequential_chain repr_str cuisine (Some llm) (Some p1) (Some p2)
      w in
  files manual.2 !! other = files w !! other /\
  files automatic.2 !! other = files w !! other /\
  stdin manual.2 = stdin w /\ stdin automatic.2 = stdin w.
Proof.
  intros H1 H2 Hne manual automatic. subst manual automatic.
  pose proof (main_chain cuisine llm p1 p2 w H1 H2) as Hm.
  pose proof (seq_chain repr_str cuisine llm p1 p2 w H1 H2) as Hs.
  cbv zeta in Hm, Hs.
  destruct (pipeline llm p1 p2 cuisine (length (llm_log w)))
    as [calls [e|[name menu]]].
  - rewrite Hm, Hs. by repeat split.
  - destruct Hm as [cr1 ->], Hs as [cr2 ->]. cbn [snd files stdin].
    assert (forall c, files_after (files w)
                        (report_name (clock w (clock_reads w))) c !! other
                      = files w !! other) as Hother.
    { intros [c|]; [|reflexivity]. cbn [files_after].
      by rewrite lookup_insert_ne. }
    by rewrite !Hother.
Qed.

Lemma runners_touch_only_their_report_witness :
  let manual :=
    main "Italian" (Some stub_llm)
      (Some create_restaurant_name_prompt_template)
      (Some create_restaurant_menu_prompt_template) world0 in
  let automatic :=
    main_with_sequential_chain stub_repr "Italian" (Some stub_llm)
      (Some create_restaurant_name_prompt_template)
      (Some create_restaurant_menu_prompt_template) world0 in
  files manual.2 !! "notes.txt" = files world0 !! "notes.txt" /\
  files automatic.2 !! "notes.txt" = files world0 !! "notes.txt" /\
  stdin manual.2 = stdin world0 /\ stdin automatic.2 = stdin world0.
Proof.
  apply (runners_touch_only_their_report stub_repr "Italian" stub_llm
           create_restaurant_name_prompt_template
           create_restaurant_menu_prompt_template world0 "notes.txt").
  - reflexivity.
  - reflexivity.
  - vm_compute. discriminate.
Defined.

(** ** A save that fails *)

Lemma concat_str_take_all ss : concat_str (take (length ss) ss) = concat_str ss.
Proof. by rewrite firstn_all. Qed.

Lemma session_writes_stops fault ss : forall op acc j msg,
  j < length ss ->
  (forall i, i < j -> fault (op + i) = None) ->
  fault (op + j) = Some msg ->
  session_writes fault op acc ss
  = (Some msg, acc +:+ concat_str (take j ss), S (op + j)).
Proof.
  induction ss as [|s ss IH]; intros op acc j msg Hj Hok Hbad;
    [cbn in Hj; lia|].
  cbn [session_writes]. destruct j as [|j].
  - rewrite Nat.add_0_r in Hbad. rewrite Hbad. unfold concat_str. cbn.
    by rewrite str_app_nil_r, Nat.add_0_r.
  - rewrite <- (Nat.add_0_r op) at 1. rewrite (Hok 0) by lia.
    rewrite (IH (S op) (acc +:+ s) j msg).
    + unfold concat_str. cbn [take foldr].
      rewrite str_app_assoc. do 2 f_equal. lia.
    + cbn in Hj. lia.
    + intros i Hi. rewrite <- (Hok (S i)) by lia. f_equal. lia.
    + rewrite <- Hbad. f_equal. lia.
Qed.

(** The files a session leaves when its operation [k] is the first to fail:
    nothing changes when the opening fails; otherwise the file holds what
    was written before the failure. *)
Lemma file_session_cut fault op ss k msg :
  k < length ss + 2 ->
  (forall i, i < k -> fault (op + i) = None) ->
  fault (op + k) = Some msg ->
  (file_session fault op ss).1.2
  = match k with
    | O => None
    | S j => Some (concat_str (take j ss))
    end.
Proof.
  intros Hk Hok Hbad. unfold file_session. destruct k as [|j].
  - rewrite Nat.add_0_r in Hbad. by rewrite Hbad.
  - rewrite <- (Nat.add_0_r op) at 1. rewrite (Hok 0) by lia.
    destruct (decide (j < length ss)) as [Hlt|Hge].
    + rewrite (session_writes_stops fault ss (S op) "" j msg Hlt).
      * cbv beta iota zeta. destruct (fault (S (S op + j))); reflexivity.
      * intros i Hi. rewrite <- (Hok (S i)) by lia. f_equal. lia.
      * rewrite <- Hbad. f_equal. lia.
    + assert (j = length ss) as -> by lia.
      rewrite session_writes_ok.
      * rewrite concat_str_take_all. cbv beta iota zeta.
        replace (S op + length ss) with (op + S (length ss)) by lia.
        by rewrite Hbad.
      * intros i Hi. rewrite <- (Hok (S i)) by lia. f_equal. lia.
Qed.

Lemma concat_str_app a b :
  concat_str (a ++ b) = concat_str a +:+ concat_str b.
Proof.
  unfold concat_str. induction a as [|s a IH]; [reflexivity|].
  cbn [app foldr]. by rewrite IH, str_app_assoc.
Qed.

Lemma concat_str_cut j ss :
  concat_str ss = concat_str (take j ss) +:+ concat_str (drop j ss).
Proof. by rewrite <- concat_str_app, take_drop. Qed.

(** X3: a save that fails leaves nothing but the beginning of a report.
    When both completion calls return and file operation [k] of the report
    (0 the opening, 1 to 8 the writes, 9 the closing) is the first to fail:
    if the opening failed, no file is created and a report of the same name
    already there is left as it was; otherwise what that file held before
    is gone, and it holds a prefix of the text the runner was writing. *)
Theorem failed_save_leaves_a_prefix
    repr_str cuisine llm p1 p2 w q1 name q2 menu k msg :
  input_variables p1 = ["cuisine"] ->
  input_variables p2 = ["restaurant_name"] ->
  completions_return llm p1 p2 cuisine (length (llm_log w)) q1 name q2 menu ->
  k < 10 ->
  (forall i, i < k -> disk_fault w (disk_ops w + i) = None) ->
  disk_fault w (disk_ops w + k) = Some msg ->
  let manual := main cuisine (Some llm) (Some p1) (Some p2) w in
  let automatic :=
    main_with_sequential_chain repr_str cuisine (Some llm) (Some p1) (Some p2)
      w in
  let filename := report_name (clock w (clock_reads w)) in
  let generated := clock w (S (clock_reads w)) in
  match k with
  | O => files manual.2 = files w /\ files automatic.2 = files w
  | S _ =>
      (exists written rest,
         files manual.2 = <[filename := written]> (files w) /\
         concat_str (manual_report cuisine name menu generated)
         = written +:+ rest) /\
      (exists written rest,
         files automatic.2 = <[filename := written]> (files w) /\
         concat_str (sequential_report repr_str cuisine name menu generated)
         = written +:+ rest)
  end.
Proof.
  intros H1 H2 Hc Hk Hok Hbad manual automatic filename generated.
  subst manual automatic.
  destruct (main_returns cuisine llm p1 p2 w q1 name q2 menu H1 H2 Hc)
    as [cr1 ->].
  destruct (sequential_returns repr_str cuisine llm p1 p2 w q1 name q2 menu
              H1 H2 Hc) as [cr2 ->].
  cbn [snd files].
  rewrite (file_session_cut _ _ (manual_report _ _ _ _) k msg Hk Hok Hbad).
  rewrite (file_session_cut _ _ (sequential_report _ _ _ _ _) k msg Hk Hok
             Hbad).
  destruct k as [|j]; [by split|]. split.
  - eexists _, _. split; [reflexivity|]. apply (concat_str_cut j).
  - eexists _, _. split; [reflexivity|]. apply (concat_str_cut j).
Qed.

Lemma failed_save_leaves_a_prefix_witness :
  let manual :=
    main "Italian" (Some stub_llm)
      (Some create_restaurant_name_prompt_template)
      (Some create_restaurant_menu_prompt_template) world_disk_full in
  let automatic :=
    main_with_sequential_chain stub_repr "Italian" (Some stub_llm)
      (Some create_restaurant_name_prompt_template)
      (Some create_restaurant_menu_prompt_template) world_disk_full in
  let filename := report_name (clock world_disk_full 0) in
  let generated := clock world_disk_full 1 in
  (exists written rest,
     files manual.2 = <[filename := written]> (files world_disk_full) /\
     concat_str
       (manual_report "Italian" "Bella Notte"
          "Margherita Pizza, Caprese Salad, Bruschetta" generated)
     = written +:+ rest) /\
  (exists written rest,
     files automatic.2 = <[filename := written]> (files world_disk_full) /\
     concat_str
       (sequential_report stub_repr "Italian" "Bella Notte"
          "Margherita Pizza, Caprese Salad, Bruschetta" generated)
     = written +:+ rest).
Proof.
  apply (failed_save_leaves_a_prefix stub_repr "Italian" stub_llm
           create_restaurant_name_prompt_template
           create_restaurant_menu_prompt_template world_disk_full
           "I want to open a restaurant for Italian food. Suggest a fancy name for this. Only single name"
           "Bella Notte"
           "Suggest some veg menu items for Bella Notte. Return it as comma separated list."
           "Margherita Pizza, Caprese Salad, Bruschetta"
           3 "[Errno 28] No space left on device").
  - reflexivity.
  - reflexivity.
  - repeat split.
  - lia.
  - intros [|[|[|i]]] Hi; [reflexivity..|lia].
  - reflexivity.
Defined.

(** ** Time stamps *)

Lemma str_app_inj a1 : forall a2 b1 b2,
  String.length a1 = String.length a2 ->
  a1 +:+ b1 = a2 +:+ b2 -> a1 = a2 /\ b1 = b2.
Proof.
  induction a1 as [|x a1 IH]; intros [|y a2] b1 b2 Hl He;
    try discriminate Hl.
  - by split.
  - change (String x (a1 +:+ b1) = String y (a2 +:+ b2)) in He.
    injection He as -> He. injection Hl as Hl.
    destruct (IH a2 b1 b2 Hl He) as [-> ->]. by split.
Qed.

(** Reading a padded number back. *)
Lemma dec_read n :
  N.of_uint <$> NilEmpty.uint_of_string (dec n) = Some n.
Proof.
  unfold dec.
  assert (N.to_uint n <> Decimal.Nil) as Hn.
  { destruct n as [|p]; [discriminate|].
    apply DecimalPos.Unsigned.to_uint_nonnil. }
  pose proof (NilZero.usu (N.to_uint n) Hn) as Hu.
  unfold NilZero.uint_of_string in Hu.
  destruct (NilZero.string_of_uint (N.to_uint n)) as [|c s];
    [discriminate Hu|].
  rewrite Hu. cbn. by rewrite DecimalN.Unsigned.of_to.
Qed.

Lemma zfill_read width n :
  N.of_uint <$> NilEmpty.uint_of_string (zfill width n) = Some n.
Proof.
  unfold zfill. induction (width - String.length (dec n)) as [|k IH].
  - apply dec_read.
  - change (str_mul "0" (S k) +:+ dec n)
      with (String "0" (str_mul "0" k +:+ dec n)).
    cbn [NilEmpty.uint_of_string].
    destruct (NilEmpty.uint_of_string (str_mul "0" k +:+ dec n)) as [d|];
      [|discriminate IH].
    exact IH.
Qed.

Lemma zfill_inj width n m : zfill width n = zfill width m -> n = m.
Proof.
  intros H. pose proof (zfill_read width n) as Hn.
  rewrite H, zfill_read in Hn. by injection Hn.
Qed.

(** The stamp of a report's name tells the second of the clock reading. *)
Lemma stamp_inj d1 d2 :
  valid_datetime d1 -> valid_datetime d2 ->
  strftime "%Y%m%d_%H%M%S" d1 = strftime "%Y%m%d_%H%M%S" d2 -> d1 = d2.
Proof.
  intros (Hy1 & Hm1 & Hd1 & HH1 & HM1 & HS1) (Hy2 & Hm2 & Hd2 & HH2 & HM2 & HS2).
  destruct d1 as [y1 m1 dd1 h1 mi1 s1], d2 as [y2 m2 dd2 h2 mi2 s2].
  cbn [year month day hour minute second] in *.
  change (strftime "%Y%m%d_%H%M%S" ?d)
    with (zfill 4 (year d) +:+ zfill 2 (month d) +:+ zfill 2 (day d) +:+
          String "_" (zfill 2 (hour d) +:+ zfill 2 (minute d) +:+
                      zfill 2 (second d) +:+ "")).
  cbn [year month day hour minute second]. intros H.
  apply str_app_inj in H as [Hy H]; [|by rewrite !zfill_4_length].
  apply str_app_inj in H as [Hm H]; [|rewrite !zfill_2_length; [done|lia..]].
  apply str_app_inj in H as [Hd H]; [|rewrite !zfill_2_length; [done|lia..]].
  injection H as H.
  apply str_app_inj in H as [HH H]; [|rewrite !zfill_2_length; [done|lia..]].
  apply str_app_inj in H as [HM H]; [|rewrite !zfill_2_length; [done|lia..]].
  rewrite !str_app_nil_r in H.
  apply zfill_inj in Hy, Hm, Hd, HH, HM, H. by subst.
Qed.

Lemma report_name_stamp d1 d2 :
  report_name d1 = report_name d2 ->
  strftime "%Y%m%d_%H%M%S" d1 +:+ ".txt"
  = strftime "%Y%m%d_%H%M%S" d2 +:+ ".txt".
Proof.
  unfold report_name. intros H.
  by apply (str_app_inj "restaurant_output_" "restaurant_output_") in H
    as [_ H].
Qed.

Lemma report_name_inj d1 d2 :
  valid_datetime d1 -> valid_datetime d2 ->
  report_name d1 = report_name d2 -> d1 = d2.
Proof.
  intros Hv1 Hv2 H. apply report_name_stamp in H.
  apply str_app_inj in H as [H _]; [|by rewrite !stamp_length].
  by apply stamp_inj.
Qed.

(** X4: the name of the report tells the clock reading to the second: two
    valid date-times give the same report name only if they agree in every
    field, seconds included; so reports of runs started in different
    seconds never share a file. *)
Theorem report_name_tells_the_second d1 d2 :
  valid_datetime d1 -> valid_datetime d2 ->
  "restaurant_output_" +:+ strftime "%Y%m%d_%H%M%S" d1 +:+ ".txt"
  = "restaurant_output_" +:+ strftime "%Y%m%d_%H%M%S" d2 +:+ ".txt"
  <-> d1 = d2.
Proof.
  intros Hv1 Hv2. split.
  - by apply report_name_inj.
  - by intros ->.
Qed.

Lemma report_name_tells_the_second_witness :
  "restaurant_output_" +:+
    strftime "%Y%m%d_%H%M%S" (DateTime 2024 3 7 9 5 0) +:+ ".txt"
  = "restaurant_output_" +:+
      strftime "%Y%m%d_%H%M%S" (DateTime 2024 3 7 9 5 1) +:+ ".txt"
  <-> DateTime 2024 3 7 9 5 0 = DateTime 2024 3 7 9 5 1.
Proof.
  apply (report_name_tells_the_second (DateTime 2024 3 7 9 5 0)
           (DateTime 2024 3 7 9 5 1)).
  - unfold valid_datetime. simpl. lia.
  - unfold valid_datetime. simpl. lia.
Defined.

(** ** The clock *)

Ltac settle r := subst r; reflexivity.

(** Runs the [try] block of a runner, kept in [H : r = ...], to the number
    of clock readings it leaves. *)
Ltac run_sink_clock H r :=
  rewrite (bind_unfold (try_except _ _)) in H;
  unfold try_except in H;
  rewrite (bind_unfold (with_open_w _ _)) in H;
  unfold with_open_w in H;
  step_in H;
  fault_in H; [ settle r | ];
  step_in H;
  fault_in H; [ step_in H; fault_in H; settle r | ];
  repeat (step_in H; try (fault_in H; [ step_in H; fault_in H; settle r | ]));
  try fault_in H; settle r.

Lemma main_clock_reads cuisine llm p1 p2 w q1 name q2 menu :
  input_variables p1 = ["cuisine"] ->
  input_variables p2 = ["restaurant_name"] ->
  completions_return llm p1 p2 cuisine (length (llm_log w)) q1 name q2 menu ->
  clock_reads (main cuisine (Some llm) (Some p1) (Some p2) w).2
  = match disk_fault w (disk_ops w) with
    | Some _ => S (clock_reads w)
    | None =>
        match disk_fault w (S (disk_ops w)) with
        | Some _ => S (clock_reads w)
        | None => S (S (clock_reads w))
        end
    end.
Proof.
  intros H1 H2 (F1 & L1 & F2 & L2).
  destruct w as [con sin fs clk cr df dops log].
  cbn [console stdin files clock clock_reads disk_fault disk_ops llm_log] in *.
  unfold main.
  rewrite print_step. cbv beta.
  change (pipe (Some ?p) (Some ?l)) with (ret (p, l)).
  rewrite !ret_step.
  rewrite (bind_unfold (invoke _ _)).
  rewrite invoke_run by (rewrite H1; reflexivity).
  rewrite F1, L1.
  rewrite (bind_unfold (invoke _ _)).
  rewrite invoke_run by (rewrite H2; reflexivity).
  rewrite F2, length_app, Nat.add_1_r, L2.
  match goal with |- clock_reads (snd ?X) = _ => remember X as r eqn:Hr end.
  do 3 step_in Hr. step_in Hr. cbv zeta in Hr.
  run_sink_clock Hr r.
Qed.

Lemma sequential_clock_reads repr_str cuisine llm p1 p2 w q1 name q2 menu :
  input_variables p1 = ["cuisine"] ->
  input_variables p2 = ["restaurant_name"] ->
  completions_return llm p1 p2 cuisine (length (llm_log w)) q1 name q2 menu ->
  clock_reads
    (main_with_sequential_chain repr_str cuisine (Some llm) (Some p1) (Some p2)
       w).2
  = match disk_fault w (disk_ops w) with
    | Some _ => S (clock_reads w)
    | None =>
        match disk_fault w (S (disk_ops w)) with
        | Some _ => S (clock_reads w)
        | None => S (S (clock_reads w))
        end
    end.
Proof.
  intros H1 H2 Hc.
  destruct w as [con sin fs clk cr df dops log].
  cbn [console stdin files clock clock_reads disk_fault disk_ops llm_log] in *.
  unfold main_with_sequential_chain.
  rewrite print_step. cbv beta.
  change (new_LLMChain (Some ?l) (Some ?p) ?k) with (ret (mkLLMChain l p k)).
  rewrite !ret_step.
  rewrite (bind_unfold (new_SequentialChain _ _ _)).
  rewrite new_SequentialChain_run by assumption. cbv beta iota.
  rewrite (bind_unfold (seq_invoke _ _)).
  rewrite seq_invoke_run by assumption.
  rewrite (pipeline_return _ _ _ _ _ _ _ _ _ Hc).
  match goal with |- clock_reads (snd ?X) = _ => remember X as r eqn:Hr end.
  do 5 step_in Hr. step_in Hr. cbv zeta in Hr.
  run_sink_clock Hr r.
Qed.

(** X5: a run whose completion calls return reads the clock once for the
    name of the report and, only when the file has been opened and its
    first line written, a second time for the ['Generated on'] line: two
    readings on a disk that works, one when the opening or the first write
    fails; the two stamps of a report come from different readings. *)
Theorem runners_read_the_clock_twice
    repr_str cuisine llm p1 p2 w q1 name q2 menu :
  input_variables p1 = ["cuisine"] ->
  input_variables p2 = ["restaurant_name"] ->
  completions_return llm p1 p2 cuisine (length (llm_log w)) q1 name q2 menu ->
  let manual := main cuisine (Some llm) (Some p1) (Some p2) w in
  let automatic :=
    main_with_sequential_chain repr_str cuisine (Some llm) (Some p1) (Some p2)
      w in
  let opened_and_begun :=
    bool_decide (disk_fault w (disk_ops w) = None /\
                 disk_fault w (S (disk_ops w)) = None) in
  clock_reads manual.2 = clock_reads automatic.2 /\
  clock_reads manual.2
  = if opened_and_begun then clock_reads w + 2 else clock_reads w + 1.
Proof.
  intros H1 H2 Hc manual automatic opened_and_begun.
  subst manual automatic opened_and_begun.
  rewrite (main_clock_reads _ _ _ _ _ _ _ _ _ H1 H2 Hc).
  rewrite (sequential_clock_reads _ _ _ _ _ _ _ _ _ _ H1 H2 Hc).
  split; [reflexivity|].
  destruct (disk_fault w (disk_ops w)) as [m0|].
  { rewrite bool_decide_eq_false_2 by (intros [? _]; discriminate). lia. }
  destruct (disk_fault w (S (disk_ops w))) as [m1|].
  { rewrite bool_decide_eq_false_2 by (intros [_ ?]; discriminate). lia. }
  rewrite bool_decide_eq_true_2 by done. lia.
Qed.

Lemma runners_read_the_clock_twice_witness :
  let manual :=
    main "Italian" (Some stub_llm)
      (Some create_restaurant_name_prompt_template)
      (Some create_restaurant_menu_prompt_template) world0 in
  let automatic :=
    main_with_sequential_chain stub_repr "Italian" (Some stub_llm)
      (Some create_restaurant_name_prompt_template)
      (Some create_restaurant_menu_prompt_template) world0 in
  let opened_and_begun :=
    bool_decide (disk_fault world0 (disk_ops world0) = None /\
                 disk_fault world0 (S (disk_ops world0)) = None) in
  clock_reads manual.2 = clock_reads automatic.2 /\
  clock_reads manual.2
  = if opened_and_begun then clock_reads world0 + 2 else clock_reads world0 + 1.
Proof.
  apply (runners_read_the_clock_twice stub_repr "Italian" stub_llm
           create_restaurant_name_prompt_template
           create_restaurant_menu_prompt_template world0
           "I want to open a restaurant for Italian food. Suggest a fancy name for this. Only single name"
           "Bella Notte"
           "Suggest some veg menu items for Bella Notte. Return it as comma separated list."
           "Margherita Pizza, Caprese Salad, Bruschetta").
  - reflexivity.
  - reflexivity.
  - repeat split.
Defined.

(** ** One run after another *)

(** The world [main] leaves on a disk that works. *)
Lemma main_on_working_disk cuisine llm p1 p2 w q1 name q2 menu :
  input_variables p1 = ["cuisine"] ->
  input_variables p2 = ["restaurant_name"] ->
  completions_return llm p1 p2 cuisine (length (llm_log w)) q1 name q2 menu ->
  (forall k, k < 10 -> disk_fault w (disk_ops w + k) = None) ->
  let filename := report_name (clock w (clock_reads w)) in
  (main cuisine (Some llm) (Some p1) (Some p2) w).2
  = mkWorld
      (console w ++
         ["Main Called"; nl +:+ "Final Output:";
          "Restaurant: " +:+ name; "Menu: " +:+ menu;
          nl +:+ "✅ Results saved to: " +:+ filename])
      (stdin w)
      (<[filename :=
           concat_str
             (manual_report cuisine name menu (clock w (S (clock_reads w))))]>
         (files w))
      (clock w) (S (S (clock_reads w))) (disk_fault w) (disk_ops w + 10)
      (llm_log w ++ [q1; q2]).
Proof.
  intros H1 H2 Hc Hf filename.
  pose proof (main_clock_reads _ _ _ _ _ _ _ _ _ H1 H2 Hc) as Hcr.
  destruct (main_returns cuisine llm p1 p2 w q1 name q2 menu H1 H2 Hc)
    as [cr' Hm].
  cbv zeta in Hm. rewrite Hm in Hcr |- *. cbn [snd clock_reads] in Hcr |- *.
  rewrite file_session_ok by exact Hf.
  rewrite <- (Nat.add_0_r (disk_ops w)) in Hcr at 1.
  rewrite (Hf 0) in Hcr by lia.
  rewrite <- Nat.add_1_r, (Hf 1) in Hcr by lia. subst cr'.
  cbn [fst snd files_after status_line]. f_equal.
  unfold manual_report. cbn [length]. lia.
Qed.

(** X6: reports are opened for writing, not for appending, and their name
    is good for a second: of two runs of [main], one after the other on a
    disk that works, the second leaves its report beside the first one's
    when their first clock readings differ, and in place of it, the first
    report lost, when the two readings are the same. *)
Theorem a_second_run_may_replace_the_report
    cuisine1 cuisine2 llm p1 p2 w q1 name1 q2 menu1 q3 name2 q4 menu2 :
  input_variables p1 = ["cuisine"] ->
  input_variables p2 = ["restaurant_name"] ->
  completions_return llm p1 p2 cuisine1 (length (llm_log w))
    q1 name1 q2 menu1 ->
  completions_return llm p1 p2 cuisine2 (length (llm_log w) + 2)
    q3 name2 q4 menu2 ->
  (forall k, k < 20 -> disk_fault w (disk_ops w + k) = None) ->
  valid_datetime (clock w (clock_reads w)) ->
  valid_datetime (clock w (clock_reads w + 2)) ->
  let first := main cuisine1 (Some llm) (Some p1) (Some p2) w in
  let second := main cuisine2 (Some llm) (Some p1) (Some p2) first.2 in
  let t1 := clock w (clock_reads w) in
  let t2 := clock w (clock_reads w + 2) in
  let report1 :=
    concat_str (manual_report cuisine1 name1 menu1
                  (clock w (clock_reads w + 1))) in
  let report2 :=
    concat_str (manual_report cuisine2 name2 menu2
                  (clock w (clock_reads w + 3))) in
  files second.2 !! report_name t2 = Some report2 /\
  (t1 <> t2 -> files second.2 !! report_name t1 = Some report1) /\
  (t1 = t2 -> files second.2 = <[report_name t1 := report2]> (files w)).
Proof.
  intros H1 H2 Hc1 Hc2 Hf Hv1 Hv2 first second t1 t2 report1 report2.
  subst first second.
  rewrite (main_on_working_disk cuisine1 _ _ _ w _ _ _ _ H1 H2 Hc1)
    by (intros k Hk; apply Hf; lia).
  rewrite (main_on_working_disk cuisine2 _ _ _ _ q3 name2 q4 menu2 H1 H2).
  - cbn [snd files clock clock_reads].
    replace (S (S (clock_reads w))) with (clock_reads w + 2) by lia.
    replace (S (clock_reads w + 2)) with (clock_reads w + 3) by lia.
    replace (S (clock_reads w)) with (clock_reads w + 1) by lia.
    fold t1 t2 report1 report2.
    split; [apply lookup_insert_eq|]. split.
    + intros Hne. rewrite lookup_insert_ne.
      * apply lookup_insert_eq.
      * intros Heq. apply Hne. symmetry. by apply report_name_inj.
    + intros <-. apply insert_insert_eq.
  - cbn [llm_log]. rewrite length_app. exact Hc2.
  - cbn [disk_fault disk_ops]. intros k Hk.
    rewrite <- Nat.add_assoc. apply Hf. lia.
Qed.

Lemma a_second_run_may_replace_the_report_witness :
  let first :=
    main "Italian" (Some echo_llm)
      (Some create_restaurant_name_prompt_template)
      (Some create_restaurant_menu_prompt_template) world0 in
  let second :=
    main "Thai" (Some echo_llm)
      (Some create_restaurant_name_prompt_template)
      (Some create_restaurant_menu_prompt_template) first.2 in
  let t1 := clock world0 (clock_reads world0) in
  let t2 := clock world0 (clock_reads world0 + 2) in
  let report1 :=
    concat_str
      (manual_report "Italian"
         "Re: I want to open a restaurant for Italian food. Suggest a fancy name for this. Only single name"
         "Re: Suggest some veg menu items for Re: I want to open a restaurant for Italian food. Suggest a fancy name for this. Only single name. Return it as comma separated list."
         (clock world0 (clock_reads world0 + 1))) in
  let report2 :=
    concat_str
      (manual_report "Thai"
         "Re: I want to open a restaurant for Thai food. Suggest a fancy name for this. Only single name"
         "Re: Suggest some veg menu items for Re: I want to open a restaurant for Thai food. Suggest a fancy name for this. Only single name. Return it as comma separated list."
         (clock world0 (clock_reads world0 + 3))) in
  files second.2 !! report_name t2 = Some report2 /\
  (t1 <> t2 -> files second.2 !! report_name t1 = Some report1) /\
  (t1 = t2 -> files second.2 = <[report_name t1 := report2]> (files world0)).
Proof.
  apply (a_second_run_may_replace_the_report "Italian" "Thai" echo_llm
           create_restaurant_name_prompt_template
           create_restaurant_menu_prompt_template world0
           "I want to open a restaurant for Italian food. Suggest a fancy name for this. Only single name"
           "Re: I want to open a restaurant for Italian food. Suggest a fancy name for this. Only single name"
           "Suggest some veg menu items for Re: I want to open a restaurant for Italian food. Suggest a fancy name for this. Only single name. Return it as comma separated list."
           "Re: Suggest some veg menu items for Re: I want to open a restaurant for Italian food. Suggest a fancy name for this. Only single name. Return it as comma separated list."
           "I want to open a restaurant for Thai food. Suggest a fancy name for this. Only single name"
           "Re: I want to open a restaurant for Thai food. Suggest a fancy name for this. Only single name"
           "Suggest some veg menu items for Re: I want to open a restaurant for Thai food. Suggest a fancy name for this. Only single name. Return it as comma separated list."
           "Re: Suggest some veg menu items for Re: I want to open a restaurant for Thai food. Suggest a fancy name for this. Only single name. Return it as comma separated list.").
  - reflexivity.
  - reflexivity.
  - repeat split.
  - repeat split.
  - intros k _. reflexivity.
  - unfold valid_datetime. simpl. lia.
  - unfold valid_datetime. simpl. lia.
Defined.

(** ** The script at the end of its input *)

(** X7: the script asks for the choice and the cuisine before it does
    anything else: when the standard input ends before both lines are
    read, it stops with [EOFError] at the prompt left unanswered, whatever
    the choice was, having run neither runner: no completion call is made,
    the clock is not read and no file operation is attempted. *)
Theorem script_needs_two_lines repr_str OpenAI w :
  length (stdin w) < 2 ->
  let started := script repr_str OpenAI w in
  started.1 = Raise (Exn EOFError "EOF when reading a line") /\
  stdin started.2 = [] /\
  llm_log started.2 = llm_log w /\
  files started.2 = files w /\
  disk_ops started.2 = disk_ops w /\
  clock_reads started.2 = clock_reads w /\
  console started.2 =
    console w ++
      ["Choose implementation:";
       "1. Individual Chains (current implementation)";
       "2. Sequential Chain";
       "Enter your choice (1 or 2): "] ++
      match stdin w with
      | [] => []
      | _ => ["Enter the cuisine type (e.g., Italian, Mexican, Chinese): "]
      end.
Proof.
  intros Hlen started. subst started.
  destruct w as [con sin fs clk cr df dops log]. cbn [stdin] in Hlen.
  destruct sin as [|choice [|cuisine rest]]; [| |cbn in Hlen; lia];
    repeat (split; [reflexivity|]); cbn; by rewrite <- !app_assoc.
Qed.

Lemma script_needs_two_lines_witness :
  let started := script stub_repr stub_llm (world_saying ["1"]) in
  started.1 = Raise (Exn EOFError "EOF when reading a line") /\
  stdin started.2 = [] /\
  llm_log started.2 = llm_log (world_saying ["1"]) /\
  files started.2 = files (world_saying ["1"]) /\
  disk_ops started.2 = disk_ops (world_saying ["1"]) /\
  clock_reads started.2 = clock_reads (world_saying ["1"]) /\
  console started.2 =
    console (world_saying ["1"]) ++
      ["Choose implementation:";
       "1. Individual Chains (current implementation)";
       "2. Sequential Chain";
       "Enter your choice (1 or 2): "] ++
      match stdin (world_saying ["1"]) with
      | [] => []
      | _ => ["Enter the cuisine type (e.g., Italian, Mexican, Chinese): "]
      end.
Proof.
  apply (script_needs_two_lines stub_repr stub_llm (world_saying ["1"])).
  cbn. lia.
Defined.

(** X8: with both lines typed and a choice of ['1'] or ['2'], the script
    runs the chosen runner on the cuisine as typed, with the capability and
    the two templates of [initializeApp]: when both completion calls return
    it ends normally, with [None] from [main] for ['1'] and the result
    [dict] for ['2'], having printed the restaurant name and the menu and
    read nothing more from the standard input. *)
Theorem script_runs_the_chosen_runner
    repr_str OpenAI w choice cuisine rest q1 name q2 menu :
  stdin w = choice :: cuisine :: rest ->
  choice = "1" \/ choice = "2" ->
  completions_return OpenAI create_restaurant_name_prompt_template
    create_restaurant_menu_prompt_template cuisine (length (llm_log w))
    q1 name q2 menu ->
  let chosen := script repr_str OpenAI w in
  chosen.1 =
    (if String.eqb choice "1" then Return PyNone
     else Return (PyDict [("cuisine", cuisine); ("restaurant_name", name);
                          ("menu_items", menu)])) /\
  stdin chosen.2 = rest /\
  llm_log chosen.2 = llm_log w ++ [q1; q2] /\
  "Restaurant: " +:+ name ∈ console chosen.2 /\
  "Menu: " +:+ menu ∈ console chosen.2.
Proof.
  intros Hin Hch Hc chosen. subst chosen.
  rewrite (script_run _ _ _ _ _ _ Hin). cbv zeta.
  destruct Hch as [-> | ->]; cbn [String.eqb Ascii.eqb Bool.eqb].
  - match goal with
    | |- context [main ?c ?l ?a ?b ?w0] =>
        destruct (main_returns c OpenAI
                    create_restaurant_name_prompt_template
                    create_restaurant_menu_prompt_template
                    w0 q1 name q2 menu eq_refl eq_refl Hc) as [cr' ->]
    end.
    cbn [fst snd stdin llm_log console].
    repeat (split; [reflexivity|]).
    split; (apply elem_of_app; right).
    + do 2 apply list_elem_of_further. apply list_elem_of_here.
    + do 3 apply list_elem_of_further. apply list_elem_of_here.
  - match goal with
    | |- context [main_with_sequential_chain _ ?c ?l ?a ?b ?w0] =>
        destruct (sequential_returns repr_str c OpenAI
                    create_restaurant_name_prompt_template
                    create_restaurant_menu_prompt_template
                    w0 q1 name q2 menu eq_refl eq_refl Hc) as [cr' ->]
    end.
    cbn [fst snd stdin llm_log console].
    repeat (split; [reflexivity|]).
    split; (apply elem_of_app; right).
    + do 2 apply list_elem_of_further. apply list_elem_of_here.
    + do 3 apply list_elem_of_further. apply list_elem_of_here.
Qed.

Lemma script_runs_the_chosen_runner_witness :
  let chosen := script stub_repr stub_llm (world_typing "2" "Italian") in
  chosen.1 =
    (if String.eqb "2" "1" then Return PyNone
     else Return (PyDict [("cuisine", "Italian");
                          ("restaurant_name", "Bella Notte");
                          ("menu_items",
                           "Margherita Pizza, Caprese Salad, Bruschetta")])) /\
  stdin chosen.2 = [] /\
  llm_log chosen.2 =
    llm_log (world_typing "2" "Italian") ++
      ["I want to open a restaurant for Italian food. Suggest a fancy name for this. Only single name";
       "Suggest some veg menu items for Bella Notte. Return it as comma separated list."] /\
  "Restaurant: " +:+ "Bella Notte" ∈ console chosen.2 /\
  "Menu: " +:+ "Margherita Pizza, Caprese Salad, Bruschetta"
    ∈ console chosen.2.
Proof.
  apply (script_runs_the_chosen_runner stub_repr stub_llm
           (world_typing "2" "Italian") "2" "Italian" []
           "I want to open a restaurant for Italian food. Suggest a fancy name for this. Only single name"
           "Bella Notte"
           "Suggest some veg menu items for Bella Notte. Return it as comma separated list."
           "Margherita Pizza, Caprese Salad, Bruschetta").
  - reflexivity.
  - right. reflexivity.
  - repeat split.
Defined.

(** ** The web page of [simple_langchain/webApp.py] *)

Lemma split_not_nil sep s : split sep s <> [].
Proof.
  destruct s as [|c s]; [discriminate|]. cbn [split].
  destruct (Ascii.eqb c sep); [discriminate|].
  by destruct (split sep s).
Qed.

Lemma join_cons sep piece pieces :
  pieces <> [] ->
  join sep (piece :: pieces) = piece +:+ sep +:+ join sep pieces.
Proof. by destruct pieces. Qed.

Lemma join_split sep s : join (String sep "") (split sep s) = s.
Proof.
  induction s as [|c s IH]; [reflexivity|]. cbn [split].
  destruct (Ascii.eqb_spec c sep) as [->|Hne].
  - rewrite join_cons by apply split_not_nil. by rewrite IH.
  - pose proof (split_not_nil sep s) as Hnil.
    destruct (split sep s) as [|piece pieces]; [done|].
    destruct pieces as [|piece' pieces].
    + cbn [join] in IH |- *. by rewrite IH.
    + rewrite join_cons by discriminate.
      rewrite join_cons in IH by discriminate.
      change (String c (piece +:+ String sep "" +:+ join (String sep "") (piece' :: pieces))
              = String c s).
      by rewrite IH.
Qed.

Lemma split_length sep s : length (split sep s) = S (count sep s).
Proof.
  induction s as [|c s IH]; [reflexivity|]. cbn [split count].
  destruct (Ascii.eqb c sep).
  - cbn [length]. by rewrite IH.
  - destruct (split sep s) as [|piece pieces]; [discriminate IH|].
    exact IH.
Qed.

Lemma split_pieces sep s :
  Forall (fun piece => count sep piece = 0) (split sep s).
Proof.
  induction s as [|c s IH]; [by repeat constructor|]. cbn [split].
  destruct (Ascii.eqb c sep) eqn:E.
  - by constructor.
  - destruct (split sep s) as [|piece pieces]; [repeat constructor; cbn; by rewrite E|].
    apply Forall_cons in IH as [Hp Hps]. constructor; [|exact Hps].
    cbn [count]. by rewrite E, Hp.
Qed.

(** X9: the menu is cut at its commas and at nothing else: there is one
    piece more than there are commas (one empty piece for an empty menu),
    no piece holds a comma, and the pieces joined by commas are the menu
    text again, so nothing of it is dropped or trimmed: a blank after a
    comma stays at the head of the next piece. *)
Theorem split_keeps_the_whole_text sep s :
  join (String sep "") (split sep s) = s /\
  length (split sep s) = S (count sep s) /\
  Forall (fun piece => count sep piece = 0) (split sep s).
Proof.
  split; [apply join_split|]. split; [apply split_length|apply split_pieces].
Qed.

Lemma for_each_record {L A} (f : A -> L) (l : list A) : forall log w,
  for_each l (fun x => record (f x)) log w = (Return tt, log ++ map f l, w).
Proof.
  induction l as [|x l IH]; intros log w; cbn [for_each map].
  - by rewrite app_nil_r.
  - unfold sbind, record at 1. rewrite IH. by rewrite <- app_assoc.
Qed.

Lemma picked_cuisine picked cuisine :
  WebApp.cuisines !! picked = Some cuisine -> String.eqb cuisine "" = false.
Proof.
  unfold WebApp.cuisines.
  destruct picked as [|[|[|[|[|n]]]]]; intros [= <-]; reflexivity.
Qed.

(** The script once a cuisine is picked, in terms of the runner. *)
Lemma webApp_run repr_str OpenAI picked cuisine page w :
  WebApp.cuisines !! picked = Some cuisine ->
  WebApp.webApp repr_str OpenAI picked page w
  = let shown :=
      page ++ [WebApp.st_title "Restaurant Name and Menu generator";
               WebApp.st_sidebar_selectbox "Pick a cuisine" WebApp.cuisines] in
    match
      main_with_sequential_chain repr_str cuisine (Some OpenAI)
        (Some create_restaurant_name_prompt_template)
        (Some create_restaurant_menu_prompt_template) w
    with
    | (Raise e, w') => (Raise e, shown, w')
    | (Return result, w') =>
        match WebApp.subscript result "restaurant_name" w' with
        | (Raise e, w'') => (Raise e, shown, w'')
        | (Return name, w'') =>
            match WebApp.subscript result "menu_items" w'' with
            | (Raise e, w''') =>
                (Raise e, shown ++ [WebApp.st_header name], w''')
            | (Return menu, w''') =>
                (Return tt,
                 shown ++ [WebApp.st_header name] ++ WebApp.bullets menu, w''')
            end
        end
    end.
Proof.
  intros Hp. pose proof (picked_cuisine _ _ Hp) as Hne.
  unfold WebApp.webApp, WebApp.selectbox, sbind, sret, run.
  change (@record ?L ?x ?l ?w0) with (@Return unit tt, l ++ [x], w0).
  fold WebApp.cuisines. cbv beta iota. rewrite Hp, Hne. cbn [negb].
  change (initializeApp OpenAI w)
    with (Return (OpenAI, create_restaurant_name_prompt_template,
                  create_restaurant_menu_prompt_template), w).
  cbv beta iota zeta. cbn [fst snd].
  rewrite <- app_assoc. cbn [app].
  destruct (main_with_sequential_chain _ _ _ _ _ w) as [[result|e] w'];
    [|reflexivity].
  destruct (WebApp.subscript result "restaurant_name" w') as [[name|e] w''];
    [|reflexivity].
  destruct (WebApp.subscript result "menu_items" w'') as [[menu|e] w'''];
    [|reflexivity].
  rewrite for_each_record. unfold WebApp.bullets.
  by rewrite <- !app_assoc.
Qed.

(** X10: a visit of the page with a cuisine picked runs the whole
    sequential runner, as the command line does: when both completion
    calls return, the page shows the title, the list of cuisines, the
    restaurant name as a header and one bullet for each piece of the menu
    text between commas; the world is left as by the runner (two completion
    calls, its console lines, its report file), and what the disk does to
    the report changes nothing on the page. *)
Theorem page_shows_the_name_and_the_menu
    repr_str OpenAI picked cuisine page w q1 name q2 menu :
  WebApp.cuisines !! picked = Some cuisine ->
  completions_return OpenAI create_restaurant_name_prompt_template
    create_restaurant_menu_prompt_template cuisine (length (llm_log w))
    q1 name q2 menu ->
  let visit := WebApp.webApp repr_str OpenAI picked page w in
  let runner :=
    main_with_sequential_chain repr_str cuisine (Some OpenAI)
      (Some create_restaurant_name_prompt_template)
      (Some create_restaurant_menu_prompt_template) w in
  visit.1.1 = Return tt /\
  visit.1.2 =
    page ++
      [WebApp.st_title "Restaurant Name and Menu generator";
       WebApp.st_sidebar_selectbox "Pick a cuisine"
         ["Indian"; "Chinese"; "Mexican"; "Arabic"; "Italian"];
       WebApp.st_header name] ++
      map (fun item => WebApp.st_write ("- " +:+ item)) (split "," menu) /\
  visit.2 = runner.2 /\
  llm_log visit.2 = llm_log w ++ [q1; q2].
Proof.
  intros Hp Hc visit runner. subst visit runner.
  rewrite (webApp_run _ _ _ _ _ _ Hp). cbv zeta.
  destruct (sequential_returns repr_str cuisine OpenAI
              create_restaurant_name_prompt_template
              create_restaurant_menu_prompt_template w q1 name q2 menu
              eq_refl eq_refl Hc) as [cr' ->].
  cbn [WebApp.subscript]. unfold getitem, result_dict.
  cbn [dict_get String.eqb Ascii.eqb Bool.eqb]. unfold ret.
  cbn [fst snd llm_log]. rewrite <- app_assoc. by repeat split.
Qed.

Lemma page_shows_the_name_and_the_menu_witness :
  let visit := WebApp.webApp stub_repr stub_llm 4 [] world0 in
  let runner :=
    main_with_sequential_chain stub_repr "Italian" (Some stub_llm)
      (Some create_restaurant_name_prompt_template)
      (Some create_restaurant_menu_prompt_template) world0 in
  visit.1.1 = Return tt /\
  visit.1.2 =
    [] ++
      [WebApp.st_title "Restaurant Name and Menu generator";
       WebApp.st_sidebar_selectbox "Pick a cuisine"
         ["Indian"; "Chinese"; "Mexican"; "Arabic"; "Italian"];
       WebApp.st_header "Bella Notte"] ++
      map (fun item => WebApp.st_write ("- " +:+ item))
        (split "," "Margherita Pizza, Caprese Salad, Bruschetta") /\
  visit.2 = runner.2 /\
  llm_log visit.2 =
    llm_log world0 ++
      ["I want to open a restaurant for Italian food. Suggest a fancy name for this. Only single name";
       "Suggest some veg menu items for Bella Notte. Return it as comma separated list."].
Proof.
  apply (page_shows_the_name_and_the_menu stub_repr stub_llm 4 "Italian" []
           world0
           "I want to open a restaurant for Italian food. Suggest a fancy name for this. Only single name"
           "Bella Notte"
           "Suggest some veg menu items for Bella Notte. Return it as comma separated list."
           "Margherita Pizza, Caprese Salad, Bruschetta").
  - reflexivity.
  - repeat split.
Defined.

(** X11: when a completion call raises, the visit ends with that error
    after the title and the list of cuisines: no header and no bullet is
    shown, and no report is written. *)
Theorem page_stops_at_a_capability_error
    repr_str OpenAI picked cuisine page w k e :
  WebApp.cuisines !! picked = Some cuisine ->
  completion_raises OpenAI create_restaurant_name_prompt_template
    create_restaurant_menu_prompt_template cuisine (length (llm_log w)) k e ->
  let visit := WebApp.webApp repr_str OpenAI picked page w in
  visit.1.1 = Raise e /\
  visit.1.2 =
    page ++
      [WebApp.st_title "Restaurant Name and Menu generator";
       WebApp.st_sidebar_selectbox "Pick a cuisine"
         ["Indian"; "Chinese"; "Mexican"; "Arabic"; "Italian"]] /\
  files visit.2 = files w /\
  disk_ops visit.2 = disk_ops w /\
  exists calls, length calls = k /\ llm_log visit.2 = llm_log w ++ calls.
Proof.
  intros Hp Hr visit. subst visit.
  rewrite (webApp_run _ _ _ _ _ _ Hp). cbv zeta.
  destruct (pipeline_raises _ _ _ _ _ _ _ Hr) as (calls & Hpipe & Hk).
  pose proof (seq_chain repr_str cuisine OpenAI
                create_restaurant_name_prompt_template
                create_restaurant_menu_prompt_template w eq_refl eq_refl)
    as Hs.
  cbv zeta in Hs. rewrite Hpipe in Hs. rewrite Hs.
  cbn [fst snd files disk_ops llm_log].
  repeat (split; [reflexivity|]). by exists calls.
Qed.

Lemma page_stops_at_a_capability_error_witness :
  let visit := WebApp.webApp stub_repr dead_llm 0 [] world0 in
  visit.1.1 = Raise (Exn CapabilityError "Connection error.") /\
  visit.1.2 =
    [] ++
      [WebApp.st_title "Restaurant Name and Menu generator";
       WebApp.st_sidebar_selectbox "Pick a cuisine"
         ["Indian"; "Chinese"; "Mexican"; "Arabic"; "Italian"]] /\
  files visit.2 = files world0 /\
  disk_ops visit.2 = disk_ops world0 /\
  exists calls, length calls = 1 /\ llm_log visit.2 = llm_log world0 ++ calls.
Proof.
  apply (page_stops_at_a_capability_error stub_repr dead_llm 0 "Indian" []
           world0 1 (Exn CapabilityError "Connection error.")).
  - reflexivity.
  - eexists. split; reflexivity.
Defined.

(** ** The conversation loop of [simple_agent_with_memory/main.py] *)

Import Conversation.

Lemma window_history xs :
  buffer_as_str (mkMemory 5 (messages_of xs)) = history_of (lastn 5 xs).
Proof.
  unfold buffer_as_str. cbn [k chat_memory].
  destruct (decide (0 < 5)); [|lia].
  by rewrite (lastn_messages_of 5).
Qed.

Lemma saved_exchange xs input response :
  save_context (mkMemory 5 (messages_of xs)) input response
  = mkMemory 5 (messages_of (xs ++ [(input, response)])).
Proof.
  unfold save_context, messages_of. cbn [k chat_memory].
  by rewrite flat_map_app.
Qed.

(** The loop does what [talk] says, given fuel for every line and the end
    of the input. *)
Lemma conversation_loop_talk llm :
  forall lines fuel xs con fs clk cr df dops log,
  length lines < fuel ->
  conversation_loop fuel
    (mkConversationChain llm (mkMemory 5 (messages_of xs))
       create_conversation_prompt)
    (mkWorld con lines fs clk cr df dops log)
  = (ending (ended (talk llm (length log) xs lines)),
     mkWorld (con ++ shown (talk llm (length log) xs lines))
       (unread (talk llm (length log) xs lines)) fs clk cr df dops
       (log ++ sent (talk llm (length log) xs lines))).
Proof.
  induction lines as [|line rest IH];
    intros fuel xs con fs clk cr df dops log Hfuel;
    (destruct fuel as [|fuel]; [cbn in Hfuel; lia|]).
  - cbn [conversation_loop talk shown sent ended unread ending].
    rewrite (bind_unfold (input _)). unfold input. cbn [stdin].
    by rewrite app_nil_r.
  - assert (length rest < fuel) as Hrest by (cbn in Hfuel; lia).
    cbn [conversation_loop talk].
    rewrite (bind_unfold (input _)). unfold input at 1.
    cbn [stdin console files clock clock_reads disk_fault disk_ops llm_log].
    cbv beta iota zeta. unfold read_line.
    destruct (existsb (String.eqb (lower (strip line))) _).
    { rewrite print_step. cbv beta.
      cbn [shown sent ended unread ending]. unfold ret.
      by rewrite <- !app_assoc, app_nil_r. }
    destruct (String.eqb (strip line) "").
    { rewrite (IH fuel xs _ fs clk cr df dops log Hrest).
      unfold and_then. cbn [shown sent ended unread].
      by rewrite <- !app_assoc. }
    rewrite (bind_unfold (try_except _ _)). unfold try_except.
    rewrite (bind_unfold (predict _ _)), predict_run. cbv zeta.
    rewrite window_history.
    destruct (llm (length log) _) as [e|response].
    + rewrite !print_step. cbv beta. unfold ret. cbv beta iota.
      rewrite (IH fuel xs _ fs clk cr df dops _ Hrest).
      rewrite length_app, Nat.add_1_r.
      unfold and_then. cbn [shown sent ended unread].
      by rewrite <- !app_assoc.
    + rewrite print_step. cbv beta. unfold ret. cbv beta iota. cbn [fst snd].
      rewrite saved_exchange.
      rewrite (IH fuel _ _ fs clk cr df dops _ Hrest).
      rewrite length_app, Nat.add_1_r.
      unfold and_then. cbn [shown sent ended unread].
      by rewrite <- !app_assoc.
Qed.

Lemma main_talk llm fuel w :
  length (stdin w) < fuel ->
  main llm fuel w
  = (ending (ended (talk llm (length (llm_log w)) [] (stdin w))),
     mkWorld
       (console w ++ banner ++
          shown (talk llm (length (llm_log w)) [] (stdin w)))
       (unread (talk llm (length (llm_log w)) [] (stdin w)))
       (files w) (clock w) (clock_reads w) (disk_fault w) (disk_ops w)
       (llm_log w ++ sent (talk llm (length (llm_log w)) [] (stdin w)))).
Proof.
  intros Hfuel. destruct w as [con sin fs clk cr df dops log].
  cbn [stdin console files clock clock_reads disk_fault disk_ops llm_log] in *.
  unfold main. rewrite !print_step. cbv beta.
  rewrite (bind_unfold (create_conversation_chain _)).
  rewrite create_conversation_chain_run. cbv beta iota.
  change create_memory with (mkMemory 5 (messages_of [])).
  rewrite (conversation_loop_talk llm sin fuel [] _ fs clk cr df dops log Hfuel).
  unfold banner. by rewrite <- !app_assoc.
Qed.

Lemma talk_ended llm lines : forall i xs,
  ended (talk llm i xs lines) = existsb is_farewell lines.
Proof.
  induction lines as [|line rest IH]; intros i xs; [reflexivity|].
  cbn [talk existsb]. unfold is_farewell at 1.
  destruct (read_line line) as [| |user_input]; cbn [ended orb and_then].
  - reflexivity.
  - apply IH.
  - destruct (llm i _); cbn [ended and_then]; apply IH.
Qed.

Lemma talk_unread llm before bye after : forall i xs,
  Forall (fun line => is_farewell line = false) before ->
  is_farewell bye = true ->
  unread (talk llm i xs (before ++ bye :: after)) = after /\
  last (shown (talk llm i xs (before ++ bye :: after)))
  = Some (nl +:+ "AI: Goodbye! Have a great day!").
Proof.
  intros i xs Hbefore Hbye. revert i xs.
  induction Hbefore as [|line before Hline _ IH]; intros i xs.
  - cbn [app talk]. unfold is_farewell in Hbye.
    by destruct (read_line bye).
  - cbn [app talk]. unfold is_farewell in Hline.
    destruct (read_line line) as [| |user_input]; [discriminate Hline| |].
    + cbn [and_then unread shown]. destruct (IH i xs) as [-> Hl].
      split; [reflexivity|].
      destruct (shown (talk llm i xs (before ++ bye :: after)));
        [discriminate Hl|exact Hl].
    + destruct (llm i _) as [e|response]; cbn [and_then unread shown app].
      * destruct (IH (S i) xs) as [-> Hl]. split; [reflexivity|].
        destruct (shown (talk llm (S i) xs (before ++ bye :: after)));
          [discriminate Hl|exact Hl].
      * destruct (IH (S i) (xs ++ [(user_input, response)])) as [-> Hl].
        split; [reflexivity|].
        destruct (shown (talk llm (S i) _ (before ++ bye :: after)));
          [discriminate Hl|exact Hl].
Qed.

(** X12: the conversation ends by [break] exactly when one of the lines
    typed is a farewell (['quit'], ['exit'] or ['bye'], in any case, with
    blanks around it); otherwise it reads the input to its end and stops
    with the [EOFError] of [input].  What the capability answers, or
    whether it answers at all, does not matter, and the fuel never runs
    out. *)
Theorem conversation_ends_at_a_farewell llm fuel w :
  length (stdin w) < fuel ->
  Forall (fun line => isascii line = true) (stdin w) ->
  (main llm fuel w).1
  = if existsb is_farewell (stdin w) then Return (Some tt)
    else Raise (Exn EOFError "EOF when reading a line").
Proof.
  intros Hfuel _. rewrite (main_talk llm fuel w Hfuel). cbn [fst].
  by rewrite talk_ended.
Qed.

Lemma conversation_ends_at_a_farewell_witness :
  (main hiccup_llm 5 (world_saying ["hello"; "  "; "again"; " Quit "])).1
  = if existsb is_farewell ["hello"; "  "; "again"; " Quit "]
    then Return (Some tt)
    else Raise (Exn EOFError "EOF when reading a line").
Proof.
  apply (conversation_ends_at_a_farewell hiccup_llm 5
           (world_saying ["hello"; "  "; "again"; " Quit "])).
  - cbn. lia.
  - by repeat constructor.
Defined.

(** X13: the loop stops reading at the first farewell: the goodbye is the
    last line on the console, and the lines typed after the farewell are
    left unread on the standard input. *)
Theorem lines_after_the_farewell_stay_unread llm fuel w before bye after :
  length (stdin w) < fuel ->
  stdin w = before ++ bye :: after ->
  Forall (fun line => isascii line = true) (stdin w) ->
  Forall (fun line => is_farewell line = false) before ->
  is_farewell bye = true ->
  stdin (main llm fuel w).2 = after /\
  last (console (main llm fuel w).2)
  = Some (nl +:+ "AI: Goodbye! Have a great day!").
Proof.
  intros Hfuel Hin _ Hbefore Hbye. rewrite (main_talk llm fuel w Hfuel).
  cbn [snd stdin console]. rewrite Hin.
  destruct (talk_unread llm before bye after (length (llm_log w)) []
              Hbefore Hbye) as [-> Hlast].
  split; [reflexivity|].
  rewrite !last_app, Hlast. reflexivity.
Qed.

Lemma lines_after_the_farewell_stay_unread_witness :
  stdin (main terse_llm 5
           (world_saying ["hello"; "BYE"; "are you there?"; "quit"])).2
  = ["are you there?"; "quit"] /\
  last (console (main terse_llm 5
                   (world_saying ["hello"; "BYE"; "are you there?"; "quit"])).2)
  = Some (nl +:+ "AI: Goodbye! Have a great day!").
Proof.
  apply (lines_after_the_farewell_stay_unread terse_llm 5
           (world_saying ["hello"; "BYE"; "are you there?"; "quit"])
           ["hello"] "BYE" ["are you there?"; "quit"]).
  - cbn. lia.
  - reflexivity.
  - by repeat constructor.
  - by repeat constructor.
  - reflexivity.
Defined.

(** ** What is sent to the capability *)

Lemma talk_sent llm lines : forall i xs,
  Forall2
    (fun prompt user_input =>
       user_input <> "" /\
       exists recent,
         length recent <= 5 /\
         prompt = turn_prompt (history_of recent) user_input)
    (sent (talk llm i xs lines)) (said_before_farewell lines).
Proof.
  induction lines as [|line rest IH]; intros i xs; [constructor|].
  cbn [talk said_before_farewell].
  destruct (read_line line) as [| |user_input] eqn:E;
    cbn [and_then sent app].
  - constructor.
  - apply IH.
  - assert (user_input <> "") as Hne.
    { unfold read_line in E.
      destruct (existsb _ _); [discriminate E|].
      destruct (String.eqb_spec (strip line) ""); [discriminate E|].
      by injection E as <-. }
    destruct (llm i _) as [e|response]; cbn [and_then sent app];
      (constructor; [|apply IH]); (split; [exact Hne|]);
      exists (lastn 5 xs); (split; [apply lastn_length|reflexivity]).
Qed.

(** X14: the capability is called once for each line said before the
    first farewell, in the order typed, and for no other line: not for
    blank lines, not for the farewell, not a second time when a call
    fails.  Each prompt is the conversation template with the line said,
    stripped of the blanks around it and never empty, and a history of five
    exchanges at most. *)
Theorem one_call_for_each_line_said llm fuel w :
  length (stdin w) < fuel ->
  Forall (fun line => isascii line = true) (stdin w) ->
  exists prompts,
    llm_log (main llm fuel w).2 = llm_log w ++ prompts /\
    Forall2
      (fun prompt user_input =>
         user_input <> "" /\
         exists recent,
           length recent <= 5 /\
           prompt = turn_prompt (history_of recent) user_input)
      prompts (said_before_farewell (stdin w)).
Proof.
  intros Hfuel _. rewrite (main_talk llm fuel w Hfuel). cbn [snd llm_log].
  eexists. split; [reflexivity|]. apply talk_sent.
Qed.

Lemma one_call_for_each_line_said_witness :
  exists prompts,
    llm_log
      (main hiccup_llm 6
         (world_saying ["hello"; "  "; " again "; "more"; "exit"])).2
    = llm_log (world_saying ["hello"; "  "; " again "; "more"; "exit"])
      ++ prompts /\
    Forall2
      (fun prompt user_input =>
         user_input <> "" /\
         exists recent,
           length recent <= 5 /\
           prompt = turn_prompt (history_of recent) user_input)
      prompts
      (said_before_farewell
         (stdin (world_saying ["hello"; "  "; " again "; "more"; "exit"]))).
Proof.
  apply (one_call_for_each_line_said hiccup_llm 6
           (world_saying ["hello"; "  "; " again "; "more"; "exit"])).
  - cbn. lia.
  - by repeat constructor.
Defined.

(** ** Blank lines *)

Lemma talk_without_blanks llm lines : forall i xs,
  let quiet := filter (fun line => is_nothing line = false) lines in
  sent (talk llm i xs quiet) = sent (talk llm i xs lines) /\
  ended (talk llm i xs quiet) = ended (talk llm i xs lines) /\
  remembered (talk llm i xs quiet) = remembered (talk llm i xs lines).
Proof.
  cbv zeta. induction lines as [|line rest IH]; intros i xs; [done|].
  rewrite filter_cons. unfold is_nothing at 1.
  destruct (decide _) as [Hq|Hq].
  - cbn [talk]. destruct (read_line line) as [| |user_input];
      [done|discriminate Hq|].
    destruct (llm i _) as [e|response];
      cbn [and_then sent ended remembered];
      edestruct IH as (-> & -> & ->); done.
  - cbn [talk]. destruct (read_line line) as [| |user_input];
      [by destruct Hq| |by destruct Hq].
    cbn [and_then sent ended remembered app]. apply IH.
Qed.

(** X15: blank lines are skipped without a trace: a line that is empty or
    all blanks costs no completion call and is not remembered; with the
    blank lines taken out of the input, the conversation ends the same way
    and the same prompts are sent. *)
Theorem blank_lines_change_nothing llm fuel w :
  length (stdin w) < fuel ->
  Forall (fun line => isascii line = true) (stdin w) ->
  let quiet :=
    mkWorld (console w)
      (filter (fun line => is_nothing line = false) (stdin w))
      (files w) (clock w) (clock_reads w) (disk_fault w) (disk_ops w)
      (llm_log w) in
  (main llm fuel quiet).1 = (main llm fuel w).1 /\
  llm_log (main llm fuel quiet).2 = llm_log (main llm fuel w).2.
Proof.
  intros Hfuel _ quiet.
  assert (length (stdin quiet) < fuel) as Hquiet.
  { subst quiet. cbn [stdin].
    pose proof (length_filter (fun line => is_nothing line = false) (stdin w)).
    lia. }
  rewrite (main_talk llm fuel w Hfuel), (main_talk llm fuel quiet Hquiet).
  subst quiet. cbn [fst snd stdin llm_log].
  destruct (talk_without_blanks llm (stdin w) (length (llm_log w)) [])
    as (-> & -> & _).
  by split.
Qed.

Lemma blank_lines_change_nothing_witness :
  let w := world_saying ["hello"; "  "; ""; "again"; "quit"] in
  let quiet :=
    mkWorld (console w)
      (filter (fun line => is_nothing line = false) (stdin w))
      (files w) (clock w) (clock_reads w) (disk_fault w) (disk_ops w)
      (llm_log w) in
  (main terse_llm 6 quiet).1 = (main terse_llm 6 w).1 /\
  llm_log (main terse_llm 6 quiet).2 = llm_log (main terse_llm 6 w).2.
Proof.
  apply (blank_lines_change_nothing terse_llm 6
           (world_saying ["hello"; "  "; ""; "again"; "quit"])).
  - cbn. lia.
  - by repeat constructor.
Defined.

(** ** A capability that is down *)

Lemma talk_unanswered llm lines : forall i xs,
  (forall j prompt, exists e, llm j prompt = inl e) ->
  sent (talk llm i xs lines)
  = map (turn_prompt (history_of (lastn 5 xs))) (said_before_farewell lines) /\
  remembered (talk llm i xs lines) = xs /\
  length (filter (fun line => line = "Please try again.") (shown (talk llm i xs lines)))
  = length (said_before_farewell lines).
Proof.
  intros i xs Hdown. revert i.
  induction lines as [|line rest IH]; intros i; [done|].
  cbn [talk said_before_farewell].
  destruct (read_line line) as [| |user_input];
    cbn [and_then sent remembered shown app map]; [done|apply IH|].
  destruct (Hdown i (turn_prompt (history_of (lastn 5 xs)) user_input))
    as [e ->].
  cbn [and_then sent remembered shown app map].
  destruct (IH (S i)) as (-> & -> & Hn).
  split; [reflexivity|]. split; [reflexivity|].
  rewrite !filter_cons.
  destruct (decide _) as [Hq|_]; [discriminate Hq|].
  destruct (decide _) as [Hq|_].
  { exfalso. revert Hq. unfold nl. cbn. by destruct (exn_str e). }
  destruct (decide _) as [_|Hq]; [|by destruct Hq].
  cbn [length]. by rewrite Hn.
Qed.

(** X16: an error of the capability never ends the conversation, and a
    turn that failed is not remembered.  With a capability that is down for
    the whole conversation, every line said is still sent, each with an
    empty history; each failure is answered by ['Please try again.'] on the
    console; and the loop goes on to the farewell or to the end of the
    input as if nothing had happened. *)
Theorem capability_errors_are_survived llm fuel w :
  length (stdin w) < fuel ->
  Forall (fun line => isascii line = true) (stdin w) ->
  (forall i prompt, exists e, llm i prompt = inl e) ->
  let said := said_before_farewell (stdin w) in
  (main llm fuel w).1
  = (if existsb is_farewell (stdin w) then Return (Some tt)
     else Raise (Exn EOFError "EOF when reading a line")) /\
  llm_log (main llm fuel w).2 = llm_log w ++ map (turn_prompt "") said /\
  exists printed,
    console (main llm fuel w).2 = console w ++ printed /\
    length (filter (fun line => line = "Please try again.") printed) = length said.
Proof.
  intros Hfuel _ Hdown said. subst said.
  rewrite (main_talk llm fuel w Hfuel). cbn [fst snd llm_log console].
  destruct (talk_unanswered llm (stdin w) (length (llm_log w)) [] Hdown)
    as (Hsent & _ & Hn).
  rewrite talk_ended, Hsent. repeat split. eexists. split; [reflexivity|].
  unfold banner. rewrite filter_app. rewrite length_app, Hn. reflexivity.
Qed.

Lemma capability_errors_are_survived_witness :
  let w := world_saying ["hello"; "anyone?"; "bye"] in
  let said := said_before_farewell (stdin w) in
  (main dead_llm 4 w).1
  = (if existsb is_farewell (stdin w) then Return (Some tt)
     else Raise (Exn EOFError "EOF when reading a line")) /\
  llm_log (main dead_llm 4 w).2 = llm_log w ++ map (turn_prompt "") said /\
  exists printed,
    console (main dead_llm 4 w).2 = console w ++ printed /\
    length (filter (fun line => line = "Please try again.") printed) = length said.
Proof.
  apply (capability_errors_are_survived dead_llm 4
           (world_saying ["hello"; "anyone?"; "bye"])).
  - cbn. lia.
  - by repeat constructor.
  - intros i prompt. by eexists.
Defined.

(** ** The window, turn by turn *)

Lemma talk_window llm lines :
  (forall i prompt, exists response, llm i prompt = inr response) ->
  forall i xs,
  exists new,
    remembered (talk llm i xs lines) = xs ++ new /\
    map fst new = said_before_farewell lines /\
    length (sent (talk llm i xs lines)) = length new /\
    forall j prompt,
      sent (talk llm i xs lines) !! j = Some prompt ->
      exists x,
        new !! j = Some x /\
        prompt = turn_prompt (history_of (lastn 5 (xs ++ take j new))) x.1 /\
        llm (i + j) prompt = inr x.2.
Proof.
  intros Hup. induction lines as [|line rest IH]; intros i xs.
  { exists []. cbn [talk remembered sent said_before_farewell].
    rewrite app_nil_r. by repeat split. }
  cbn [talk said_before_farewell].
  destruct (read_line line) as [| |user_input].
  - exists []. cbn [remembered sent]. rewrite app_nil_r. by repeat split.
  - cbn [and_then remembered sent app]. apply IH.
  - destruct (Hup i (turn_prompt (history_of (lastn 5 xs)) user_input))
      as [response Hr].
    rewrite Hr. cbn [and_then remembered sent app].
    destruct (IH (S i) (xs ++ [(user_input, response)]))
      as (new & Hrem & Hsaid & Hlen & Hsent).
    exists ((user_input, response) :: new).
    split; [by rewrite Hrem, <- app_assoc|].
    split; [cbn [map fst]; by rewrite Hsaid|].
    split; [cbn [length]; by rewrite Hlen|].
    intros [|j] prompt.
    + intros [= <-]. exists (user_input, response).
      cbn [take fst snd]. rewrite app_nil_r, Nat.add_0_r. by repeat split.
    + cbn [lookup list_lookup]. intros Hj.
      destruct (Hsent j prompt Hj) as (x & Hx & Hp & Hl).
      exists x. split; [exact Hx|]. split.
      * rewrite Hp. cbn [take]. by rewrite <- app_assoc.
      * rewrite <- Hl. f_equal. lia.
Qed.

(** X17: in the loop the memory is a window that slides: with a
    capability that answers every call, the prompt of each turn carries,
    as its history, the last five of the exchanges before it (all of them
    for the first six turns) and nothing older, each exchange being a line
    said and the answer the capability gave to its prompt. *)
Theorem prompts_carry_the_last_five_exchanges llm fuel w :
  length (stdin w) < fuel ->
  Forall (fun line => isascii line = true) (stdin w) ->
  (forall i prompt, exists response, llm i prompt = inr response) ->
  exists exchanges prompts,
    llm_log (main llm fuel w).2 = llm_log w ++ prompts /\
    map fst exchanges = said_before_farewell (stdin w) /\
    length prompts = length exchanges /\
    forall j prompt,
      prompts !! j = Some prompt ->
      exists x,
        exchanges !! j = Some x /\
        prompt = turn_prompt (history_of (lastn 5 (take j exchanges))) x.1 /\
        llm (length (llm_log w) + j) prompt = inr x.2.
Proof.
  intros Hfuel _ Hup. rewrite (main_talk llm fuel w Hfuel).
  cbn [snd llm_log].
  destruct (talk_window llm (stdin w) Hup (length (llm_log w)) [])
    as (new & _ & Hsaid & Hlen & Hsent).
  exists new, (sent (talk llm (length (llm_log w)) [] (stdin w))).
  by repeat split.
Qed.

Lemma prompts_carry_the_last_five_exchanges_witness :
  exists exchanges prompts,
    llm_log
      (main terse_llm 9
         (world_saying ["one"; "two"; "three"; "four"; "five"; "six";
                        "seven"; "bye"])).2
    = llm_log
        (world_saying ["one"; "two"; "three"; "four"; "five"; "six";
                       "seven"; "bye"]) ++ prompts /\
    map fst exchanges
    = said_before_farewell
        (stdin (world_saying ["one"; "two"; "three"; "four"; "five"; "six";
                              "seven"; "bye"])) /\
    length prompts = length exchanges /\
    forall j prompt,
      prompts !! j = Some prompt ->
      exists x,
        exchanges !! j = Some x /\
        prompt = turn_prompt (history_of (lastn 5 (take j exchanges))) x.1 /\
        terse_llm
          (length
             (llm_log
                (world_saying ["one"; "two"; "three"; "four"; "five"; "six";
                               "seven"; "bye"])) + j) prompt
        = inr x.2.
Proof.
  apply (prompts_carry_the_last_five_exchanges terse_llm 9
           (world_saying ["one"; "two"; "three"; "four"; "five"; "six";
                          "seven"; "bye"])).
  - cbn. lia.
  - by repeat constructor.
  - intros i prompt. by eexists.
Defined.

(** ** The chat loop of [langchain_prompts/chatbot.py] *)

Import Chatbot.

(** The loop does what [chat_calls] and [chat_ending] say, given fuel for
    every line and the end of the input. *)
Lemma static_chat_loop_run repr_messages model :
  forall lines fuel messages calls con fs clk cr df dops log,
  length lines < fuel ->
  exists con' unread,
    static_chat_loop repr_messages model fuel messages calls
      (mkWorld con lines fs clk cr df dops log)
    = (chat_ending model (length calls) messages lines,
       calls ++ chat_calls model (length calls) messages lines,
       mkWorld con' unread fs clk cr df dops log).
Proof.
  induction lines as [|line rest IH];
    intros fuel messages calls con fs clk cr df dops log Hfuel;
    (destruct fuel as [|fuel]; [cbn in Hfuel; lia|]).
  - eexists _, _. cbn [static_chat_loop chat_ending chat_calls].
    unfold sbind, run, input. cbn [stdin]. by rewrite app_nil_r.
  - assert (length rest < fuel) as Hrest by (cbn in Hfuel; lia).
    cbn [static_chat_loop chat_ending chat_calls].
    unfold sbind at 1, run at 1, input at 1. cbn [stdin]. cbv beta iota zeta.
    destruct (String.eqb line "exit").
    { eexists _, _. unfold sret. by rewrite app_nil_r. }
    unfold sbind at 1, model_invoke at 1.
    destruct (model (length calls) _) as [e|response]; [by eexists _, _|].
    unfold sbind at 1, run at 1, print at 1. cbv beta iota zeta.
    cbn [console stdin files clock clock_reads disk_fault disk_ops llm_log].
    match goal with
    | |- context [static_chat_loop _ _ fuel ?m ?c
                    (mkWorld ?con0 _ _ _ _ _ _ _)] =>
        destruct (IH fuel m c con0 fs clk cr df dops log Hrest)
          as (con' & unread & Hrun)
    end.
    rewrite length_app, Nat.add_1_r in Hrun.
    exists con', unread. rewrite Hrun, <- (app_assoc calls). reflexivity.
Qed.

Lemma static_chat_message_run model repr_messages fuel calls w :
  length (stdin w) < fuel ->
  let start := [SystemMessage "You are a helpful assistemt"] in
  exists w',
    static_chat_message model repr_messages fuel calls w
    = (chat_ending model (length calls) start (stdin w),
       calls ++ chat_calls model (length calls) start (stdin w), w') /\
    files w' = files w /\ llm_log w' = llm_log w.
Proof.
  intros Hfuel start. destruct w as [con sin fs clk cr df dops log].
  cbn [stdin] in Hfuel.
  destruct (static_chat_loop_run repr_messages model sin fuel start calls
              con fs clk cr df dops log Hfuel) as (con' & unread & Hrun).
  eexists. split; [|split].
  - unfold static_chat_message, sbind at 1, run at 1, getAzureModel, ret.
    cbv beta iota zeta. exact Hrun.
  - reflexivity.
  - reflexivity.
Qed.

(** Every call is sent all the messages so far and the line just typed. *)
Lemma chat_calls_grow model lines : forall i messages j call,
  chat_calls model i messages lines !! j = Some call ->
  length call = length messages + 2 * j + 1 /\
  (exists said, call = messages ++ said) /\
  exists line, lines !! j = Some line /\ last call = Some (HumanMessage line).
Proof.
  induction lines as [|line rest IH]; intros i messages j call;
    [discriminate|].
  cbn [chat_calls]. destruct (String.eqb line "exit"); [discriminate|].
  destruct (model i _) as [e|response].
  - destruct j as [|j]; [|discriminate]. intros [= <-].
    rewrite length_app. cbn [length]. split; [lia|].
    split; [by eexists|]. exists line. by rewrite last_snoc.
  - destruct j as [|j].
    + intros [= <-]. rewrite length_app. cbn [length]. split; [lia|].
      split; [by eexists|]. exists line. by rewrite last_snoc.
    + cbn [lookup list_lookup]. intros Hj.
      destruct (IH _ _ _ _ Hj) as (Hlen & [said Hsaid] & Hline).
      rewrite !length_app in Hlen. cbn [length] in Hlen.
      split; [lia|]. split; [|exact Hline].
      exists ([HumanMessage line; AIMessage response] ++ said).
      rewrite Hsaid, <- !app_assoc. reflexivity.
Qed.

Lemma chat_calls_step model lines : forall i messages j earlier later,
  chat_calls model i messages lines !! j = Some earlier ->
  chat_calls model i messages lines !! S j = Some later ->
  exists answer line,
    model (i + j) earlier = inr answer /\
    later = earlier ++ [AIMessage answer; HumanMessage line].
Proof.
  induction lines as [|line rest IH]; intros i messages j earlier later;
    [discriminate|].
  cbn [chat_calls]. destruct (String.eqb line "exit"); [discriminate|].
  destruct (model i (messages ++ [HumanMessage line])) as [e|response] eqn:E.
  - destruct j; discriminate.
  - destruct j as [|j].
    + intros [= <-]. cbn [lookup list_lookup].
      destruct rest as [|next rest]; [discriminate|]. cbn [chat_calls].
      destruct (String.eqb next "exit"); [discriminate|].
      rewrite Nat.add_0_r.
      destruct (model (S i) _); intros [= <-]; exists response, next;
        by rewrite <- !app_assoc.
    + cbn [lookup list_lookup]. intros Hj Hsj.
      destruct (IH _ _ _ _ _ Hj Hsj) as (answer & next & Hm & ->).
      exists answer, next. split; [|reflexivity].
      rewrite <- Hm. f_equal. lia.
Qed.

(** X18: [static_chat_message] keeps no window: every call is sent the
    system message and the whole conversation so far, ending with the line
    just typed, as it was typed; call number [j] (from 0) holds [2 * j + 2]
    messages, and each call after the first is the one before it with the
    model's answer and the next line added. *)
Theorem chat_sends_the_whole_conversation model repr_messages fuel w :
  length (stdin w) < fuel ->
  exists calls,
    (static_chat_message model repr_messages fuel [] w).1.2 = calls /\
    (forall j call,
       calls !! j = Some call ->
       length call = 2 * j + 2 /\
       head call = Some (SystemMessage "You are a helpful assistemt") /\
       exists line,
         stdin w !! j = Some line /\ last call = Some (HumanMessage line)) /\
    (forall j earlier later,
       calls !! j = Some earlier -> calls !! S j = Some later ->
       exists answer line,
         model j earlier = inr answer /\
         later = earlier ++ [AIMessage answer; HumanMessage line]).
Proof.
  intros Hfuel.
  destruct (static_chat_message_run model repr_messages fuel [] w Hfuel)
    as (w' & -> & _).
  cbn [fst snd app length]. eexists. split; [reflexivity|]. split.
  - intros j call Hj.
    destruct (chat_calls_grow _ _ _ _ _ _ Hj) as (Hlen & [said ->] & Hline).
    cbn [length] in Hlen. split; [lia|]. split; [reflexivity|exact Hline].
  - intros j earlier later Hj Hsj.
    apply (chat_calls_step _ _ _ _ _ _ _ Hj Hsj).
Qed.

Lemma chat_sends_the_whole_conversation_witness :
  exists calls,
    (static_chat_message parrot plain_repr 4
       [] (world_saying ["hello"; "Exit"; "exit"])).1.2 = calls /\
    (forall j call,
       calls !! j = Some call ->
       length call = 2 * j + 2 /\
       head call = Some (SystemMessage "You are a helpful assistemt") /\
       exists line,
         stdin (world_saying ["hello"; "Exit"; "exit"]) !! j = Some line /\
         last call = Some (HumanMessage line)) /\
    (forall j earlier later,
       calls !! j = Some earlier -> calls !! S j = Some later ->
       exists answer line,
         parrot j earlier = inr answer /\
         later = earlier ++ [AIMessage answer; HumanMessage line]).
Proof.
  apply (chat_sends_the_whole_conversation parrot plain_repr 4
           (world_saying ["hello"; "Exit"; "exit"])).
  cbn. lia.
Defined.

(** ** How the chat ends *)

Lemma chat_answered model before after : forall i messages,
  "exit" ∉ before ->
  (forall j asked, exists answer, model j asked = inr answer) ->
  chat_ending model i messages (before ++ "exit" :: after) = Return (Some tt) /\
  length (chat_calls model i messages (before ++ "exit" :: after))
  = length before.
Proof.
  intros i messages Hno Hup. revert i messages.
  induction before as [|line before IH]; intros i messages; [by split|].
  apply not_elem_of_cons in Hno as [Hline Hno].
  cbn [app chat_ending chat_calls].
  destruct (String.eqb_spec line "exit") as [->|_]; [done|].
  destruct (Hup i (messages ++ [HumanMessage line])) as [answer ->].
  destruct (IH Hno (S i) ((messages ++ [HumanMessage line]) ++
                          [AIMessage answer])) as [-> Hlen].
  split; [reflexivity|]. cbn [length]. by rewrite Hlen.
Qed.

(** X19: the chat ends by [break] at the first line that is exactly
    ['exit'], which is not sent to the model: with a model that answers
    every call, the loop returns after one call for each line typed before,
    and a line such as ['Exit'] or ['exit '] is an ordinary line. *)
Theorem chat_ends_at_exit model repr_messages fuel w before after :
  length (stdin w) < fuel ->
  stdin w = before ++ "exit" :: after ->
  "exit" ∉ before ->
  (forall j asked, exists answer, model j asked = inr answer) ->
  let chat := static_chat_message model repr_messages fuel [] w in
  chat.1.1 = Return (Some tt) /\
  length chat.1.2 = length before /\
  forall j call,
    chat.1.2 !! j = Some call ->
    exists line, before !! j = Some line /\ last call = Some (HumanMessage line).
Proof.
  intros Hfuel Hin Hno Hup chat. subst chat.
  destruct (static_chat_message_run model repr_messages fuel [] w Hfuel)
    as (w' & -> & _).
  cbn [fst snd app length]. rewrite Hin.
  destruct (chat_answered model before after 0
              [SystemMessage "You are a helpful assistemt"] Hno Hup)
    as [-> Hlen].
  split; [reflexivity|]. split; [exact Hlen|].
  intros j call Hj.
  destruct (chat_calls_grow _ _ _ _ _ _ Hj) as (_ & _ & line & Hline & Hlast).
  exists line. split; [|exact Hlast].
  apply lookup_lt_Some in Hj. rewrite Hlen in Hj.
  by rewrite lookup_app_l in Hline.
Qed.

Lemma chat_ends_at_exit_witness :
  let chat :=
    static_chat_message parrot plain_repr 5 []
      (world_saying ["hello"; "Exit"; "exit "; "exit"]) in
  chat.1.1 = Return (Some tt) /\
  length chat.1.2 = length ["hello"; "Exit"; "exit "] /\
  forall j call,
    chat.1.2 !! j = Some call ->
    exists line,
      ["hello"; "Exit"; "exit "] !! j = Some line /\
      last call = Some (HumanMessage line).
Proof.
  apply (chat_ends_at_exit parrot plain_repr 5
           (world_saying ["hello"; "Exit"; "exit "; "exit"])
           ["hello"; "Exit"; "exit "] []).
  - cbn. lia.
  - reflexivity.
  - rewrite !not_elem_of_cons. repeat split; try discriminate.
    apply not_elem_of_nil.
  - intros j asked. by eexists.
Defined.

Lemma chat_fails model before line rest e : forall i messages,
  "exit" ∉ before ++ [line] ->
  (forall j asked,
     j < length before -> exists answer, model (i + j) asked = inr answer) ->
  (forall asked, model (i + length before) asked = inl e) ->
  chat_ending model i messages (before ++ line :: rest) = Raise e /\
  length (chat_calls model i messages (before ++ line :: rest))
  = S (length before).
Proof.
  intros i messages Hno Hup Hdown. revert i messages Hup Hdown.
  induction before as [|said before IH]; intros i messages Hup Hdown.
  - cbn [app chat_ending chat_calls]. cbn [app] in Hno.
    apply not_elem_of_cons in Hno as [Hline _].
    destruct (String.eqb_spec line "exit") as [->|_]; [done|].
    cbn [length] in Hdown. rewrite Nat.add_0_r in Hdown.
    by rewrite Hdown.
  - cbn [app] in Hno. apply not_elem_of_cons in Hno as [Hsaid Hno].
    cbn [app chat_ending chat_calls].
    destruct (String.eqb_spec said "exit") as [->|_]; [done|].
    destruct (Hup 0 (messages ++ [HumanMessage said])) as [answer Ha];
      [cbn; lia|].
    rewrite Nat.add_0_r in Ha. rewrite Ha.
    destruct (IH Hno (S i) ((messages ++ [HumanMessage said]) ++
                            [AIMessage answer])) as [-> Hlen].
    + intros j asked Hj. destruct (Hup (S j) asked) as [a Hm]; [cbn; lia|].
      exists a. rewrite <- Hm. f_equal. lia.
    + intros asked. rewrite <- (Hdown asked). f_equal. cbn [length]. lia.
    + split; [reflexivity|]. cbn [length]. by rewrite Hlen.
Qed.

(** X20: [static_chat_message] handles no error: when the model, having
    answered the calls before, raises on a call, the chat ends there with
    that error, after that one call more and with the lines typed after it
    never sent. *)
Theorem chat_stops_at_a_model_error
    model repr_messages fuel w before line rest e :
  length (stdin w) < fuel ->
  stdin w = before ++ line :: rest ->
  "exit" ∉ before ++ [line] ->
  (forall j asked,
     j < length before -> exists answer, model j asked = inr answer) ->
  (forall asked, model (length before) asked = inl e) ->
  let chat := static_chat_message model repr_messages fuel [] w in
  chat.1.1 = Raise e /\
  length chat.1.2 = S (length before) /\
  files chat.2 = files w.
Proof.
  intros Hfuel Hin Hno Hup Hdown chat. subst chat.
  destruct (static_chat_message_run model repr_messages fuel [] w Hfuel)
    as (w' & -> & Hfiles & _).
  cbn [fst snd app length]. rewrite Hin.
  destruct (chat_fails model before line rest e 0
              [SystemMessage "You are a helpful assistemt"] Hno Hup Hdown)
    as [-> Hlen].
  by repeat split.
Qed.

Lemma chat_stops_at_a_model_error_witness :
  let chat :=
    static_chat_message silent plain_repr 4 []
      (world_saying ["hello"; "anyone?"; "exit"]) in
  chat.1.1 = Raise (Exn CapabilityError "Connection error.") /\
  length chat.1.2 = 1 /\
  files chat.2 = files (world_saying ["hello"; "anyone?"; "exit"]).
Proof.
  apply (chat_stops_at_a_model_error silent plain_repr 4
           (world_saying ["hello"; "anyone?"; "exit"])
           [] "hello" ["anyone?"; "exit"]
           (Exn CapabilityError "Connection error.")).
  - cbn. lia.
  - reflexivity.
  - cbn [app]. rewrite !not_elem_of_cons. split; [discriminate|].
    apply not_elem_of_nil.
  - intros j asked Hj. cbn in Hj. lia.
  - reflexivity.
Defined.
